(** * twilight-self-backend: the verification handlers, in Rocq

    A shallow embedding of the three Express servers of the repository
    ([src/server.mjs], [src/unnamed/part_003], [src/unnamed/part_002]), of
    the storage helpers of [src/database.mjs] and of the signature utility
    [verifySignature] (the [cosmosVerify.mjs] part of [src/server.mjs]).

    Conventions.
    - A JavaScript value is a [JsVal]; numbers are the integral JSON numbers
      (no NaN, no fractions); a string is a [string], a sequence of
      characters below 256.
    - [req.body] is an object, as [express.json()] leaves it.
    - A handler is a function from the parsed request body and the world
      (the two tables and the console) to a response and a new world.
      Exceptions are explicit: a computation returns [Ok] or [Throw].
    - What the handlers call but the repository does not define (the
      zk-passport verifier, the PostgreSQL pool, [Date.parse], the curve
      verification) is a field of the record [Runtime]; the Self verifier is
      the handlers' [selfBackendVerifier], [None] while it is [null].  Every
      theorem holds for every runtime.
    - One clock reading serves a whole request.
    - Console messages keep the text of the source without its pictographs. *)

From Stdlib Require Import ZArith List String Ascii Bool Lia DecimalString.
Import ListNotations.
Open Scope string_scope.
Open Scope Z_scope.

(** ** JavaScript values *)

#[warnings="-register-all"]
Inductive JsVal : Type :=
| JUndefined
| JNull
| JBool (b : bool)
| JNum (n : Z)
| JStr (s : string)
| JArr (items : list JsVal)
| JObj (fields : list (string * JsVal)).

(** An object is its list of own properties, in insertion order
    ([Object.keys] shows the order). *)
Definition JsObject := list (string * JsVal).

(** [ToBoolean]. *)
Definition truthy (v : JsVal) : bool :=
  match v with
  | JUndefined | JNull => false
  | JBool b => b
  | JNum n => negb (n =? 0)
  | JStr s => negb (s =? "")%string
  | JArr _ | JObj _ => true
  end.

(** [o.k] on an object: the first binding of [k], [undefined] without one. *)
Fixpoint get (o : JsObject) (k : string) : JsVal :=
  match o with
  | [] => JUndefined
  | (k', v) :: rest => if (k' =? k)%string then v else get rest k
  end.

(** [Object.keys(o)]. *)
Definition Object_keys (o : JsObject) : JsVal :=
  JArr (map (fun kv => JStr (fst kv)) o).

(** [a ?? b]. *)
Definition nullish (a b : JsVal) : JsVal :=
  match a with
  | JUndefined | JNull => b
  | _ => a
  end.

(** [a || b]. *)
Definition js_or (a b : JsVal) : JsVal := if truthy a then a else b.

(** [typeof v === "string"] and [typeof v === "boolean"]. *)
Definition is_string (v : JsVal) : bool :=
  match v with JStr _ => true | _ => false end.

Definition is_boolean (v : JsVal) : bool :=
  match v with JBool _ => true | _ => false end.

(** Strict equality [===] on the values the tables and the handlers compare.
    Two arrays or two objects are compared structurally here: the handlers
    only ever compare strings, and the store compares text. *)
Fixpoint strict_eq (a b : JsVal) {struct a} : bool :=
  let fix all2 (xs ys : list JsVal) {struct xs} : bool :=
    match xs, ys with
    | [], [] => true
    | x :: xs', y :: ys' => strict_eq x y && all2 xs' ys'
    | _, _ => false
    end in
  let fix fields2 (xs ys : list (string * JsVal)) {struct xs} : bool :=
    match xs, ys with
    | [], [] => true
    | (k, x) :: xs', (k', y) :: ys' =>
        (k =? k')%string && strict_eq x y && fields2 xs' ys'
    | _, _ => false
    end in
  match a, b with
  | JUndefined, JUndefined => true
  | JNull, JNull => true
  | JBool x, JBool y => Bool.eqb x y
  | JNum x, JNum y => x =? y
  | JStr x, JStr y => (x =? y)%string
  | JArr xs, JArr ys => all2 xs ys
  | JObj xs, JObj ys => fields2 xs ys
  | _, _ => false
  end.

(** ** Exceptions and the world *)

(** A thrown [Error]: its constructor name and its [message]. *)
Record JsError : Type := mkError { err_name : string; err_message : string }.

Definition Error_ (msg : string) : JsError := mkError "Error" msg.
Definition ReferenceError (ident : string) : JsError :=
  mkError "ReferenceError" (ident ++ " is not defined").
Definition TypeError (msg : string) : JsError := mkError "TypeError" msg.
Definition RangeError (msg : string) : JsError := mkError "RangeError" msg.

(** [error?.message || "Internal server error"]. *)
Definition message_or (e : JsError) (dflt : string) : string :=
  if (err_message e =? "")%string then dflt else err_message e.

Inductive Result (A : Type) : Type :=
| Ok (a : A)
| Throw (e : JsError).
Arguments Ok {A} a.
Arguments Throw {A} e.

(** A row of table [zkpass] and a row of table [selfcheck]; a cell holds the
    value bound to the INSERT's parameter. *)
Record ZkpassRow : Type := mkZkpassRow
  { address : JsVal; identifier : JsVal; provider : JsVal }.

Record SelfcheckRow : Type := mkSelfcheckRow
  { attestationId : JsVal; proof : JsVal }.

Inductive ConsoleLine : Type :=
| console_log (text : string) (args : list JsVal)
| console_error (text : string) (e : JsError).

Record World : Type := mkWorld
  { zkpass : list ZkpassRow;
    selfcheck : list SelfcheckRow;
    console : list ConsoleLine }.

(** ** Dates

    A [Date] holds a time value: milliseconds since the epoch, or NaN
    ([None], an invalid date).  The calendar is the one of ECMAScript
    (21.4.1); the local time zone is taken to be UTC. *)

Module JsDate.

Definition msPerDay : Z := 86400000.

Definition DayFromYear (y : Z) : Z :=
  365 * (y - 1970) + (y - 1969) / 4 - (y - 1901) / 100 + (y - 1601) / 400.

Definition InLeapYear (y : Z) : bool :=
  (y mod 4 =? 0) && (negb (y mod 100 =? 0) || (y mod 400 =? 0)).

(** Days from 1 January to the first day of month [m] (0 = January). *)
Definition month_start (leap : bool) (m : Z) : Z :=
  let l := if leap then 1 else 0 in
  match m with
  | 0 => 0
  | 1 => 31
  | 2 => 59 + l
  | 3 => 90 + l
  | 4 => 120 + l
  | 5 => 151 + l
  | 6 => 181 + l
  | 7 => 212 + l
  | 8 => 243 + l
  | 9 => 273 + l
  | 10 => 304 + l
  | _ => 334 + l
  end.

Definition MakeDay (year month date : Z) : Z :=
  let ym := year + month / 12 in
  let mn := month mod 12 in
  DayFromYear ym + month_start (InLeapYear ym) mn + date - 1.

Definition MakeDate (day time : Z) : Z := day * msPerDay + time.

(** [TimeClip]: a time value beyond 8.64e15 ms is NaN. *)
Definition TimeClip (t : Z) : option Z :=
  if Z.abs t <=? 8640000000000000 then Some t else None.

(** What [new Date()] shows through [getFullYear], [getMonth], [getDate]
    and the time within the day. *)
Record Clock : Type := mkClock
  { fullYear : Z; month : Z; date : Z; timeInDay : Z }.

Definition valid_clock (c : Clock) : Prop :=
  0 <= month c <= 11 /\ 1 <= date c <= 31 /\ 0 <= timeInDay c < msPerDay.

(** The time value of the clock reading: [new Date().getTime()]. *)
Definition getTime (c : Clock) : Z :=
  MakeDate (MakeDay (fullYear c) (month c) (date c)) (timeInDay c).

(** [d.setFullYear(d.getFullYear() + 1)] on [d = new Date()]: the time
    value [d] holds afterwards. *)
Definition setFullYear_next (c : Clock) : Z :=
  MakeDate (MakeDay (fullYear c + 1) (month c) (date c)) (timeInDay c).

End JsDate.

(** ** What the verifiers return *)

(** The outcome of [SelfBackendVerifier.verify]: the three objects the
    handlers read, [result.isValidDetails], [result.discloseOutput] and
    [result.userData]; a property may be absent from any of them. *)
Record SelfResult : Type := mkSelfResult
  { isValidDetails : JsObject;
    discloseOutput : JsObject;
    userData : JsObject }.

(** The outcome of [ZKPassport.verify]: [verified] is a boolean and
    [uniqueIdentifier] a string or [undefined] ([None]). *)
Record ZkResult : Type := mkZkResult
  { verified : bool;
    uniqueIdentifier : option string;
    queryResultErrors : JsVal }.

Definition opt_str (o : option string) : JsVal :=
  match o with Some s => JStr s | None => JUndefined end.

(** [selfBackendVerifier.verify(attestationId, proof, publicSignals,
    userContextData)]: the verifier object is its [verify] method. *)
Definition SelfBackendVerifier : Type :=
  JsVal -> JsVal -> JsVal -> JsVal -> Result SelfResult.

(** ** The runtime: everything the handlers call and the repository does
    not define *)

Record Runtime : Type := mkRuntime
  { (** [pool.query] of an INSERT into [zkpass]: [None] when the row is
        stored, the error the query rejects with otherwise. *)
    insert_zkpass : list ZkpassRow -> ZkpassRow -> option JsError;
    insert_selfcheck : list SelfcheckRow -> SelfcheckRow -> option JsError;
    (** [pool.query] of the SELECT COUNT on [selfcheck]: the error it
        rejects with, if it does. *)
    select_selfcheck : list SelfcheckRow -> JsVal -> option JsError;
    (** [Buffer.from(v, "hex").toString("utf8")] for an array or object
        [v]. *)
    Buffer_from_object : JsVal -> Result string;
    (** [new ZKPassport(..).verify({proofs, queryResult, scope, devMode})]. *)
    zk_verify : JsVal -> JsVal -> JsVal -> bool -> Result ZkResult;
    (** [new Date()]. *)
    now : JsDate.Clock;
    (** [toISOString] of a valid time value. *)
    iso : Z -> string;
    (** [Date.parse] of a non-empty string. *)
    Date_parse : string -> option Z;
    (** [ToPrimitive] of an array or object, as a string. *)
    ToPrimitive : JsVal -> string;
    (** [v == s] for a number, boolean, array or object [v] and a string
        [s] (the comparisons that go through [ToNumber]). *)
    coerce_eq : JsVal -> string -> bool;
    (** [verifyADR36Amino(hrp, address, messageBytes, pubKey, signature,
        "secp256k1")]. *)
    verifyADR36Amino :
      string -> string -> string -> string -> string -> Result bool }.

(** ** Computations: state and exceptions *)

Definition M (A : Type) : Type := World -> Result A * World.

Definition ret {A} (a : A) : M A := fun w => (Ok a, w).

Definition throw {A} (e : JsError) : M A := fun w => (Throw e, w).

Definition bind {A B} (m : M A) (k : A -> M B) : M B :=
  fun w =>
    match m w with
    | (Ok a, w') => k a w'
    | (Throw e, w') => (Throw e, w')
    end.

(** [try { body } catch (e) { handler(e) }]. *)
Definition try_catch {A} (body : M A) (handler : JsError -> M A) : M A :=
  fun w =>
    match body w with
    | (Ok a, w') => (Ok a, w')
    | (Throw e, w') => handler e w'
    end.

Definition lift {A} (r : Result A) : M A := fun w => (r, w).

Definition print (l : ConsoleLine) : M unit :=
  fun w => (Ok tt, mkWorld (zkpass w) (selfcheck w) (console w ++ [l])).

Notation "x <- m ;; k" := (bind m (fun x => k))
  (at level 61, m at next level, right associativity).
Notation "m ;;; k" := (bind m (fun _ => k))
  (at level 61, right associativity).

(** An HTTP response: the status and the JSON body. *)
Record Response : Type := mkResponse { status : Z; body : JsObject }.

(** [res.json(o)] and [res.status(n).json(o)]. *)
Definition json (o : JsObject) : Response := mkResponse 200 o.
Definition status_json (n : Z) (o : JsObject) : Response := mkResponse n o.

(** ** Built-ins the handlers use *)

Section Builtins.
Variable rt : Runtime.

(** [new Date(v)]: the time value the date holds. *)
Definition new_Date (v : JsVal) : option Z :=
  match v with
  | JUndefined => None
  | JNull => Some 0
  | JBool b => Some (if b then 1 else 0)
  | JNum n => JsDate.TimeClip n
  | JStr s => if (s =? "")%string then None else Date_parse rt s
  | JArr _ | JObj _ =>
      let s := ToPrimitive rt v in
      if (s =? "")%string then None else Date_parse rt s
  end.

(** [d.toISOString()]: a RangeError on an invalid date. *)
Definition toISOString (d : option Z) : M string :=
  match d with
  | Some t => ret (iso rt t)
  | None => throw (RangeError "Invalid time value")
  end.

(** [new Date().toISOString()]. *)
Definition timestamp : JsVal := JStr (iso rt (JsDate.getTime (now rt))).

(** [server == client] for the server's string-or-undefined and any client
    value (abstract equality, ECMAScript 7.2.14). *)
Definition loose_eq (server : option string) (client : JsVal) : bool :=
  match server, client with
  | None, (JUndefined | JNull) => true
  | None, _ => false
  | Some _, (JUndefined | JNull) => false
  | Some s, JStr c => (s =? c)%string
  | Some s, _ => coerce_eq rt client s
  end.

End Builtins.

(** [s.split(sep)[0]] for a one-character separator: what precedes the
    first [sep]. *)
Fixpoint before_first (sep : ascii) (s : string) : string :=
  match s with
  | EmptyString => EmptyString
  | String c rest =>
      if Ascii.eqb c sep then EmptyString else String c (before_first sep rest)
  end.

(** [s.startsWith(p)]. *)
Definition startsWith (s p : string) : bool := String.prefix p s.

(** [list.includes(v)] for a list of string literals (SameValueZero: only
    an equal string is included). *)
Definition includes (l : list string) (v : JsVal) : bool :=
  match v with
  | JStr s => existsb (String.eqb s) l
  | _ => false
  end.

Definition hex_digit (c : ascii) : option N :=
  let n := N_of_ascii c in
  if ((48 <=? n) && (n <=? 57))%N then Some (n - 48)%N
  else if ((97 <=? n) && (n <=? 102))%N then Some (n - 87)%N
  else if ((65 <=? n) && (n <=? 70))%N then Some (n - 55)%N
  else None.

(** [Buffer.from(s, "hex")] as a byte string: pairs of hex digits, up to
    the first pair that is not one. *)
Fixpoint hex_decode (s : string) : string :=
  match s with
  | String a (String b rest) =>
      match hex_digit a, hex_digit b with
      | Some x, Some y => String (ascii_of_N (16 * x + y)) (hex_decode rest)
      | _, _ => EmptyString
      end
  | _ => EmptyString
  end.

(** [Buffer.from(v, "hex").toString("utf8")]; the decoded bytes are kept as
    they are (UTF-8 decoding is the identity on ASCII). *)
Definition Buffer_from_hex (rt : Runtime) (v : JsVal) : Result string :=
  match v with
  | JStr s => Ok (hex_decode s)
  | JArr _ | JObj _ => Buffer_from_object rt v
  | _ => Throw (TypeError "The first argument must be of type string or an instance of Buffer, ArrayBuffer, or Array or an Array-like Object.")
  end.

(** ** The policy checks of [POST /api/verify] *)

Module Policy.

(** [const isExpiryValid = expiryDate > oneYearFromNow] (part_003:175,
    server.mjs:157), on two dates: false when [expiryDate] is invalid. *)
Definition isExpiryValid (expiryDate : option Z) (oneYearFromNow : Z)
  : bool :=
  match expiryDate with
  | Some t => oneYearFromNow <? t
  | None => false
  end.

(** The expiry check at clock reading [now] (part_003:172-175,
    server.mjs:154-157): [oneYearFromNow] is [now] after
    [setFullYear(getFullYear() + 1)]. *)
Definition expiryOk (expiryDate : option Z) (now : JsDate.Clock) : bool :=
  isExpiryValid expiryDate (JsDate.setFullYear_next now).

Definition allowedCountries : list string := ["CHN"; "IDN"; "MYS"; "USA"].

(** [allowedCountries.includes(issuingCountry)] (part_003:178-180,
    server.mjs:159-161). *)
Definition countryOk (issuingCountry : JsVal) (allowList : list string)
  : bool :=
  includes allowList issuingCountry.

Definition isCountryAllowed (issuingCountry : JsVal) : bool :=
  countryOk issuingCountry allowedCountries.

End Policy.

(** A handler body with its outer [try]/[catch]. *)
Definition handler (body : M Response)
    (catch : JsError -> World -> Response * World)
  : World -> Response * World :=
  fun w =>
    match body w with
    | (Ok r, w') => (r, w')
    | (Throw e, w') => catch e w'
    end.

(** ** [src/database.mjs] *)

Module Database.
Section WithRuntime.
Variable rt : Runtime.

Definition row_object (r : ZkpassRow) : JsVal :=
  JObj [("address", address r); ("identifier", identifier r);
        ("provider", provider r)].

Definition saveVerification (uniqueIdentifier address provider : JsVal)
  : M JsVal :=
  fun w =>
    let row := mkZkpassRow address uniqueIdentifier provider in
    match insert_zkpass rt (zkpass w) row with
    | None =>
        (Ok (row_object row),
         mkWorld (zkpass w ++ [row]) (selfcheck w) (console w))
    | Some error =>
        (print (console_error "Error saving verification:" error) ;;;
         throw error) w
    end.

Definition saveSelfCheck (attestationId proof : JsVal) : M JsVal :=
  fun w =>
    let row := mkSelfcheckRow attestationId proof in
    match insert_selfcheck rt (selfcheck w) row with
    | None =>
        (Ok (JObj [("attestationid", attestationId); ("proof", proof)]),
         mkWorld (zkpass w) (selfcheck w ++ [row]) (console w))
    | Some error =>
        (print (console_error "Error saving verification:" error) ;;;
         throw error) w
    end.

(** [SELECT COUNT( * ) ... WHERE attestationId = $1], then
    [parseInt(count) > 0]. *)
Definition count_selfcheck (rows : list SelfcheckRow) (id : JsVal) : Z :=
  Z.of_nat (List.length
              (filter (fun r => strict_eq (attestationId r) id) rows)).

Definition checkAttestationExists (attestationId : JsVal) : M bool :=
  fun w =>
    match select_selfcheck rt (selfcheck w) attestationId with
    | None => (Ok (0 <? count_selfcheck (selfcheck w) attestationId), w)
    | Some error =>
        (print (console_error "Error checking attestation existence:" error)
         ;;; throw error) w
    end.

End WithRuntime.
End Database.

(** The [catch] of the providerA handlers: log, then 500 with the error's
    message. *)
Definition catch_500 (rt : Runtime) (text : string) (error : JsError)
  : World -> Response * World :=
  fun w =>
    match print (console_error text error) w with
    | (_, w') =>
        (status_json 500
           [("status", JStr "error");
            ("message", JStr (message_or error "Internal server error"));
            ("timestamp", timestamp rt)], w')
    end.

(** The [catch] of [POST /api/verify/zkpass]. *)
Definition catch_zkpass (e : JsError) : World -> Response * World :=
  fun w =>
    match print (console_error "/api/verify/zkpass error:" e) w with
    | (_, w') =>
        (status_json 500 [("error", JStr "verification_failed")], w')
    end.

(** [typeof devMode === "boolean" ? devMode : true]. *)
Definition devMode_or_true (devMode : JsVal) : bool :=
  match devMode with JBool b => b | _ => true end.

(** ** [src/unnamed/part_003]: the server with both providers *)

Module Part003.
Section WithRuntime.
Variable rt : Runtime.
Variable selfBackendVerifier : option SelfBackendVerifier.

(** Lines 198-227: the [try] block after the policy checks. *)
Definition best_effort (result : SelfResult) (proof : JsVal) : M unit :=
  try_catch
    (Database.saveSelfCheck rt (get (userData result) "userIdentifier") proof
       ;;;
     print (console_log "Self check saved" []) ;;;
     cosmosAddress <-
       lift (Buffer_from_hex rt (get (userData result) "userDefinedData")) ;;
     print (console_log "Decoded cosmos address:" [JStr cosmosAddress]) ;;;
     if negb (startsWith cosmosAddress "twilight")
     then throw (Error_ "Invalid cosmos address format")
     else
       savedRecord <-
         Database.saveVerification rt
           (get (userData result) "userIdentifier")
           (JStr cosmosAddress) (JStr "self") ;;
       print (console_log "uuid:" [get (userData result) "userIdentifier"])
         ;;;
       print (console_log "Data saved successfully:" [savedRecord]))
    (fun dbErr => print (console_error "DB save failed (self):" dbErr)).

(** Lines 228-237: the response after the block. *)
Definition success_response (result : SelfResult) : M Response :=
  print (console_log "Verification successful!" []) ;;;
  ret (json [("status", JStr "success");
             ("message", JStr "Verification completed");
             ("result", JBool true);
             ("details", JObj (isValidDetails result));
             ("timestamp", timestamp rt)]).

(** Lines 168-196: the policy checks and their two log lines. *)
Definition policy_checks (result : SelfResult) : M unit :=
  print (console_log "User Identifier:"
           [get (userData result) "userIdentifier"]) ;;;
  let expiryDate := new_Date rt (get (discloseOutput result) "expiryDate") in
  let isExpiryValid := Policy.expiryOk expiryDate (now rt) in
  let issuingCountry := get (discloseOutput result) "issuingState" in
  let isCountryAllowed := Policy.isCountryAllowed issuingCountry in
  isoString <- toISOString rt expiryDate ;;
  print (console_log "Document Expiry:"
           [JObj [("expiryDate", JStr (before_first "T" isoString));
                  ("hasOneYearValidity", JBool isExpiryValid);
                  ("message",
                   JStr (if isExpiryValid
                         then "Document has more than 1 year validity"
                         else "Document expires within 1 year"))]]) ;;;
  print (console_log "Issuing country:"
           [JObj [("country", issuingCountry);
                  ("isAllowed", JBool isCountryAllowed);
                  ("message",
                   JStr (if isCountryAllowed
                         then "Document is from an allowed country"
                         else "Document is not from an allowed country"))]]).

Definition failure_response (result : SelfResult) : M Response :=
  let response :=
    [("status", JStr "error");
     ("result", JBool false);
     ("message", JStr "Verification failed");
     ("details", JObj (isValidDetails result));
     ("timestamp", timestamp rt)] in
  print (console_log "Self verification failed:" [JObj response]) ;;;
  ret (status_json 400 response).

(** Lines 151-249: the verifier call and the branch on its outcome. *)
Definition call_verifier (verifier : SelfBackendVerifier)
    (attestationId proof publicSignals userContextData : JsVal)
  : M Response :=
  print (console_log "Verifying via Self SDK..." [attestationId]) ;;;
  result <-
    lift (verifier attestationId proof publicSignals userContextData) ;;
  print (console_log "Self verification result:"
           [JObj (isValidDetails result)]) ;;;
  if truthy (get (isValidDetails result) "isValid")
  then
    policy_checks result ;;;
    best_effort result proof ;;;
    success_response result
  else failure_response result.

(** [POST /api/verify], lines 134-258.  The lengths in the log line before
    the verifier call are not kept. *)
Definition api_verify (req_body : JsObject) : World -> Response * World :=
  handler
    (print (console_log "Received Self verification request:"
              [JObj req_body]) ;;;
     match selfBackendVerifier with
     | None => throw (Error_ "Self Backend Verifier not initialized")
     | Some verifier =>
         let attestationId := get req_body "attestationId" in
         let proof := get req_body "proof" in
         let publicSignals := get req_body "publicSignals" in
         let userContextData := get req_body "userContextData" in
         if negb (truthy proof) || negb (truthy publicSignals)
            || negb (truthy attestationId) || negb (truthy userContextData)
         then
           ret (status_json 400
                  [("status", JStr "error");
                   ("message", JStr "Proof, publicSignals, attestationId, and userContextData are required")])
         else
           call_verifier verifier attestationId proof publicSignals
             userContextData
     end)
    (catch_500 rt "Self Protocol Verification error:").

(** [POST /api/verify/self], lines 260-312. *)
Definition api_verify_self (req_body : JsObject)
  : World -> Response * World :=
  handler
    (print (console_log "Received Self verification request:"
              [JObj req_body]) ;;;
     let cosmosAddress := get req_body "cosmosAddress" in
     let uuid := get req_body "uuid" in
     if negb (truthy cosmosAddress) || negb (truthy uuid)
     then
       ret (status_json 400
              [("status", JStr "error");
               ("message", JStr "cosmosAddress and attestationId are required");
               ("timestamp", timestamp rt)])
     else
       print (console_log "Checking if attestation ID exists:" [uuid]) ;;;
       attestationExists <- Database.checkAttestationExists rt uuid ;;
       if negb attestationExists
       then
         print (console_log "Attestation ID not found in selfcheck table" [])
           ;;;
         ret (status_json 404
                [("status", JStr "error");
                 ("message", JStr "Attestation ID not found in selfcheck table");
                 ("uuid", uuid);
                 ("timestamp", timestamp rt)])
       else
         print (console_log "Attestation ID found, saving to zkpass table" [])
           ;;;
         savedRecord <-
           Database.saveVerification rt uuid cosmosAddress (JStr "self") ;;
         print (console_log "Data saved successfully:" [savedRecord]) ;;;
         ret (json [("status", JStr "success");
                    ("message", JStr "Verification data saved successfully");
                    ("data", savedRecord);
                    ("timestamp", timestamp rt)]))
    (catch_500 rt "/api/verify/self error:").

(** Lines 354-364: the gate and the write behind it. *)
Definition save_if_match (clientUID cosmosAddress : JsVal) (zk : ZkResult)
  : M unit :=
  if loose_eq rt (uniqueIdentifier zk) clientUID && Bool.eqb (verified zk) true
  then
    try_catch
      (Database.saveVerification rt
         (js_or clientUID (opt_str (uniqueIdentifier zk)))
         (nullish cosmosAddress JNull) (JStr "zkpass") ;;;
       print (console_log "ZKPass verification saved" []))
      (fun dbErr => print (console_error "DB save failed (zkpass):" dbErr))
  else ret tt.

(** Lines 366-375: the envelope. *)
Definition envelope (clientUID cosmosAddress : JsVal) (zk : ZkResult)
  : JsObject :=
  [("status", JStr (if verified zk then "success" else "error"));
   ("verified", JBool (verified zk));
   ("clientUID", clientUID);
   ("serverUID", opt_str (uniqueIdentifier zk));
   ("match",
    if truthy clientUID
    then JBool (strict_eq clientUID (opt_str (uniqueIdentifier zk)))
    else JNull);
   ("queryResultErrors", queryResultErrors zk);
   ("address", nullish cosmosAddress JNull);
   ("timestamp", timestamp rt)].

(** [POST /api/verify/zkpass], lines 317-380; [req.body ?? {}] is the body
    itself, an object. *)
Definition api_verify_zkpass (req_body : JsObject)
  : World -> Response * World :=
  handler
    (let proofs := get req_body "proofs" in
     let queryResult := get req_body "queryResult" in
     let result := get req_body "result" in
     let scope := get req_body "scope" in
     let clientUID := get req_body "uniqueIdentifier" in
     let cosmosAddress := get req_body "cosmosAddress" in
     let devMode := get req_body "devMode" in
     let qr := nullish queryResult result in
     if negb (truthy proofs) || negb (truthy qr) || negb (truthy scope)
     then
       ret (status_json 400
              [("error", JStr "missing fields");
               ("have", Object_keys req_body)])
     else
       print (console_log "ZKPass client UID:" [clientUID]) ;;;
       zk <- lift (zk_verify rt proofs qr scope (devMode_or_true devMode)) ;;
       save_if_match clientUID cosmosAddress zk ;;;
       ret (json (envelope clientUID cosmosAddress zk)))
    catch_zkpass.

End WithRuntime.
End Part003.

(** ** [src/server.mjs]: the server beside [src/database.mjs]

    The module imports [saveVerification] and [checkAttestationExists]
    only; [saveSelfCheck], [attestationId] (in [/api/verify/self]) and
    [address] (in [/api/verify/zkpass]) are not bound where they are used,
    and evaluating them throws a ReferenceError. *)

Module ServerMjs.
Section WithRuntime.
Variable rt : Runtime.
Variable selfBackendVerifier : option SelfBackendVerifier.

(** Lines 172-181: the [try] block after the policy checks. *)
Definition best_effort (result : SelfResult) (proof : JsVal) : M unit :=
  try_catch
    (@throw JsVal (ReferenceError "saveSelfCheck") ;;;
     print (console_log "Self check saved" []))
    (fun dbErr => print (console_error "DB save failed (self):" dbErr)).

(** Lines 154-170: the policy checks; what the response reuses is
    returned. *)
Definition policy_checks (result : SelfResult)
  : M (option Z * bool * JsVal * bool) :=
  let expiryDate := new_Date rt (get (discloseOutput result) "expiryDate") in
  let isExpiryValid := Policy.expiryOk expiryDate (now rt) in
  let issuingCountry := get (discloseOutput result) "issuingState" in
  let isCountryAllowed := Policy.isCountryAllowed issuingCountry in
  isoString <- toISOString rt expiryDate ;;
  print (console_log "Expiry:"
           [JObj [("expiryDate", JStr (before_first "T" isoString));
                  ("hasOneYearValidity", JBool isExpiryValid)]]) ;;;
  print (console_log "Issuing country:"
           [JObj [("country", issuingCountry);
                  ("isAllowed", JBool isCountryAllowed)]]) ;;;
  ret (expiryDate, isExpiryValid, issuingCountry, isCountryAllowed).

(** Lines 183-194: the response after the block. *)
Definition success_response (result : SelfResult)
    (checks : option Z * bool * JsVal * bool) : M Response :=
  let '(expiryDate, isExpiryValid, issuingCountry, isCountryAllowed) :=
    checks in
  isoString <- toISOString rt expiryDate ;;
  ret (json [("status", JStr "success");
             ("message", JStr "Verification completed");
             ("userIdentifier", get (userData result) "userIdentifier");
             ("expiry", JObj [("date", JStr isoString);
                              ("hasOneYearValidity", JBool isExpiryValid)]);
             ("issuingCountry", issuingCountry);
             ("isCountryAllowed", JBool isCountryAllowed);
             ("timestamp", timestamp rt)]).

Definition failure_response (result : SelfResult) : M Response :=
  let response :=
    [("status", JStr "error");
     ("result", JBool false);
     ("message", JStr "Verification failed");
     ("details", JObj (isValidDetails result));
     ("timestamp", timestamp rt)] in
  print (console_log "Self verification failed:" [JObj response]) ;;;
  ret (status_json 400 response).

(** Lines 136-205: the verifier call and the branch on its outcome. *)
Definition call_verifier (verifier : SelfBackendVerifier)
    (attestationId proof publicSignals userContextData : JsVal)
  : M Response :=
  print (console_log "Verifying via Self SDK..." [attestationId]) ;;;
  result <-
    lift (verifier attestationId proof publicSignals userContextData) ;;
  print (console_log "Self verification result:"
           [JObj (isValidDetails result)]) ;;;
  if truthy (get (isValidDetails result) "isValid")
  then
    checks <- policy_checks result ;;
    best_effort result proof ;;;
    success_response result checks
  else failure_response result.

(** [POST /api/verify], lines 119-214. *)
Definition api_verify (req_body : JsObject) : World -> Response * World :=
  handler
    (print (console_log "Received Self verification request:"
              [JObj req_body]) ;;;
     match selfBackendVerifier with
     | None => throw (Error_ "Self Backend Verifier not initialized")
     | Some verifier =>
         let attestationId := get req_body "attestationId" in
         let proof := get req_body "proof" in
         let publicSignals := get req_body "publicSignals" in
         let userContextData := get req_body "userContextData" in
         if negb (truthy proof) || negb (truthy publicSignals)
            || negb (truthy attestationId) || negb (truthy userContextData)
         then
           ret (status_json 400
                  [("status", JStr "error");
                   ("message", JStr "Proof, publicSignals, attestationId, userContextData, and cosmosAddress are required")])
         else
           call_verifier verifier attestationId proof publicSignals
             userContextData
     end)
    (catch_500 rt "/api/verify/self error:").

(** [POST /api/verify/self], lines 216-268. *)
Definition api_verify_self (req_body : JsObject)
  : World -> Response * World :=
  handler
    (print (console_log "Received Self verification request:"
              [JObj req_body]) ;;;
     let cosmosAddress := get req_body "cosmosAddress" in
     let uuid := get req_body "uuid" in
     if negb (truthy cosmosAddress) || negb (truthy uuid)
     then
       ret (status_json 400
              [("status", JStr "error");
               ("message", JStr "cosmosAddress and attestationId are required");
               ("timestamp", timestamp rt)])
     else
       print (console_log "Checking if attestation ID exists:" [uuid]) ;;;
       attestationExists <- Database.checkAttestationExists rt uuid ;;
       if negb attestationExists
       then
         print (console_log "Attestation ID not found in selfcheck table" [])
           ;;;
         throw (ReferenceError "attestationId")
       else
         print (console_log "Attestation ID found, saving to zkpass table" [])
           ;;;
         savedRecord <-
           Database.saveVerification rt uuid cosmosAddress (JStr "self") ;;
         print (console_log "Data saved successfully:" [savedRecord]) ;;;
         ret (json [("status", JStr "success");
                    ("message", JStr "Verification data saved successfully");
                    ("data", savedRecord);
                    ("timestamp", timestamp rt)]))
    (catch_500 rt "/api/verify/self error:").

(** Lines 310-320: the gate and the write behind it; [saveVerification] is
    called with two arguments, so [provider] is [undefined]. *)
Definition save_if_match (clientUID cosmosAddress : JsVal) (zk : ZkResult)
  : M unit :=
  if loose_eq rt (uniqueIdentifier zk) clientUID && Bool.eqb (verified zk) true
  then
    try_catch
      (Database.saveVerification rt
         (js_or clientUID (opt_str (uniqueIdentifier zk)))
         (nullish cosmosAddress JNull) JUndefined ;;;
       print (console_log "ZKPass verification saved" []))
      (fun dbErr => print (console_error "DB save failed (zkpass):" dbErr))
  else ret tt.

(** [POST /api/verify/zkpass], lines 273-336.  The object of lines 322-331
    is built property by property; [address ?? null] throws before
    [res.json] is called. *)
Definition api_verify_zkpass (req_body : JsObject)
  : World -> Response * World :=
  handler
    (let proofs := get req_body "proofs" in
     let queryResult := get req_body "queryResult" in
     let result := get req_body "result" in
     let scope := get req_body "scope" in
     let clientUID := get req_body "uniqueIdentifier" in
     let cosmosAddress := get req_body "cosmosAddress" in
     let devMode := get req_body "devMode" in
     let qr := nullish queryResult result in
     if negb (truthy proofs) || negb (truthy qr) || negb (truthy scope)
     then
       ret (status_json 400
              [("error", JStr "missing fields");
               ("have", Object_keys req_body)])
     else
       print (console_log "ZKPass client UID:" [clientUID]) ;;;
       zk <- lift (zk_verify rt proofs qr scope (devMode_or_true devMode)) ;;
       save_if_match clientUID cosmosAddress zk ;;;
       throw (ReferenceError "address"))
    catch_zkpass.

End WithRuntime.
End ServerMjs.

(** ** [src/unnamed/part_002]: the first server, providerA only, no store *)

Module Part002.
Section WithRuntime.
Variable rt : Runtime.
Variable selfBackendVerifier : option SelfBackendVerifier.

(** Lines 118-158: the verifier call and the branch on its outcome. *)
Definition call_verifier (verifier : SelfBackendVerifier)
    (attestationId proof publicSignals userContextData : JsVal)
  : M Response :=
  print (console_log "Verifying proof with Self Protocol SDK..."
           [attestationId]) ;;;
  result <-
    lift (verifier attestationId proof publicSignals userContextData)
    ;;
  print (console_log "Self Protocol verification result:"
           [JObj (isValidDetails result)]) ;;;
  if truthy (get (isValidDetails result) "isValid")
  then
    let response :=
      [("status", JStr "success");
       ("result", JBool true);
       ("credentialSubject", JObj (discloseOutput result));
       ("timestamp", timestamp rt);
       ("attestationId", attestationId)] in
    print (console_log "Verification successful! Returning:"
             [JObj response]) ;;;
    ret (json response)
  else
    let response :=
      [("status", JStr "error");
       ("result", JBool false);
       ("message", JStr "Verification failed");
       ("details", JObj (isValidDetails result));
       ("timestamp", timestamp rt)] in
    print (console_log "Verification failed:" [JObj response]) ;;;
    ret (status_json 500 response).

(** [POST /api/verify], lines 95-168. *)
Definition api_verify (req_body : JsObject) : World -> Response * World :=
  handler
    (print (console_log "Received verification request from Self Protocol:"
              [JObj req_body]) ;;;
     match selfBackendVerifier with
     | None => throw (Error_ "Self Backend Verifier not initialized")
     | Some verifier =>
         let attestationId := get req_body "attestationId" in
         let proof := get req_body "proof" in
         let publicSignals := get req_body "publicSignals" in
         let userContextData := get req_body "userContextData" in
         if negb (truthy proof) || negb (truthy publicSignals)
            || negb (truthy attestationId) || negb (truthy userContextData)
         then
           ret (status_json 400
                  [("message", JStr "Proof, publicSignals, attestationId and userContextData are required")])
         else
           call_verifier verifier attestationId proof publicSignals
             userContextData
     end)
    (catch_500 rt "Verification error:").

End WithRuntime.
End Part002.

(** ** [cosmosVerify.mjs] (the second part of [src/server.mjs]) *)

Module CosmosVerify.

(** Template-literal printing of a length. *)
Definition show_nat (n : nat) : string :=
  NilEmpty.string_of_uint (Nat.to_uint n).

(** The value of a character of the class [[A-Za-z0-9+/]]. *)
Definition b64_value (c : ascii) : option N :=
  let n := N_of_ascii c in
  if ((65 <=? n) && (n <=? 90))%N then Some (n - 65)%N
  else if ((97 <=? n) && (n <=? 122))%N then Some (n - 71)%N
  else if ((48 <=? n) && (n <=? 57))%N then Some (n + 4)%N
  else if (n =? 43)%N then Some 62%N
  else if (n =? 47)%N then Some 63%N
  else None.

Definition is_b64_char (c : ascii) : bool :=
  match b64_value c with Some _ => true | None => false end.

(** What is left of [s] after its longest prefix in the class. *)
Fixpoint after_b64_chars (s : string) : string :=
  match s with
  | EmptyString => EmptyString
  | String c rest => if is_b64_char c then after_b64_chars rest else s
  end.

(** [/^[A-Za-z0-9+/]+={0,2}$/.test(s)]. *)
Definition base64_regex (s : string) : bool :=
  match s with
  | EmptyString => false
  | String c _ =>
      is_b64_char c
      && let tail := after_b64_chars s in
         ((tail =? "") || (tail =? "=") || (tail =? "=="))%string
  end.

(** [assertBase64(name, b64)], lines 354-362; the accepted string is
    returned. *)
Definition assertBase64 (name : string) (b64 : JsVal) : Result string :=
  match b64 with
  | JStr s =>
      if negb (Nat.eqb (Nat.modulo (String.length s) 4) 0)
         || negb (base64_regex s)
      then Throw (Error_ (name ++ " is not valid base64"))
      else Ok s
  | _ => Throw (Error_ (name ++ " is not valid base64"))
  end.

Fixpoint sextets (s : string) : list N :=
  match s with
  | EmptyString => []
  | String c rest =>
      match b64_value c with
      | Some v => v :: sextets rest
      | None => []
      end
  end.

Fixpoint bytes_of_sextets (l : list N) : string :=
  match l with
  | a :: b :: c :: d :: rest =>
      String (ascii_of_N (a * 4 + b / 16))
        (String (ascii_of_N ((b mod 16) * 16 + c / 4))
           (String (ascii_of_N ((c mod 4) * 64 + d))
              (bytes_of_sextets rest)))
  | [a; b; c] =>
      String (ascii_of_N (a * 4 + b / 16))
        (String (ascii_of_N ((b mod 16) * 16 + c / 4)) EmptyString)
  | [a; b] => String (ascii_of_N (a * 4 + b / 16)) EmptyString
  | _ => EmptyString
  end%N.

(** [Buffer.from(s, "base64")] on a string [assertBase64] accepted. *)
Definition Buffer_from_base64 (s : string) : string :=
  bytes_of_sextets (sextets s).

Definition printable (c : ascii) : bool :=
  let n := N_of_ascii c in ((32 <=? n) && (n <=? 126))%N.

Fixpoint first_unprintable (s : string) : option ascii :=
  match s with
  | EmptyString => None
  | String c rest => if printable c then first_unprintable rest else Some c
  end.

(** [toAscii] of [@cosmjs/encoding]: it throws on a character outside the
    printable ASCII range. *)
Definition toAscii (input : string) : Result string :=
  match first_unprintable input with
  | None => Ok input
  | Some c =>
      Throw (Error_ ("Cannot encode character that is out of printable ASCII range: "
                     ++ show_nat (nat_of_ascii c)))
  end.

Definition rbind {A B} (r : Result A) (k : A -> Result B) : Result B :=
  match r with
  | Ok a => k a
  | Throw e => Throw e
  end.

(** The value [verifySignature] returns: [{ ok }] or [{ ok: false, error }]. *)
Record Verdict : Type := mkVerdict { ok : bool; error : option string }.

(** [err?.message || String(err)]. *)
Definition error_text (err : JsError) : string :=
  if (err_message err =? "")%string then err_name err else err_message err.

(** The [try] block of [verifySignature], lines 373-411. *)
Definition verify_body (rt : Runtime)
    (bech32Address signatureB64 pubkeyB64 messageString : JsVal)
  : Result bool :=
  match bech32Address with
  | JStr address =>
      match messageString with
      | JStr message =>
          let prefix := before_first "1" address in
          let hrp := if (prefix =? "")%string then "cosmos" else prefix in
          rbind (assertBase64 "signatureB64" signatureB64) (fun sigB64 =>
          rbind (assertBase64 "pubkeyB64" pubkeyB64) (fun pubB64 =>
          let pubKey := Buffer_from_base64 pubB64 in
          let signature := Buffer_from_base64 sigB64 in
          rbind (toAscii message) (fun messageBytes =>
          if negb (Nat.eqb (String.length pubKey) 33)
          then Throw (Error_ ("pubkey must be 33 bytes (compressed secp256k1). Got "
                              ++ show_nat (String.length pubKey)))
          else if negb (Nat.eqb (String.length signature) 64)
          then Throw (Error_ ("signature must be 64 bytes (r||s). Got "
                              ++ show_nat (String.length signature)))
          else verifyADR36Amino rt hrp address messageBytes pubKey signature)))
      | _ => Throw (Error_ "messageString must be a string")
      end
  | _ => Throw (Error_ "bech32Address must be a string")
  end.

(** [verifySignature], lines 372-415. *)
Definition verifySignature (rt : Runtime)
    (bech32Address signatureB64 pubkeyB64 messageString : JsVal) : Verdict :=
  match verify_body rt bech32Address signatureB64 pubkeyB64 messageString with
  | Ok ok => mkVerdict ok None
  | Throw err => mkVerdict false (Some (error_text err))
  end.

End CosmosVerify.

(** ** Dates in a local time zone

    [getFullYear], [getMonth], [getDate] and [setFullYear] work on local
    time (ECMAScript 21.4.1.25-26): local time is the time value plus
    [LocalTZA], the zone's offset from UTC at that instant, and the way
    back subtracts the offset at the new local instant, which differs from
    the first when a daylight-saving change lies between the two.  A
    [JsDate.Clock] read in a zone holds the local fields; with both offsets
    0 these definitions are [JsDate.getTime], [JsDate.setFullYear_next] and
    [Policy.expiryOk]. *)

Module LocalTime.

(** The time value of a clock read where the offset is [offset_now] (ms):
    [new Date().getTime()]. *)
Definition getTime (offset_now : Z) (c : JsDate.Clock) : Z :=
  JsDate.getTime c - offset_now.

(** The time value after [setFullYear(getFullYear() + 1)], where the
    offset at the new local instant is [offset_then]. *)
Definition setFullYear_next (offset_then : Z) (c : JsDate.Clock) : Z :=
  JsDate.setFullYear_next c - offset_then.

(** [expiryDate > oneYearFromNow] in that zone. *)
Definition expiryOk (offset_then : Z) (expiryDate : option Z)
    (now : JsDate.Clock) : bool :=
  Policy.isExpiryValid expiryDate (setFullYear_next offset_then now).

End LocalTime.

(** ** Vocabulary of the statements *)

(** What the check of [POST /api/verify] on its four fields computes. *)
Definition required_fields_present (req_body : JsObject) : bool :=
  truthy (get req_body "proof") && truthy (get req_body "publicSignals")
  && truthy (get req_body "attestationId")
  && truthy (get req_body "userContextData").

(** The world after one more console line. *)
Definition logged (l : ConsoleLine) (w : World) : World :=
  mkWorld (zkpass w) (selfcheck w) (console w ++ [l]).

(** What the checks of [POST /api/verify/zkpass] and of
    [POST /api/verify/self] on their fields compute. *)
Definition zk_fields_present (req_body : JsObject) : bool :=
  truthy (get req_body "proofs")
  && truthy (nullish (get req_body "queryResult") (get req_body "result"))
  && truthy (get req_body "scope").

Definition binding_fields_present (req_body : JsObject) : bool :=
  truthy (get req_body "cosmosAddress") && truthy (get req_body "uuid").

(** The row the zk-passport handler binds to its INSERT. *)
Definition zk_row (provider clientUID cosmosAddress : JsVal) (zk : ZkResult)
  : ZkpassRow :=
  mkZkpassRow (nullish cosmosAddress JNull)
    (js_or clientUID (opt_str (uniqueIdentifier zk))) provider.

(** The rows a step added to table [zkpass]: [w'] holds those of [w]
    followed by [added]. *)
Definition zkpass_added (w w' : World) (added : list ZkpassRow) : Prop :=
  zkpass w' = (zkpass w ++ added)%list.

(** A field the request body does not have. *)
Definition missing (req_body : JsObject) (k : string) : Prop :=
  get req_body k = JUndefined.

(** [w'] has the tables of [w] (the console may differ). *)
Definition same_tables (w w' : World) : Prop :=
  zkpass w' = zkpass w /\ selfcheck w' = selfcheck w.

(** [new] is [old], or [old] with one more row, which satisfies [P]. *)
Definition at_most_one {A : Type} (P : A -> Prop) (old new : list A) : Prop :=
  new = old \/ exists r, new = (old ++ [r])%list /\ P r.

(** [s] is made of pairs of hex digits. *)
Fixpoint hex_pairs (s : string) : bool :=
  match s with
  | EmptyString => true
  | String a (String b rest) =>
      match hex_digit a, hex_digit b with
      | Some _, Some _ => hex_pairs rest
      | _, _ => false
      end
  | String _ EmptyString => false
  end.

(** The alphabet of the class [[A-Za-z0-9+/]], by character code. *)
Definition base64_alphabet (c : ascii) : Prop :=
  let n := N_of_ascii c in
  (65 <= n <= 90 \/ 97 <= n <= 122 \/ 48 <= n <= 57 \/ n = 43 \/ n = 47)%N.

(** What [/^[A-Za-z0-9+/]+={0,2}$/] and [length % 4 === 0] say of a string:
    one or more characters of the alphabet, then at most two "=", four
    characters to the group. *)
Definition base64_shape (s : string) : Prop :=
  exists body pad,
    s = (body ++ pad)%string
    /\ body <> ""
    /\ (forall c, In c (list_ascii_of_string body) -> base64_alphabet c)
    /\ (pad = "" \/ pad = "=" \/ pad = "==")
    /\ Nat.modulo (String.length s) 4 = 0%nat.

(** ** Sample runtimes and requests *)

Module Sample.

(** 29 February 2024, 12:00. *)
Definition clock : JsDate.Clock := JsDate.mkClock 2024 1 29 43200000.

(** A runtime whose store answers every INSERT with [insert_error], whose
    zk-passport verifier answers [zk], and whose [Date.parse] reads every
    non-empty string as 1 January 2030. *)
Definition runtime (insert_error : option JsError) (zk : Result ZkResult)
  : Runtime :=
  mkRuntime
    (fun _ _ => insert_error)
    (fun _ _ => insert_error)
    (fun _ _ => None)
    (fun _ => Throw (TypeError "not a buffer"))
    (fun _ _ _ _ => zk)
    clock
    (fun _ => "2030-01-01T00:00:00.000Z")
    (fun _ => Some 1893456000000)
    (fun _ => "[object Object]")
    (fun _ _ => false)
    (fun _ _ _ _ _ => Ok false).

Definition store_down : JsError := Error_ "connect ECONNREFUSED".

Definition empty_world : World := mkWorld [] [] [].

(** A world whose [selfcheck] table holds a submission for "u1". *)
Definition audited_world : World :=
  mkWorld [] [mkSelfcheckRow (JStr "u1") (JObj [])] [].

(** [{cosmosAddress: "twilight1abc", uuid: "u1"}]. *)
Definition binding_request : JsObject :=
  [("cosmosAddress", JStr "twilight1abc"); ("uuid", JStr "u1")].

(** A zk-passport request without [uniqueIdentifier], and one with it. *)
Definition zk_request : JsObject :=
  [("proofs", JArr [JObj []]); ("queryResult", JObj []);
   ("scope", JStr "twilight")].

Definition zk_request_with (uid : string) : JsObject :=
  (zk_request ++ [("uniqueIdentifier", JStr uid);
                  ("cosmosAddress", JStr "twilight1abc")])%list.

Definition zk_verified (uid : string) : ZkResult :=
  mkZkResult true (Some uid) JNull.

(** A providerA request, and a verifier answering with a valid outcome
    whose expiry date is [expiry] and whose user-defined data is [hex]. *)
Definition self_request : JsObject :=
  [("attestationId", JStr "1"); ("proof", JObj [("a", JArr [])]);
   ("publicSignals", JArr [JStr "0"]); ("userContextData", JStr "00ff")].

(** The request with an empty [publicSignals] array, and the request with
    an empty [attestationId]. *)
Definition self_request_no_signals : JsObject :=
  [("attestationId", JStr "1"); ("proof", JObj [("a", JArr [])]);
   ("publicSignals", JArr []); ("userContextData", JStr "00ff")].

Definition self_request_empty_id : JsObject :=
  [("attestationId", JStr ""); ("proof", JObj [("a", JArr [])]);
   ("publicSignals", JArr [JStr "0"]); ("userContextData", JStr "00ff")].

Definition self_valid (expiry : JsVal) (hex : string) : SelfResult :=
  mkSelfResult
    [("isValid", JBool true)]
    [("expiryDate", expiry); ("issuingState", JStr "FRA")]
    [("userIdentifier", JStr "u1"); ("userDefinedData", JStr hex)].

Definition verifier_of (r : SelfResult) : SelfBackendVerifier :=
  fun _ _ _ _ => Ok r.

(** "twilight1abc" and "cosmos1abc" in hex. *)
Definition twilight_hex : string := "7477696c6967687431616263".
Definition cosmos_hex : string := "636f736d6f7331616263".

(** Base64 of 33, 64 and 65 zero bytes. *)
Definition pubkey33 : string :=
  "AAAAAAAAAAAAAAAAAAAAAAAAAAAAAAAAAAAAAAAAAAAA".
Definition signature64 : string :=
  "AAAAAAAAAAAAAAAAAAAAAAAAAAAAAAAAAAAAAAAAAAAAAAAAAAAAAAAAAAAAAAAAAAAAAAAAAAAAAAAAAAAAAA==".
Definition signature65 : string :=
  "AAAAAAAAAAAAAAAAAAAAAAAAAAAAAAAAAAAAAAAAAAAAAAAAAAAAAAAAAAAAAAAAAAAAAAAAAAAAAAAAAAAAAAA=".

End Sample.

(** ** Start-up: environment, CORS, configuration, health *)

(** [process.env]: a variable is unset ([undefined]) or a string. *)
Definition ProcessEnv : Type := string -> option string.

(** Truthiness of [process.env[k]]: set, and not the empty string. *)
Definition env_set (v : option string) : bool :=
  match v with
  | Some s => negb (s =? "")%string
  | None => false
  end.

(** [s.split(sep)] for a one-character separator. *)
Fixpoint split (sep : ascii) (s : string) : list string :=
  match s with
  | EmptyString => [EmptyString]
  | String c rest =>
      if Ascii.eqb c sep then EmptyString :: split sep rest
      else
        match split sep rest with
        | piece :: pieces => String c piece :: pieces
        | [] => [String c EmptyString]
        end
  end.

(** [pieces.join(sep)]. *)
Fixpoint join (sep : ascii) (pieces : list string) : string :=
  match pieces with
  | [] => EmptyString
  | [piece] => piece
  | piece :: rest => piece ++ String sep (join sep rest)
  end.

Module Boot.




(** [server.mjs]:27-29: [CORS_ORIGINS] split at commas, or four local
    origins. *)
Definition corsOrigins_server (env : ProcessEnv) : list string :=
  match env "CORS_ORIGINS" with
  | Some s =>
      if (s =? "")%string
      then ["http://localhost:3000"; "http://localhost:3001";
            "http://localhost:4173"; "http://localhost:5173"]
      else split "," s
  | None => ["http://localhost:3000"; "http://localhost:3001";
             "http://localhost:4173"; "http://localhost:5173"]
  end.

(** [part_003]:34-39: the list is fixed. *)
Definition allowedOrigins_part003 : list string :=
  ["http://localhost:4173"; "http://localhost:5173"; "http://localhost:3000";
   "http://localhost:3001"].

(** The [origin] callback of [cors(...)] ([server.mjs]:33-36,
    [part_003]:42-45): the boolean it passes to [cb]; [origin] is the
    request's Origin header, [None] without one. *)
Definition origin_allowed (origins : list string) (origin : option string)
  : bool :=
  match origin with
  | None => true
  | Some o => if (o =? "")%string then true else existsb (String.eqb o) origins
  end.













(** [GET /health] ([server.mjs]:106-114, [part_003]:121-129,
    [part_002]:84-92, where [message] differs). *)
Definition health (message : string) (rt : Runtime) (env : ProcessEnv)
    (selfBackendVerifier : option SelfBackendVerifier) : Response :=
  json [("status", JStr "ok");
        ("message", JStr message);
        ("timestamp", timestamp rt);
        ("verifierReady",
         JBool (match selfBackendVerifier with
                | Some _ => true
                | None => false
                end));
        ("environment",
         JStr (match env "NODE_ENV" with
               | Some s => if (s =? "")%string then "development" else s
               | None => "development"
               end))].

End Boot.

(** ** A server as a whole: requests served one after the other *)

Inductive Request : Type :=
| GetHealth
| PostVerify (req_body : JsObject)
| PostVerifySelf (req_body : JsObject)
| PostVerifyZkpass (req_body : JsObject).

(** A server: how it answers one request in one runtime. *)
Definition App : Type := Runtime -> Request -> World -> Response * World.

(** The routes of [server.mjs] and of [part_003]. *)
Definition app_server (env : ProcessEnv)
    (selfBackendVerifier : option SelfBackendVerifier) : App :=
  fun rt request w =>
    match request with
    | GetHealth => (Boot.health "Backend running" rt env selfBackendVerifier, w)
    | PostVerify b => ServerMjs.api_verify rt selfBackendVerifier b w
    | PostVerifySelf b => ServerMjs.api_verify_self rt b w
    | PostVerifyZkpass b => ServerMjs.api_verify_zkpass rt b w
    end.

Definition app_part003 (env : ProcessEnv)
    (selfBackendVerifier : option SelfBackendVerifier) : App :=
  fun rt request w =>
    match request with
    | GetHealth => (Boot.health "Backend running" rt env selfBackendVerifier, w)
    | PostVerify b => Part003.api_verify rt selfBackendVerifier b w
    | PostVerifySelf b => Part003.api_verify_self rt b w
    | PostVerifyZkpass b => Part003.api_verify_zkpass rt b w
    end.

(** The requests of a list served in order, each in its own runtime: the
    responses, and the world at the end. *)
Fixpoint serve (app : App) (requests : list (Runtime * Request)) (w : World)
  : list Response * World :=
  match requests with
  | [] => ([], w)
  | (rt, request) :: rest =>
      let '(response, w1) := app rt request w in
      let '(responses, w2) := serve app rest w1 in
      (response :: responses, w2)
  end.

(** * Theorems *)

Lemma DayFromYear_succ y :
  JsDate.DayFromYear (y + 1) - JsDate.DayFromYear y
  = 365 + (if JsDate.InLeapYear y then 1 else 0).
Proof.
  unfold JsDate.DayFromYear, JsDate.InLeapYear.
  destruct (Z.eqb_spec (y mod 4) 0), (Z.eqb_spec (y mod 100) 0),
    (Z.eqb_spec (y mod 400) 0); cbn [negb orb andb];
    Z.div_mod_to_equations; lia.
Qed.

(** ** The calendar: one year ahead is 365 or 366 days ahead *)

Lemma leap_years_apart y :
  JsDate.InLeapYear y = true -> JsDate.InLeapYear (y + 1) = false.
Proof.
  unfold JsDate.InLeapYear. intros H.
  apply andb_true_iff in H as [H4 _]. apply Z.eqb_eq in H4.
  apply andb_false_iff. left. apply Z.eqb_neq.
  Z.div_mod_to_equations. lia.
Qed.

Lemma MakeDay_next_year y m d :
  0 <= m <= 11 ->
  365 <= JsDate.MakeDay (y + 1) m d - JsDate.MakeDay y m d <= 366.
Proof.
  intros Hm. unfold JsDate.MakeDay.
  assert (Hq : m / 12 = 0) by (apply Z.div_small; lia).
  assert (Hr : m mod 12 = m) by (apply Z.mod_small; lia).
  rewrite Hq, Hr, !Z.add_0_r.
  pose proof (DayFromYear_succ y) as Hy.
  pose proof (leap_years_apart y) as Hl.
  assert (Hcases : m = 0 \/ m = 1 \/ m = 2 \/ m = 3 \/ m = 4 \/ m = 5 \/ m = 6
                   \/ m = 7 \/ m = 8 \/ m = 9 \/ m = 10 \/ m = 11) by lia.
  destruct (JsDate.InLeapYear y) eqn:Ey.
  - rewrite (Hl eq_refl).
    repeat (destruct Hcases as [-> | Hcases]); try subst m; cbn; lia.
  - destruct (JsDate.InLeapYear (y + 1));
      repeat (destruct Hcases as [-> | Hcases]); try subst m; cbn; lia.
Qed.

Lemma setFullYear_next_bounds (c : JsDate.Clock) :
  JsDate.valid_clock c ->
  JsDate.getTime c + 365 * JsDate.msPerDay <= JsDate.setFullYear_next c
  /\ JsDate.setFullYear_next c <= JsDate.getTime c + 366 * JsDate.msPerDay.
Proof.
  intros (Hm & _ & _).
  pose proof (MakeDay_next_year (JsDate.fullYear c) (JsDate.month c)
                (JsDate.date c) Hm) as H.
  unfold JsDate.setFullYear_next, JsDate.getTime, JsDate.MakeDate,
    JsDate.msPerDay. lia.
Qed.

Lemma includes_In (l : list string) (v : JsVal) :
  includes l v = true <-> exists s, v = JStr s /\ In s l.
Proof.
  unfold includes. destruct v;
    try (split; [discriminate | intros (s0 & Hs & _); discriminate]).
  rewrite existsb_exists. split.
  - intros (x & Hin & Heq). apply String.eqb_eq in Heq. subst x.
    exists s. auto.
  - intros (s0 & Hs & Hin). injection Hs as <-.
    exists s. split; [assumption | apply String.eqb_refl].
Qed.

(** C7. The two policy predicates are functions of their arguments alone:
    [expiryOk expiryDate now] holds exactly when [expiryDate] is a valid date
    strictly later than [now] moved one calendar year ahead, which is 365 or
    366 days after [now]; so a date 400 days ahead passes and a date 30 days
    ahead does not.  [countryOk issuingCountry allowList] holds exactly when
    [issuingCountry] is a string of the allow-list, and the handlers' list is
    CHN, IDN, MYS, USA. *)
Theorem policy_predicates :
  (forall expiryDate now,
      Policy.expiryOk expiryDate now = true
      <-> exists t, expiryDate = Some t /\ JsDate.setFullYear_next now < t)
  /\ (forall now,
         JsDate.valid_clock now ->
         JsDate.getTime now + 365 * JsDate.msPerDay
           <= JsDate.setFullYear_next now
           <= JsDate.getTime now + 366 * JsDate.msPerDay
         /\ Policy.expiryOk
              (Some (JsDate.getTime now + 400 * JsDate.msPerDay)) now = true
         /\ Policy.expiryOk
              (Some (JsDate.getTime now + 30 * JsDate.msPerDay)) now = false)
  /\ (forall issuingCountry allowList,
         Policy.countryOk issuingCountry allowList = true
         <-> exists s, issuingCountry = JStr s /\ In s allowList)
  /\ (forall issuingCountry,
         Policy.isCountryAllowed issuingCountry
         = Policy.countryOk issuingCountry ["CHN"; "IDN"; "MYS"; "USA"]).
Proof.
  split; [| split; [| split]].
  - intros [t |] now; unfold Policy.expiryOk, Policy.isExpiryValid.
    + rewrite Z.ltb_lt. split.
      * intros H. exists t. auto.
      * intros (t' & Ht & Hlt). injection Ht as ->. assumption.
    + split; [discriminate | intros (t & Ht & _); discriminate].
  - intros now Hv. pose proof (setFullYear_next_bounds now Hv) as [Hlo Hhi].
    unfold Policy.expiryOk, Policy.isExpiryValid.
    rewrite Z.ltb_lt, Z.ltb_ge. unfold JsDate.msPerDay in *. lia.
  - intros c l. apply includes_In.
  - reflexivity.
Qed.

(** A clock reading on a leap day: 29 February 2024, 12:00. *)
Lemma policy_predicates_witness :
  JsDate.valid_clock (JsDate.mkClock 2024 1 29 43200000)
  /\ Policy.expiryOk
       (Some (JsDate.getTime (JsDate.mkClock 2024 1 29 43200000)
              + 400 * JsDate.msPerDay))
       (JsDate.mkClock 2024 1 29 43200000) = true.
Proof.
  assert (Hv : JsDate.valid_clock (JsDate.mkClock 2024 1 29 43200000))
    by (unfold JsDate.valid_clock, JsDate.msPerDay; simpl; lia).
  split; [exact Hv |].
  exact (proj1 (proj2 (proj1 (proj2 policy_predicates) _ Hv))).
Defined.

(** ** [verifySignature] *)

Section VerifySignature.
Import CosmosVerify.
Variable rt : Runtime.

Lemma assertBase64_Ok name v s :
  assertBase64 name v = Ok s ->
  v = JStr s
  /\ Nat.modulo (String.length s) 4 = 0%nat
  /\ base64_regex s = true.
Proof.
  unfold assertBase64. destruct v; try discriminate.
  destruct (Nat.eqb_spec (Nat.modulo (String.length s0) 4) 0) as [Hl | Hl];
    cbn [negb orb]; [| discriminate].
  destruct (base64_regex s0) eqn:Hr; cbn [negb]; [| discriminate].
  intros H. injection H as <-. auto.
Qed.

(** When the [try] block returns, every check before the curve
    verification has passed, and the value is the verifier's. *)
Lemma verify_body_Ok a s p m b :
  verify_body rt a s p m = Ok b ->
  exists address message sigB64 pubB64,
    a = JStr address /\ m = JStr message
    /\ assertBase64 "signatureB64" s = Ok sigB64
    /\ assertBase64 "pubkeyB64" p = Ok pubB64
    /\ first_unprintable message = None
    /\ String.length (Buffer_from_base64 pubB64) = 33%nat
    /\ String.length (Buffer_from_base64 sigB64) = 64%nat.
Proof.
  unfold verify_body. destruct a as [| | | | address | |]; try discriminate.
  destruct m as [| | | | message | |]; try discriminate.
  destruct (assertBase64 "signatureB64" s) as [sigB64 |] eqn:Hs;
    [| discriminate].
  destruct (assertBase64 "pubkeyB64" p) as [pubB64 |] eqn:Hp;
    [| discriminate].
  cbn [rbind]. unfold toAscii.
  destruct (first_unprintable message) eqn:Hm; [discriminate |].
  cbn [rbind].
  destruct (Nat.eqb_spec (String.length (Buffer_from_base64 pubB64)) 33)
    as [Hpk | Hpk]; cbn [negb]; [| discriminate].
  destruct (Nat.eqb_spec (String.length (Buffer_from_base64 sigB64)) 64)
    as [Hsg | Hsg]; cbn [negb]; [| discriminate].
  intros _. exists address, message, sigB64, pubB64. auto 10.
Qed.

Lemma verifySignature_shape a s p m :
  (exists b, verify_body rt a s p m = Ok b
             /\ verifySignature rt a s p m = mkVerdict b None)
  \/ (exists e, verify_body rt a s p m = Throw e
                /\ verifySignature rt a s p m
                   = mkVerdict false (Some (error_text e))).
Proof.
  unfold verifySignature. destruct (verify_body rt a s p m) as [b | e].
  - left. exists b. auto.
  - right. exists e. auto.
Qed.

Lemma verifySignature_rejects a s p m :
  (forall b, verify_body rt a s p m <> Ok b) ->
  ok (verifySignature rt a s p m) = false
  /\ exists text, error (verifySignature rt a s p m) = Some text.
Proof.
  intros H. destruct (verifySignature_shape a s p m)
    as [(b & Hb & _) | (e & _ & ->)].
  - destruct (H b Hb).
  - split; [reflexivity | eexists; reflexivity].
Qed.

End VerifySignature.

(** ** Which strings [assertBase64] accepts *)

Lemma is_b64_char_alphabet (c : ascii) :
  CosmosVerify.is_b64_char c = true <-> base64_alphabet c.
Proof.
  unfold CosmosVerify.is_b64_char, CosmosVerify.b64_value, base64_alphabet.
  cbn zeta. generalize (N_of_ascii c). intros n.
  repeat match goal with
         | |- context [(?x <=? ?y)%N] => destruct (N.leb_spec x y)
         | |- context [(?x =? ?y)%N] => destruct (N.eqb_spec x y)
         end; cbn [andb]; split; intros Hx; try reflexivity;
    try discriminate Hx; lia.
Qed.

Lemma after_b64_chars_length (s : string) :
  (String.length (CosmosVerify.after_b64_chars s) <= String.length s)%nat.
Proof.
  induction s as [| a s IH]; cbn; [lia |].
  destruct (CosmosVerify.is_b64_char a); cbn; lia.
Qed.

Lemma after_b64_chars_split (s : string) :
  exists body,
    s = (body ++ CosmosVerify.after_b64_chars s)%string
    /\ forall c, In c (list_ascii_of_string body) ->
         CosmosVerify.is_b64_char c = true.
Proof.
  induction s as [| a s (body & Hs & Hall)]; cbn.
  - exists "". split; [reflexivity | intros c []].
  - destruct (CosmosVerify.is_b64_char a) eqn:Ha.
    + exists (String a body). cbn. split; [f_equal; exact Hs |].
      intros c [<- | Hin]; [exact Ha | exact (Hall c Hin)].
    + exists "". split; [reflexivity | intros c []].
Qed.

Lemma after_b64_chars_app (body pad : string) :
  (forall c, In c (list_ascii_of_string body) ->
     CosmosVerify.is_b64_char c = true) ->
  pad = "" \/ pad = "=" \/ pad = "==" ->
  CosmosVerify.after_b64_chars (body ++ pad) = pad.
Proof.
  intros Hall Hpad. induction body as [| a body IH]; cbn.
  - destruct Hpad as [-> | [-> | ->]]; reflexivity.
  - rewrite (Hall a (or_introl eq_refl)). apply IH.
    intros c Hin. apply Hall. right. exact Hin.
Qed.

Lemma base64_regex_shape (s : string) :
  CosmosVerify.base64_regex s = true
  <-> exists body pad,
        s = (body ++ pad)%string
        /\ body <> ""
        /\ (forall c, In c (list_ascii_of_string body) -> base64_alphabet c)
        /\ (pad = "" \/ pad = "=" \/ pad = "==").
Proof.
  split.
  - intros H. unfold CosmosVerify.base64_regex in H.
    destruct s as [| a s']; [discriminate H |].
    apply andb_true_iff in H as [Ha Htail].
    destruct (after_b64_chars_split (String a s')) as (body & Hs & Hall).
    exists body, (CosmosVerify.after_b64_chars (String a s')).
    split; [exact Hs |]. split; [| split].
    + intros ->. cbn in Hs. rewrite Ha in Hs.
      apply (f_equal String.length) in Hs. cbn in Hs.
      pose proof (after_b64_chars_length s'). lia.
    + intros c Hin. apply is_b64_char_alphabet. exact (Hall c Hin).
    + apply orb_true_iff in Htail as [Htail | Htail];
        [apply orb_true_iff in Htail as [Htail | Htail] |];
        apply String.eqb_eq in Htail; auto.
  - intros (body & pad & -> & Hne & Hall & Hpad).
    assert (Hall' : forall c, In c (list_ascii_of_string body) ->
                      CosmosVerify.is_b64_char c = true)
      by (intros c Hin; apply is_b64_char_alphabet; exact (Hall c Hin)).
    unfold CosmosVerify.base64_regex.
    destruct body as [| a body]; [destruct Hne; reflexivity |].
    cbn [String.append]. rewrite (Hall' a (or_introl eq_refl)). cbn [andb].
    change (String a (body ++ pad)) with (String a body ++ pad)%string.
    rewrite (after_b64_chars_app _ _ Hall' Hpad).
    destruct Hpad as [-> | [-> | ->]]; reflexivity.
Qed.

Lemma assertBase64_shape (name : string) (v : JsVal) (x : string) :
  CosmosVerify.assertBase64 name v = Ok x <-> v = JStr x /\ base64_shape x.
Proof.
  unfold base64_shape. split.
  - intros H. apply assertBase64_Ok in H as (-> & Hmod & Hre).
    split; [reflexivity |].
    apply base64_regex_shape in Hre as (body & pad & Hs & Hne & Hall & Hpad).
    exists body, pad. auto.
  - intros (-> & body & pad & Hs & Hne & Hall & Hpad & Hmod).
    unfold CosmosVerify.assertBase64. rewrite Hmod. cbn [Nat.eqb negb orb].
    assert (Hre : CosmosVerify.base64_regex x = true)
      by (apply base64_regex_shape; exists body, pad; auto).
    rewrite Hre. reflexivity.
Qed.

(** C9. [verifySignature] returns a verdict on every four values, [{ok}]
    with the curve verifier's answer or [{ok: false, error}].
    [assertBase64] accepts exactly the strings of one or more characters of
    [A-Za-z0-9+/] followed by at most two "=", four characters to the
    group; [verifySignature] answers [{ok: false, error}] whenever the
    signature or the public key is not such a string, whenever the public
    key does not decode to 33 bytes and whenever the signature does not
    decode to 64 bytes; and for a string address, a printable message, a
    33-byte public key and a 65-byte signature the error is the length
    message "signature must be 64 bytes (r||s). Got 65". *)
Theorem verifySignature_fails_closed (rt : Runtime) (a s p m : JsVal) :
  let verdict := CosmosVerify.verifySignature rt a s p m in
  ((exists b, verdict = CosmosVerify.mkVerdict b None)
   \/ (exists text, verdict = CosmosVerify.mkVerdict false (Some text)))
  /\ (forall name v x,
         CosmosVerify.assertBase64 name v = Ok x
         <-> v = JStr x /\ base64_shape x)
  /\ ((forall x, s = JStr x -> ~ base64_shape x)
      \/ (forall x, p = JStr x -> ~ base64_shape x)
      \/ (forall x, p = JStr x ->
            String.length (CosmosVerify.Buffer_from_base64 x) <> 33%nat)
      \/ (forall x, s = JStr x ->
            String.length (CosmosVerify.Buffer_from_base64 x) <> 64%nat) ->
      CosmosVerify.ok verdict = false
      /\ exists text, CosmosVerify.error verdict = Some text)
  /\ (forall address message sigB64 pubB64,
         a = JStr address -> m = JStr message ->
         CosmosVerify.first_unprintable message = None ->
         s = JStr sigB64 -> base64_shape sigB64 ->
         p = JStr pubB64 -> base64_shape pubB64 ->
         String.length (CosmosVerify.Buffer_from_base64 pubB64) = 33%nat ->
         String.length (CosmosVerify.Buffer_from_base64 sigB64) = 65%nat ->
         verdict
         = CosmosVerify.mkVerdict false
             (Some "signature must be 64 bytes (r||s). Got 65")).
Proof.
  intros verdict. subst verdict. split; [| split; [| split]].
  - destruct (verifySignature_shape rt a s p m)
      as [(b & _ & ->) | (e & _ & ->)]; [left | right]; eexists; reflexivity.
  - apply assertBase64_shape.
  - intros H. apply verifySignature_rejects. intros b Hb.
    apply verify_body_Ok in Hb
      as (address & message & sigB64 & pubB64 & _ & _ & Hs & Hp & _ & Hpk & Hsg).
    apply assertBase64_shape in Hs as (Es & Hss).
    apply assertBase64_shape in Hp as (Ep & Hps).
    destruct H as [H | [H | [H | H]]].
    + exact (H _ Es Hss).
    + exact (H _ Ep Hps).
    + exact (H _ Ep Hpk).
    + exact (H _ Es Hsg).
  - intros address message sigB64 pubB64 -> -> Hm -> Hss -> Hps Hpk Hsg.
    unfold CosmosVerify.verifySignature, CosmosVerify.verify_body.
    rewrite (proj2 (assertBase64_shape "signatureB64" _ _)
               (conj eq_refl Hss)),
      (proj2 (assertBase64_shape "pubkeyB64" _ _) (conj eq_refl Hps)).
    cbn [CosmosVerify.rbind]. unfold CosmosVerify.toAscii.
    rewrite Hm. cbn [CosmosVerify.rbind]. rewrite Hpk, Hsg. reflexivity.
Qed.

Lemma sample_base64_shapes :
  base64_shape Sample.signature65 /\ base64_shape Sample.pubkey33.
Proof.
  split.
  - exists "AAAAAAAAAAAAAAAAAAAAAAAAAAAAAAAAAAAAAAAAAAAAAAAAAAAAAAAAAAAAAAAAAAAAAAAAAAAAAAAAAAAAAAA",
      "=".
    repeat split; try discriminate; auto.
    intros c Hin. apply is_b64_char_alphabet. cbn in Hin.
    repeat (destruct Hin as [<- | Hin]; [reflexivity |]). destruct Hin.
  - exists Sample.pubkey33, "".
    repeat split; try discriminate; auto.
    intros c Hin. apply is_b64_char_alphabet. cbn in Hin.
    repeat (destruct Hin as [<- | Hin]; [reflexivity |]). destruct Hin.
Defined.

(** A 65-byte signature with a 33-byte key. *)
Lemma verifySignature_fails_closed_witness :
  CosmosVerify.verifySignature (Sample.runtime None (Throw Sample.store_down))
    (JStr "twilight1abc") (JStr Sample.signature65) (JStr Sample.pubkey33)
    (JStr "hello")
  = CosmosVerify.mkVerdict false
      (Some "signature must be 64 bytes (r||s). Got 65").
Proof.
  exact (proj2 (proj2 (proj2 (verifySignature_fails_closed
                                (Sample.runtime None (Throw Sample.store_down))
                                (JStr "twilight1abc") (JStr Sample.signature65)
                                (JStr Sample.pubkey33) (JStr "hello"))))
           "twilight1abc" "hello" Sample.signature65 Sample.pubkey33
           eq_refl eq_refl eq_refl eq_refl (proj1 sample_base64_shapes)
           eq_refl (proj2 sample_base64_shapes) eq_refl eq_refl).
Defined.

(** Text after the padding is refused: a signature ending in "=!junk". *)
Example junk_after_padding_is_refused :
  CosmosVerify.verifySignature (Sample.runtime None (Throw Sample.store_down))
    (JStr "twilight1abc") (JStr "AAAAAAAAA=!junk=") (JStr Sample.pubkey33)
    (JStr "hello")
  = CosmosVerify.mkVerdict false (Some "signatureB64 is not valid base64").
Proof. reflexivity. Qed.

(** ** Request-shape validation of [POST /api/verify] *)

Lemma validation_condition (req_body : JsObject) :
  negb (truthy (get req_body "proof"))
  || negb (truthy (get req_body "publicSignals"))
  || negb (truthy (get req_body "attestationId"))
  || negb (truthy (get req_body "userContextData"))
  = negb (required_fields_present req_body).
Proof.
  unfold required_fields_present.
  destruct (truthy (get req_body "proof")),
    (truthy (get req_body "publicSignals")),
    (truthy (get req_body "attestationId")),
    (truthy (get req_body "userContextData")); reflexivity.
Qed.

Ltac run_handler :=
  unfold handler, bind, ret, throw, lift, print, logged; cbn beta iota.

Section Validation.
Variable rt : Runtime.
Variable verifier : SelfBackendVerifier.
Variable req_body : JsObject.
Variable w : World.

Lemma part003_rejects :
  required_fields_present req_body = false ->
  Part003.api_verify rt (Some verifier) req_body w
  = (status_json 400
       [("status", JStr "error");
        ("message", JStr "Proof, publicSignals, attestationId, and userContextData are required")],
     logged (console_log "Received Self verification request:"
               [JObj req_body]) w).
Proof.
  intros H. unfold Part003.api_verify. run_handler.
  rewrite validation_condition, H. reflexivity.
Qed.

Lemma server_rejects :
  required_fields_present req_body = false ->
  ServerMjs.api_verify rt (Some verifier) req_body w
  = (status_json 400
       [("status", JStr "error");
        ("message", JStr "Proof, publicSignals, attestationId, userContextData, and cosmosAddress are required")],
     logged (console_log "Received Self verification request:"
               [JObj req_body]) w).
Proof.
  intros H. unfold ServerMjs.api_verify. run_handler.
  rewrite validation_condition, H. reflexivity.
Qed.

Lemma part002_rejects :
  required_fields_present req_body = false ->
  Part002.api_verify rt (Some verifier) req_body w
  = (status_json 400
       [("message", JStr "Proof, publicSignals, attestationId and userContextData are required")],
     logged (console_log "Received verification request from Self Protocol:"
               [JObj req_body]) w).
Proof.
  intros H. unfold Part002.api_verify. run_handler.
  rewrite validation_condition, H. reflexivity.
Qed.

Lemma part003_accepts :
  required_fields_present req_body = true ->
  Part003.api_verify rt (Some verifier) req_body w
  = handler
      (Part003.call_verifier rt verifier
         (get req_body "attestationId") (get req_body "proof")
         (get req_body "publicSignals") (get req_body "userContextData"))
      (catch_500 rt "Self Protocol Verification error:")
      (logged (console_log "Received Self verification request:"
                 [JObj req_body]) w).
Proof.
  intros H. unfold Part003.api_verify. run_handler.
  rewrite validation_condition, H. reflexivity.
Qed.

Lemma server_accepts :
  required_fields_present req_body = true ->
  ServerMjs.api_verify rt (Some verifier) req_body w
  = handler
      (ServerMjs.call_verifier rt verifier
         (get req_body "attestationId") (get req_body "proof")
         (get req_body "publicSignals") (get req_body "userContextData"))
      (catch_500 rt "/api/verify/self error:")
      (logged (console_log "Received Self verification request:"
                 [JObj req_body]) w).
Proof.
  intros H. unfold ServerMjs.api_verify. run_handler.
  rewrite validation_condition, H. reflexivity.
Qed.

Lemma part002_accepts :
  required_fields_present req_body = true ->
  Part002.api_verify rt (Some verifier) req_body w
  = handler
      (Part002.call_verifier rt verifier
         (get req_body "attestationId") (get req_body "proof")
         (get req_body "publicSignals") (get req_body "userContextData"))
      (catch_500 rt "Verification error:")
      (logged (console_log "Received verification request from Self Protocol:"
                 [JObj req_body]) w).
Proof.
  intros H. unfold Part002.api_verify. run_handler.
  rewrite validation_condition, H. reflexivity.
Qed.

End Validation.

(** [POST /api/verify] validates by truthiness in the three servers.
    With an initialised verifier, a body whose [publicSignals] is the empty
    array and whose three other fields are truthy goes on to the verifier
    call, whose outcome decides the response (an error the verifier throws
    comes back as the 500 message); a body whose [attestationId], [proof]
    or [userContextData] is the empty string is answered 400 whatever the
    verifier is, and neither table changes. *)
Theorem validation_by_truthiness
    (rt : Runtime) (verifier : SelfBackendVerifier) (req_body : JsObject)
    (w : World) :
  (get req_body "publicSignals" = JArr [] ->
   truthy (get req_body "attestationId") = true ->
   truthy (get req_body "proof") = true ->
   truthy (get req_body "userContextData") = true ->
   let w1 := logged (console_log "Received Self verification request:"
                       [JObj req_body]) w in
   Part003.api_verify rt (Some verifier) req_body w
   = handler
       (Part003.call_verifier rt verifier (get req_body "attestationId")
          (get req_body "proof") (JArr []) (get req_body "userContextData"))
       (catch_500 rt "Self Protocol Verification error:") w1
   /\ ServerMjs.api_verify rt (Some verifier) req_body w
      = handler
          (ServerMjs.call_verifier rt verifier (get req_body "attestationId")
             (get req_body "proof") (JArr [])
             (get req_body "userContextData"))
          (catch_500 rt "/api/verify/self error:") w1
   /\ Part002.api_verify rt (Some verifier) req_body w
      = handler
          (Part002.call_verifier rt verifier (get req_body "attestationId")
             (get req_body "proof") (JArr [])
             (get req_body "userContextData"))
          (catch_500 rt "Verification error:")
          (logged (console_log
                     "Received verification request from Self Protocol:"
                     [JObj req_body]) w)
   /\ forall e,
        verifier (get req_body "attestationId") (get req_body "proof")
          (JArr []) (get req_body "userContextData") = Throw e ->
        let answer :=
          status_json 500
            [("status", JStr "error");
             ("message", JStr (message_or e "Internal server error"));
             ("timestamp", timestamp rt)] in
        fst (Part003.api_verify rt (Some verifier) req_body w) = answer
        /\ fst (ServerMjs.api_verify rt (Some verifier) req_body w) = answer
        /\ fst (Part002.api_verify rt (Some verifier) req_body w) = answer)
  /\ (get req_body "attestationId" = JStr ""
      \/ get req_body "proof" = JStr ""
      \/ get req_body "userContextData" = JStr "" ->
      forall api_verify,
        api_verify = Part003.api_verify rt
        \/ api_verify = ServerMjs.api_verify rt
        \/ api_verify = Part002.api_verify rt ->
        status (fst (api_verify (Some verifier) req_body w)) = 400
        /\ zkpass (snd (api_verify (Some verifier) req_body w)) = zkpass w
        /\ selfcheck (snd (api_verify (Some verifier) req_body w))
           = selfcheck w
        /\ forall verifier',
             api_verify (Some verifier') req_body w
             = api_verify (Some verifier) req_body w).
Proof.
  split.
  - intros Hps Ha Hp Hu w1.
    assert (Hreq : required_fields_present req_body = true).
    { unfold required_fields_present. rewrite Hps, Ha, Hp, Hu. reflexivity. }
    rewrite (part003_accepts rt verifier req_body w Hreq),
      (server_accepts rt verifier req_body w Hreq),
      (part002_accepts rt verifier req_body w Hreq), Hps.
    repeat split; try reflexivity.
    + unfold Part003.call_verifier. run_handler. rewrite H. reflexivity.
    + unfold ServerMjs.call_verifier. run_handler. rewrite H. reflexivity.
    + unfold Part002.call_verifier. run_handler. rewrite H. reflexivity.
  - intros Hempty api_verify Hapi.
    assert (Hreq : required_fields_present req_body = false).
    { unfold required_fields_present.
      destruct Hempty as [-> | [-> | ->]]; cbn [truthy String.eqb negb];
        rewrite ?andb_false_r; reflexivity. }
    destruct Hapi as [-> | [-> | ->]].
    + rewrite part003_rejects by assumption. repeat split.
      intros v'. rewrite part003_rejects by assumption. reflexivity.
    + rewrite server_rejects by assumption. repeat split.
      intros v'. rewrite server_rejects by assumption. reflexivity.
    + rewrite part002_rejects by assumption. repeat split.
      intros v'. rewrite part002_rejects by assumption. reflexivity.
Qed.

(** ** The zk-passport handler *)

Section Zkpass.
Variable rt : Runtime.

Lemma zk_condition (req_body : JsObject) :
  negb (truthy (get req_body "proofs"))
  || negb (truthy (nullish (get req_body "queryResult")
                     (get req_body "result")))
  || negb (truthy (get req_body "scope"))
  = negb (zk_fields_present req_body).
Proof.
  unfold zk_fields_present.
  destruct (truthy (get req_body "proofs")),
    (truthy (nullish (get req_body "queryResult") (get req_body "result"))),
    (truthy (get req_body "scope")); reflexivity.
Qed.

(** The gate step never throws; it adds the row when the gate is open and
    the store takes it, and nothing otherwise. *)
Lemma save_if_match_rows provider_tag save
    (clientUID cosmosAddress : JsVal) (zk : ZkResult) (w : World) :
  (save = Part003.save_if_match rt /\ provider_tag = JStr "zkpass")
  \/ (save = ServerMjs.save_if_match rt /\ provider_tag = JUndefined) ->
  exists w',
    save clientUID cosmosAddress zk w = (Ok tt, w')
    /\ selfcheck w' = selfcheck w
    /\ zkpass_added w w'
         (if loose_eq rt (uniqueIdentifier zk) clientUID && verified zk
          then
            match insert_zkpass rt (zkpass w)
                    (zk_row provider_tag clientUID cosmosAddress zk) with
            | None => [zk_row provider_tag clientUID cosmosAddress zk]
            | Some _ => []
            end
          else []).
Proof.
  unfold zkpass_added, zk_row.
  intros [[-> ->] | [-> ->]];
    unfold Part003.save_if_match, ServerMjs.save_if_match;
    (destruct (loose_eq rt (uniqueIdentifier zk) clientUID); cbn [andb];
     [| eexists; split; [reflexivity | split;
          [reflexivity | symmetry; apply app_nil_r]]]);
    (destruct (verified zk); cbn [Bool.eqb];
     [| eexists; split; [reflexivity | split;
          [reflexivity | symmetry; apply app_nil_r]]]);
    unfold try_catch, bind, Database.saveVerification;
    match goal with
    | |- context [insert_zkpass rt ?rows ?row] =>
        destruct (insert_zkpass rt rows row)
    end; cbn;
    eexists; (split; [reflexivity | split;
                [reflexivity | try reflexivity; symmetry; apply app_nil_r]]).
Qed.

End Zkpass.

Section ZkpassHandler.
Variable rt : Runtime.
Variable req_body : JsObject.
Variable w : World.

Let clientUID := get req_body "uniqueIdentifier".
Let cosmosAddress := get req_body "cosmosAddress".
Let outcome :=
  zk_verify rt (get req_body "proofs")
    (nullish (get req_body "queryResult") (get req_body "result"))
    (get req_body "scope") (devMode_or_true (get req_body "devMode")).

(** The rows the handler adds at outcome [zk]. *)
Let rows_for (provider_tag : JsVal) (zk : ZkResult) : list ZkpassRow :=
  if loose_eq rt (uniqueIdentifier zk) clientUID && verified zk
  then
    match insert_zkpass rt (zkpass w)
            (zk_row provider_tag clientUID cosmosAddress zk) with
    | None => [zk_row provider_tag clientUID cosmosAddress zk]
    | Some _ => []
    end
  else [].

Lemma zk_rejects :
  zk_fields_present req_body = false ->
  Part003.api_verify_zkpass rt req_body w
  = (status_json 400
       [("error", JStr "missing fields"); ("have", Object_keys req_body)], w)
  /\ ServerMjs.api_verify_zkpass rt req_body w
     = (status_json 400
          [("error", JStr "missing fields"); ("have", Object_keys req_body)],
        w).
Proof.
  intros H.
  unfold Part003.api_verify_zkpass, ServerMjs.api_verify_zkpass.
  run_handler. rewrite zk_condition, H. split; reflexivity.
Qed.

Lemma zk_verifier_throws e :
  zk_fields_present req_body = true ->
  outcome = Throw e ->
  let w' := logged (console_error "/api/verify/zkpass error:" e)
              (logged (console_log "ZKPass client UID:" [clientUID]) w) in
  Part003.api_verify_zkpass rt req_body w
  = (status_json 500 [("error", JStr "verification_failed")], w')
  /\ ServerMjs.api_verify_zkpass rt req_body w
     = (status_json 500 [("error", JStr "verification_failed")], w').
Proof.
  intros H Hz. subst outcome clientUID.
  unfold Part003.api_verify_zkpass, ServerMjs.api_verify_zkpass.
  run_handler. rewrite zk_condition, H. cbn [negb]. rewrite Hz.
  split; reflexivity.
Qed.

Lemma part003_zk_answers zk :
  zk_fields_present req_body = true ->
  outcome = Ok zk ->
  exists w',
    Part003.api_verify_zkpass rt req_body w
    = (json (Part003.envelope rt clientUID cosmosAddress zk), w')
    /\ selfcheck w' = selfcheck w
    /\ zkpass_added w w' (rows_for (JStr "zkpass") zk).
Proof.
  intros H Hz. subst outcome clientUID cosmosAddress rows_for.
  unfold Part003.api_verify_zkpass.
  run_handler. rewrite zk_condition, H. cbn [negb]. rewrite Hz.
  destruct (save_if_match_rows rt (JStr "zkpass") (Part003.save_if_match rt)
              (get req_body "uniqueIdentifier") (get req_body "cosmosAddress")
              zk
              (mkWorld (zkpass w) (selfcheck w)
                 (console w
                  ++ [console_log "ZKPass client UID:"
                        [get req_body "uniqueIdentifier"]]))
              (or_introl (conj eq_refl eq_refl)))
    as (w' & Hs & Hself & Hadd).
  rewrite Hs. exists w'. auto.
Qed.

Lemma server_zk_answers zk :
  zk_fields_present req_body = true ->
  outcome = Ok zk ->
  exists w',
    ServerMjs.api_verify_zkpass rt req_body w
    = (status_json 500 [("error", JStr "verification_failed")], w')
    /\ selfcheck w' = selfcheck w
    /\ zkpass_added w w' (rows_for JUndefined zk).
Proof.
  intros H Hz. subst outcome clientUID cosmosAddress rows_for.
  unfold ServerMjs.api_verify_zkpass.
  run_handler. rewrite zk_condition, H. cbn [negb]. rewrite Hz.
  destruct (save_if_match_rows rt JUndefined (ServerMjs.save_if_match rt)
              (get req_body "uniqueIdentifier") (get req_body "cosmosAddress")
              zk
              (mkWorld (zkpass w) (selfcheck w)
                 (console w
                  ++ [console_log "ZKPass client UID:"
                        [get req_body "uniqueIdentifier"]]))
              (or_intror (conj eq_refl eq_refl)))
    as (w' & Hs & Hself & Hadd).
  rewrite Hs. unfold catch_zkpass, print. cbn.
  eexists. split; [reflexivity | ]. split; assumption.
Qed.

End ZkpassHandler.

(** ** The delegated binding, [POST /api/verify/self] *)

Section Binding.
Variable rt : Runtime.
Variable req_body : JsObject.
Variable w : World.

Let cosmosAddress := get req_body "cosmosAddress".
Let uuid := get req_body "uuid".
Let w1 :=
  logged (console_log "Checking if attestation ID exists:" [uuid])
    (logged (console_log "Received Self verification request:"
               [JObj req_body]) w).

Lemma binding_condition :
  negb (truthy (get req_body "cosmosAddress"))
  || negb (truthy (get req_body "uuid"))
  = negb (binding_fields_present req_body).
Proof.
  unfold binding_fields_present.
  destruct (truthy (get req_body "cosmosAddress")),
    (truthy (get req_body "uuid")); reflexivity.
Qed.

Lemma binding_rejects :
  binding_fields_present req_body = false ->
  let answer :=
    (status_json 400
       [("status", JStr "error");
        ("message", JStr "cosmosAddress and attestationId are required");
        ("timestamp", timestamp rt)],
     logged (console_log "Received Self verification request:"
               [JObj req_body]) w) in
  Part003.api_verify_self rt req_body w = answer
  /\ ServerMjs.api_verify_self rt req_body w = answer.
Proof.
  intros H. unfold Part003.api_verify_self, ServerMjs.api_verify_self.
  run_handler. rewrite binding_condition, H. split; reflexivity.
Qed.

Ltac enter_binding H Hsel :=
  subst w1 uuid cosmosAddress;
  unfold Part003.api_verify_self, ServerMjs.api_verify_self;
  run_handler; rewrite binding_condition, H; cbn [negb];
  unfold Database.checkAttestationExists; cbn [selfcheck];
  rewrite Hsel.

Lemma part003_binding_not_found :
  binding_fields_present req_body = true ->
  select_selfcheck rt (selfcheck w) uuid = None ->
  Database.count_selfcheck (selfcheck w) uuid = 0 ->
  Part003.api_verify_self rt req_body w
  = (status_json 404
       [("status", JStr "error");
        ("message", JStr "Attestation ID not found in selfcheck table");
        ("uuid", uuid);
        ("timestamp", timestamp rt)],
     logged (console_log "Attestation ID not found in selfcheck table" [])
       w1).
Proof.
  intros H Hsel Hcount. enter_binding H Hsel. rewrite Hcount. reflexivity.
Qed.

Lemma server_binding_not_found :
  binding_fields_present req_body = true ->
  select_selfcheck rt (selfcheck w) uuid = None ->
  Database.count_selfcheck (selfcheck w) uuid = 0 ->
  ServerMjs.api_verify_self rt req_body w
  = (status_json 500
       [("status", JStr "error");
        ("message", JStr "attestationId is not defined");
        ("timestamp", timestamp rt)],
     logged (console_error "/api/verify/self error:"
               (ReferenceError "attestationId"))
       (logged
          (console_log "Attestation ID not found in selfcheck table" [])
          w1)).
Proof.
  intros H Hsel Hcount. enter_binding H Hsel. rewrite Hcount. reflexivity.
Qed.

Lemma binding_found :
  binding_fields_present req_body = true ->
  select_selfcheck rt (selfcheck w) uuid = None ->
  0 < Database.count_selfcheck (selfcheck w) uuid ->
  insert_zkpass rt (zkpass w) (mkZkpassRow cosmosAddress uuid (JStr "self"))
  = None ->
  forall api_verify_self,
    api_verify_self = Part003.api_verify_self
    \/ api_verify_self = ServerMjs.api_verify_self ->
    exists w',
      api_verify_self rt req_body w
      = (json [("status", JStr "success");
               ("message", JStr "Verification data saved successfully");
               ("data",
                Database.row_object
                  (mkZkpassRow cosmosAddress uuid (JStr "self")));
               ("timestamp", timestamp rt)], w')
      /\ selfcheck w' = selfcheck w
      /\ zkpass_added w w' [mkZkpassRow cosmosAddress uuid (JStr "self")].
Proof.
  intros H Hsel Hcount Hins api [-> | ->];
    apply Z.ltb_lt in Hcount; revert Hins; enter_binding H Hsel;
    rewrite Hcount; cbn [negb]; unfold Database.saveVerification;
    cbn [zkpass]; intros ->; eexists;
    (split; [reflexivity | split; reflexivity]).
Qed.

End Binding.

(** ** The claims on the zk-passport flow and on the delegated binding *)

(** C3. In [src/server.mjs] every request to [/api/verify/zkpass] that
    passes the field check is answered 500 [{error: "verification_failed"}]
    and never with the envelope: the envelope's [address ?? null] names an
    unbound identifier.  In [src/unnamed/part_003] the same request is
    answered with the envelope whenever the verifier returns. *)
Theorem server_mjs_zkpass_loses_envelope
    (rt : Runtime) (req_body : JsObject) (w : World) :
  zk_fields_present req_body = true ->
  fst (ServerMjs.api_verify_zkpass rt req_body w)
  = status_json 500 [("error", JStr "verification_failed")]
  /\ forall zk,
      zk_verify rt (get req_body "proofs")
        (nullish (get req_body "queryResult") (get req_body "result"))
        (get req_body "scope") (devMode_or_true (get req_body "devMode"))
      = Ok zk ->
      fst (Part003.api_verify_zkpass rt req_body w)
      = json (Part003.envelope rt (get req_body "uniqueIdentifier")
                (get req_body "cosmosAddress") zk).
Proof.
  intros H. split.
  - destruct (zk_verify rt (get req_body "proofs")
                (nullish (get req_body "queryResult") (get req_body "result"))
                (get req_body "scope")
                (devMode_or_true (get req_body "devMode"))) as [zk | e] eqn:Hz.
    + destruct (server_zk_answers rt req_body w zk H Hz) as (w' & -> & _).
      reflexivity.
    + destruct (zk_verifier_throws rt req_body w e H Hz) as [_ ->].
      reflexivity.
  - intros zk Hz.
    destruct (part003_zk_answers rt req_body w zk H Hz) as (w' & -> & _).
    reflexivity.
Qed.

(** The request of the store-accepting sample runtime, identifiers equal. *)
Lemma server_mjs_zkpass_loses_envelope_witness :
  fst (ServerMjs.api_verify_zkpass
         (Sample.runtime None (Ok (Sample.zk_verified "abc")))
         (Sample.zk_request_with "abc") Sample.empty_world)
  = status_json 500 [("error", JStr "verification_failed")].
Proof.
  exact (proj1 (server_mjs_zkpass_loses_envelope
                  (Sample.runtime None (Ok (Sample.zk_verified "abc")))
                  (Sample.zk_request_with "abc") Sample.empty_world
                  eq_refl)).
Defined.

(** C4. In [src/server.mjs] a complete binding request whose identifier has
    no audited submission is answered 500 with the message
    "attestationId is not defined", not 404: the 404 body names an unbound
    identifier.  No row is written.  In [src/unnamed/part_003] the same
    request is answered 404, with no row written. *)
Theorem server_mjs_binding_not_found_is_500
    (rt : Runtime) (req_body : JsObject) (w : World) :
  binding_fields_present req_body = true ->
  select_selfcheck rt (selfcheck w) (get req_body "uuid") = None ->
  Database.count_selfcheck (selfcheck w) (get req_body "uuid") = 0 ->
  (status (fst (ServerMjs.api_verify_self rt req_body w)) = 500
   /\ get (body (fst (ServerMjs.api_verify_self rt req_body w))) "message"
      = JStr "attestationId is not defined"
   /\ zkpass (snd (ServerMjs.api_verify_self rt req_body w)) = zkpass w
   /\ selfcheck (snd (ServerMjs.api_verify_self rt req_body w))
      = selfcheck w)
  /\ (status (fst (Part003.api_verify_self rt req_body w)) = 404
      /\ zkpass (snd (Part003.api_verify_self rt req_body w)) = zkpass w
      /\ selfcheck (snd (Part003.api_verify_self rt req_body w))
         = selfcheck w).
Proof.
  intros H Hsel Hcount.
  rewrite (server_binding_not_found rt req_body w H Hsel Hcount),
    (part003_binding_not_found rt req_body w H Hsel Hcount).
  repeat split.
Qed.

(** The request of the specification's example, on empty tables. *)
Lemma server_mjs_binding_not_found_is_500_witness :
  status (fst (ServerMjs.api_verify_self
                 (Sample.runtime None (Throw Sample.store_down))
                 Sample.binding_request Sample.empty_world)) = 500.
Proof.
  exact (proj1 (proj1 (server_mjs_binding_not_found_is_500
                         (Sample.runtime None (Throw Sample.store_down))
                         Sample.binding_request Sample.empty_world
                         eq_refl eq_refl eq_refl))).
Defined.

(** The sample request without [uniqueIdentifier]: a verified outcome with
    server identifier "abc", on a store that accepts every INSERT, leaves
    table [zkpass] empty in both servers, while the response of [part_003]
    reports [verified: true]. *)
Lemma zkpass_without_client_id_not_persisted :
  get Sample.zk_request "uniqueIdentifier" = JUndefined
  /\ zkpass (snd (Part003.api_verify_zkpass
                    (Sample.runtime None (Ok (Sample.zk_verified "abc")))
                    Sample.zk_request Sample.empty_world)) = []
  /\ zkpass (snd (ServerMjs.api_verify_zkpass
                    (Sample.runtime None (Ok (Sample.zk_verified "abc")))
                    Sample.zk_request Sample.empty_world)) = []
  /\ get (body (fst (Part003.api_verify_zkpass
                       (Sample.runtime None (Ok (Sample.zk_verified "abc")))
                       Sample.zk_request Sample.empty_world))) "verified"
     = JBool true.
Proof. repeat split. Qed.

(** The gate as the code has it. For a request that passes the field check
    and an outcome [zk] of the verifier, the handler adds the row to table
    [zkpass] when
    [verified] is true, the server identifier [==] the client identifier
    and the store accepts the INSERT, and adds nothing otherwise.  For a
    client string [==] is string equality; without a client identifier it
    holds only when the verifier returned no identifier either. *)
Theorem zkpass_persistence_gate
    (rt : Runtime) (req_body : JsObject) (w : World) (zk : ZkResult) :
  zk_fields_present req_body = true ->
  zk_verify rt (get req_body "proofs")
    (nullish (get req_body "queryResult") (get req_body "result"))
    (get req_body "scope") (devMode_or_true (get req_body "devMode"))
  = Ok zk ->
  let clientUID := get req_body "uniqueIdentifier" in
  let gate := loose_eq rt (uniqueIdentifier zk) clientUID in
  (forall api provider_tag,
      (api = Part003.api_verify_zkpass /\ provider_tag = JStr "zkpass")
      \/ (api = ServerMjs.api_verify_zkpass /\ provider_tag = JUndefined) ->
      let row :=
        zk_row provider_tag clientUID (get req_body "cosmosAddress") zk in
      (verified zk = true /\ gate = true
       /\ insert_zkpass rt (zkpass w) row = None ->
       zkpass_added w (snd (api rt req_body w)) [row])
      /\ (verified zk = false \/ gate = false
          \/ insert_zkpass rt (zkpass w) row <> None ->
          zkpass (snd (api rt req_body w)) = zkpass w))
  /\ (forall c, clientUID = JStr c ->
         (gate = true <-> uniqueIdentifier zk = Some c))
  /\ (clientUID = JUndefined ->
      (gate = true <-> uniqueIdentifier zk = None)).
Proof.
  intros H Hz clientUID gate. split; [| split].
  - intros api tag Hapi row.
    assert (Hadd : zkpass_added w (snd (api rt req_body w))
                     (if gate && verified zk
                      then match insert_zkpass rt (zkpass w) row with
                           | None => [row]
                           | Some _ => []
                           end
                      else [])).
    { destruct Hapi as [[-> ->] | [-> ->]].
      - destruct (part003_zk_answers rt req_body w zk H Hz)
          as (w' & -> & _ & Hadd). exact Hadd.
      - destruct (server_zk_answers rt req_body w zk H Hz)
          as (w' & -> & _ & Hadd). exact Hadd. }
    split.
    + intros (Hv & Hg & Hins). rewrite Hg, Hv, Hins in Hadd. exact Hadd.
    + intros Hno. unfold zkpass_added in Hadd. rewrite Hadd.
      destruct gate; cbn [andb]; try apply app_nil_r.
      destruct (verified zk); try apply app_nil_r.
      destruct (insert_zkpass rt (zkpass w) row); try apply app_nil_r.
      destruct Hno as [Hno | [Hno | Hno]]; try discriminate.
      destruct Hno. reflexivity.
  - intros c Hc. subst gate. rewrite Hc. unfold loose_eq.
    destruct (uniqueIdentifier zk) as [s |].
    + rewrite String.eqb_eq. split; [intros -> | intros [= ->]]; reflexivity.
    + split; discriminate.
  - intros Hc. subst gate. rewrite Hc. unfold loose_eq.
    destruct (uniqueIdentifier zk); split; try discriminate; reflexivity.
Qed.

(** Equal identifiers on a store that accepts: one row is added. *)
Lemma zkpass_persistence_gate_witness :
  zkpass_added Sample.empty_world
    (snd (Part003.api_verify_zkpass
            (Sample.runtime None (Ok (Sample.zk_verified "abc")))
            (Sample.zk_request_with "abc") Sample.empty_world))
    [mkZkpassRow (JStr "twilight1abc") (JStr "abc") (JStr "zkpass")].
Proof.
  exact (proj1 (proj1 (zkpass_persistence_gate
                         (Sample.runtime None (Ok (Sample.zk_verified "abc")))
                         (Sample.zk_request_with "abc") Sample.empty_world
                         (Sample.zk_verified "abc") eq_refl eq_refl)
                  Part003.api_verify_zkpass (JStr "zkpass")
                  (or_introl (conj eq_refl eq_refl)))
           (conj eq_refl (conj eq_refl eq_refl))).
Defined.

(** C1. The gate [serverUID == clientUID] closes on a request without a
    client identifier: for a request that passes the field check with
    [uniqueIdentifier] absent or [null], and a verifier outcome with
    [verified] true and a server identifier [s], neither server writes a
    row, although the save was written to store [clientUID || serverUID],
    which is [s] here, and [part_003] answers 200 with status "success",
    [verified: true], [serverUID: s] and [match: null]. *)
Theorem zkpass_fallback_is_dead
    (rt : Runtime) (req_body : JsObject) (w : World) (zk : ZkResult)
    (s : string) :
  zk_fields_present req_body = true ->
  zk_verify rt (get req_body "proofs")
    (nullish (get req_body "queryResult") (get req_body "result"))
    (get req_body "scope") (devMode_or_true (get req_body "devMode"))
  = Ok zk ->
  verified zk = true ->
  uniqueIdentifier zk = Some s ->
  get req_body "uniqueIdentifier" = JUndefined
  \/ get req_body "uniqueIdentifier" = JNull ->
  let clientUID := get req_body "uniqueIdentifier" in
  (forall api,
      api = Part003.api_verify_zkpass \/ api = ServerMjs.api_verify_zkpass ->
      same_tables w (snd (api rt req_body w)))
  /\ js_or clientUID (opt_str (uniqueIdentifier zk)) = JStr s
  /\ (let answer := fst (Part003.api_verify_zkpass rt req_body w) in
      status answer = 200
      /\ get (body answer) "status" = JStr "success"
      /\ get (body answer) "verified" = JBool true
      /\ get (body answer) "serverUID" = JStr s
      /\ get (body answer) "match" = JNull).
Proof.
  intros Hreq Hz Hv Hs Hc clientUID. subst clientUID.
  assert (Hgate : loose_eq rt (uniqueIdentifier zk)
                    (get req_body "uniqueIdentifier") = false)
    by (rewrite Hs; destruct Hc as [-> | ->]; reflexivity).
  assert (Hfalsy : truthy (get req_body "uniqueIdentifier") = false)
    by (destruct Hc as [-> | ->]; reflexivity).
  split; [| split].
  - intros api [-> | ->].
    + destruct (part003_zk_answers rt req_body w zk Hreq Hz)
        as (w' & Heq & Hself & Hadd).
      rewrite Heq. rewrite Hgate in Hadd. unfold zkpass_added in Hadd.
      cbn [andb snd] in *. rewrite app_nil_r in Hadd. split; assumption.
    + destruct (server_zk_answers rt req_body w zk Hreq Hz)
        as (w' & Heq & Hself & Hadd).
      rewrite Heq. rewrite Hgate in Hadd. unfold zkpass_added in Hadd.
      cbn [andb snd] in *. rewrite app_nil_r in Hadd. split; assumption.
  - unfold js_or. rewrite Hfalsy, Hs. reflexivity.
  - destruct (part003_zk_answers rt req_body w zk Hreq Hz)
      as (w' & Heq & _ & _).
    rewrite Heq.
    cbn [fst snd body status json Part003.envelope get String.eqb Ascii.eqb
           Bool.eqb].
    rewrite Hv, Hs, Hfalsy. repeat split.
Qed.

(** The request [{proofs, queryResult, scope}] and the outcome
    [{verified: true, uniqueIdentifier: "abc"}] on a store that accepts
    every INSERT. *)
Lemma zkpass_fallback_is_dead_witness :
  zkpass (snd (Part003.api_verify_zkpass
                 (Sample.runtime None (Ok (Sample.zk_verified "abc")))
                 Sample.zk_request Sample.empty_world)) = []
  /\ get (body (fst (Part003.api_verify_zkpass
                       (Sample.runtime None (Ok (Sample.zk_verified "abc")))
                       Sample.zk_request Sample.empty_world))) "match"
     = JNull.
Proof.
  pose proof (zkpass_fallback_is_dead
                (Sample.runtime None (Ok (Sample.zk_verified "abc")))
                Sample.zk_request Sample.empty_world
                (Sample.zk_verified "abc") "abc" eq_refl eq_refl eq_refl
                eq_refl (or_introl eq_refl)) as (Hrows & _ & Hanswer).
  split.
  - exact (proj1 (Hrows Part003.api_verify_zkpass (or_introl eq_refl))).
  - exact (proj2 (proj2 (proj2 (proj2 Hanswer)))).
Defined.

(** ** Rejected requests and rejected proofs write nothing *)

Lemma missing_is_falsy (req_body : JsObject) (k : string) :
  missing req_body k -> truthy (get req_body k) = false.
Proof. unfold missing. intros ->. reflexivity. Qed.

Section InvalidOutcome.
Variable rt : Runtime.
Variable verifier : SelfBackendVerifier.
Variable req_body : JsObject.
Variable w : World.
Variable result : SelfResult.

Hypothesis Hpresent : required_fields_present req_body = true.
Hypothesis Hresult :
  verifier (get req_body "attestationId") (get req_body "proof")
    (get req_body "publicSignals") (get req_body "userContextData")
  = Ok result.
Hypothesis Hinvalid : truthy (get (isValidDetails result) "isValid") = false.

(** The failure envelope. *)
Let failure : JsObject :=
  [("status", JStr "error");
   ("result", JBool false);
   ("message", JStr "Verification failed");
   ("details", JObj (isValidDetails result));
   ("timestamp", timestamp rt)].

Lemma part003_invalid :
  fst (Part003.api_verify rt (Some verifier) req_body w)
  = status_json 400 failure
  /\ zkpass (snd (Part003.api_verify rt (Some verifier) req_body w))
     = zkpass w
  /\ selfcheck (snd (Part003.api_verify rt (Some verifier) req_body w))
     = selfcheck w.
Proof.
  rewrite part003_accepts by assumption.
  unfold Part003.call_verifier, Part003.failure_response. run_handler.
  rewrite Hresult, Hinvalid. repeat split.
Qed.

Lemma server_invalid :
  fst (ServerMjs.api_verify rt (Some verifier) req_body w)
  = status_json 400 failure
  /\ zkpass (snd (ServerMjs.api_verify rt (Some verifier) req_body w))
     = zkpass w
  /\ selfcheck (snd (ServerMjs.api_verify rt (Some verifier) req_body w))
     = selfcheck w.
Proof.
  rewrite server_accepts by assumption.
  unfold ServerMjs.call_verifier, ServerMjs.failure_response. run_handler.
  rewrite Hresult, Hinvalid. repeat split.
Qed.

Lemma part002_invalid :
  fst (Part002.api_verify rt (Some verifier) req_body w)
  = status_json 500 failure
  /\ zkpass (snd (Part002.api_verify rt (Some verifier) req_body w))
     = zkpass w
  /\ selfcheck (snd (Part002.api_verify rt (Some verifier) req_body w))
     = selfcheck w.
Proof.
  rewrite part002_accepts by assumption.
  unfold Part002.call_verifier. run_handler.
  rewrite Hresult, Hinvalid. repeat split.
Qed.

End InvalidOutcome.

(** With an initialised verifier: a request that misses a required field
    is answered 400 and leaves both tables as they were: [/api/verify] (the
    three servers), [/api/verify/zkpass] and [/api/verify/self] (both
    servers).  A proof the verifier rejects writes nothing: [/api/verify]
    answers with the failure envelope (400, and 500 in [part_002]), and
    [/api/verify/zkpass] with [verified] false adds no row. *)
Theorem rejected_requests_write_nothing
    (rt : Runtime) (verifier : SelfBackendVerifier) (req_body : JsObject)
    (w : World) :
  (missing req_body "attestationId" \/ missing req_body "proof"
   \/ missing req_body "publicSignals" \/ missing req_body "userContextData" ->
   forall api,
     api = Part003.api_verify rt \/ api = ServerMjs.api_verify rt
     \/ api = Part002.api_verify rt ->
     status (fst (api (Some verifier) req_body w)) = 400
     /\ zkpass (snd (api (Some verifier) req_body w)) = zkpass w
     /\ selfcheck (snd (api (Some verifier) req_body w)) = selfcheck w)
  /\ (missing req_body "proofs"
      \/ (missing req_body "queryResult" /\ missing req_body "result")
      \/ missing req_body "scope" ->
      forall api,
        api = Part003.api_verify_zkpass \/ api = ServerMjs.api_verify_zkpass ->
        status (fst (api rt req_body w)) = 400
        /\ snd (api rt req_body w) = w)
  /\ (missing req_body "cosmosAddress" \/ missing req_body "uuid" ->
      forall api,
        api = Part003.api_verify_self \/ api = ServerMjs.api_verify_self ->
        status (fst (api rt req_body w)) = 400
        /\ zkpass (snd (api rt req_body w)) = zkpass w
        /\ selfcheck (snd (api rt req_body w)) = selfcheck w)
  /\ (forall result,
         required_fields_present req_body = true ->
         verifier (get req_body "attestationId") (get req_body "proof")
           (get req_body "publicSignals") (get req_body "userContextData")
         = Ok result ->
         truthy (get (isValidDetails result) "isValid") = false ->
         forall api code,
           (api = Part003.api_verify rt /\ code = 400)
           \/ (api = ServerMjs.api_verify rt /\ code = 400)
           \/ (api = Part002.api_verify rt /\ code = 500) ->
           fst (api (Some verifier) req_body w)
           = status_json code
               [("status", JStr "error");
                ("result", JBool false);
                ("message", JStr "Verification failed");
                ("details", JObj (isValidDetails result));
                ("timestamp", timestamp rt)]
           /\ zkpass (snd (api (Some verifier) req_body w)) = zkpass w
           /\ selfcheck (snd (api (Some verifier) req_body w)) = selfcheck w)
  /\ (forall zk,
         zk_fields_present req_body = true ->
         zk_verify rt (get req_body "proofs")
           (nullish (get req_body "queryResult") (get req_body "result"))
           (get req_body "scope") (devMode_or_true (get req_body "devMode"))
         = Ok zk ->
         verified zk = false ->
         forall api,
           api = Part003.api_verify_zkpass
           \/ api = ServerMjs.api_verify_zkpass ->
           zkpass (snd (api rt req_body w)) = zkpass w
           /\ selfcheck (snd (api rt req_body w)) = selfcheck w).
Proof.
  split; [| split; [| split; [| split]]].
  - intros Hmiss api Hapi.
    assert (Hreq : required_fields_present req_body = false).
    { unfold required_fields_present.
      destruct Hmiss as [Hm | [Hm | [Hm | Hm]]];
        rewrite (missing_is_falsy _ _ Hm), ?andb_false_r; reflexivity. }
    destruct Hapi as [-> | [-> | ->]];
      [rewrite part003_rejects | rewrite server_rejects
       | rewrite part002_rejects]; auto.
  - intros Hmiss api Hapi.
    assert (Hreq : zk_fields_present req_body = false).
    { unfold zk_fields_present.
      destruct Hmiss as [Hm | [[Hq Hr] | Hm]].
      - rewrite (missing_is_falsy _ _ Hm). reflexivity.
      - unfold missing in Hq, Hr. rewrite Hq, Hr. cbn.
        rewrite andb_false_r. reflexivity.
      - rewrite (missing_is_falsy _ _ Hm). apply andb_false_r. }
    destruct (zk_rejects rt req_body w Hreq) as [H3 Hs].
    destruct Hapi as [-> | ->]; [rewrite H3 | rewrite Hs]; auto.
  - intros Hmiss api Hapi.
    assert (Hreq : binding_fields_present req_body = false).
    { unfold binding_fields_present.
      destruct Hmiss as [Hm | Hm];
        rewrite (missing_is_falsy _ _ Hm), ?andb_false_r; reflexivity. }
    destruct (binding_rejects rt req_body w Hreq) as [H3 Hs].
    destruct Hapi as [-> | ->]; [rewrite H3 | rewrite Hs]; auto.
  - intros result Hreq Hres Hinv api code
      [[-> ->] | [[-> ->] | [-> ->]]].
    + exact (part003_invalid rt verifier req_body w result Hreq Hres Hinv).
    + exact (server_invalid rt verifier req_body w result Hreq Hres Hinv).
    + exact (part002_invalid rt verifier req_body w result Hreq Hres Hinv).
  - intros zk Hreq Hz Hv api [-> | ->].
    + destruct (part003_zk_answers rt req_body w zk Hreq Hz)
        as (w' & -> & Hself & Hadd).
      unfold zkpass_added in Hadd. rewrite Hv, andb_false_r in Hadd.
      cbn [snd]. rewrite Hadd, app_nil_r. auto.
    + destruct (server_zk_answers rt req_body w zk Hreq Hz)
        as (w' & -> & Hself & Hadd).
      unfold zkpass_added in Hadd. rewrite Hv, andb_false_r in Hadd.
      cbn [snd]. rewrite Hadd, app_nil_r. auto.
Qed.

(** An empty body on [part_003]'s [/api/verify]. *)
Lemma rejected_requests_write_nothing_witness :
  status (fst (Part003.api_verify
                 (Sample.runtime None (Throw Sample.store_down))
                 (Some (Sample.verifier_of
                          (Sample.self_valid (JStr "") Sample.twilight_hex)))
                 [] Sample.empty_world)) = 400.
Proof.
  exact (proj1 (proj1 (rejected_requests_write_nothing
                         (Sample.runtime None (Throw Sample.store_down))
                         (Sample.verifier_of
                            (Sample.self_valid (JStr "") Sample.twilight_hex))
                         [] Sample.empty_world)
                  (or_introl eq_refl)
                  (Part003.api_verify
                     (Sample.runtime None (Throw Sample.store_down)))
                  (or_introl eq_refl))).
Defined.

(** An empty [attestationId] on [part_003]'s [/api/verify]. *)
Lemma validation_by_truthiness_witness :
  status (fst (Part003.api_verify
                 (Sample.runtime None (Throw Sample.store_down))
                 (Some (Sample.verifier_of
                          (Sample.self_valid (JStr "") Sample.twilight_hex)))
                 Sample.self_request_empty_id Sample.empty_world)) = 400.
Proof.
  exact (proj1 (proj2 (validation_by_truthiness
                         (Sample.runtime None (Throw Sample.store_down))
                         (Sample.verifier_of
                            (Sample.self_valid (JStr "") Sample.twilight_hex))
                         Sample.self_request_empty_id Sample.empty_world)
                  (or_introl eq_refl)
                  (Part003.api_verify
                     (Sample.runtime None (Throw Sample.store_down)))
                  (or_introl eq_refl))).
Defined.

(** ** The guard on the verifier comes first *)

Lemma null_verifier_refuses (rt : Runtime) (req_body : JsObject) (w : World) :
  forall api,
    api = Part003.api_verify rt \/ api = ServerMjs.api_verify rt
    \/ api = Part002.api_verify rt ->
    fst (api None req_body w)
    = status_json 500
        [("status", JStr "error");
         ("message", JStr "Self Backend Verifier not initialized");
         ("timestamp", timestamp rt)]
    /\ same_tables w (snd (api None req_body w)).
Proof.
  intros api [-> | [-> | ->]]; split; first [reflexivity | split; reflexivity].
Qed.

(** C5, as stated, fails: with [selfBackendVerifier] null, the request with
    an empty body, which misses every required field, is answered 500 by
    [/api/verify] in the three servers. *)
Lemma missing_field_with_null_verifier :
  missing [] "proof"
  /\ status (fst (Part003.api_verify
                    (Sample.runtime None (Throw Sample.store_down)) None []
                    Sample.empty_world)) = 500
  /\ status (fst (ServerMjs.api_verify
                    (Sample.runtime None (Throw Sample.store_down)) None []
                    Sample.empty_world)) = 500
  /\ status (fst (Part002.api_verify
                    (Sample.runtime None (Throw Sample.store_down)) None []
                    Sample.empty_world)) = 500.
Proof. repeat split. Qed.

(** C5, amended. A request that misses a required field leaves both tables
    as they were; [/api/verify/zkpass] and [/api/verify/self] answer it
    400, and [/api/verify] answers it 400 when the verifier is initialised
    and 500 "Self Backend Verifier not initialized" when it is null.  A
    proof the verifier rejects writes nothing: [/api/verify] answers with
    the failure envelope (400, and 500 in [part_002]); on [verified] false
    [/api/verify/zkpass] adds no row, [part_003] answers with the
    envelope, status "error" and [verified: false], and [server.mjs]
    answers 500 [verification_failed]. *)
Theorem rejected_requests_leave_tables
    (rt : Runtime) (selfBackendVerifier : option SelfBackendVerifier)
    (req_body : JsObject) (w : World) :
  (missing req_body "attestationId" \/ missing req_body "proof"
   \/ missing req_body "publicSignals" \/ missing req_body "userContextData" ->
   forall api,
     api = Part003.api_verify rt \/ api = ServerMjs.api_verify rt
     \/ api = Part002.api_verify rt ->
     (forall verifier,
         selfBackendVerifier = Some verifier ->
         status (fst (api selfBackendVerifier req_body w)) = 400)
     /\ (selfBackendVerifier = None ->
         fst (api selfBackendVerifier req_body w)
         = status_json 500
             [("status", JStr "error");
              ("message", JStr "Self Backend Verifier not initialized");
              ("timestamp", timestamp rt)])
     /\ same_tables w (snd (api selfBackendVerifier req_body w)))
  /\ (missing req_body "proofs"
      \/ (missing req_body "queryResult" /\ missing req_body "result")
      \/ missing req_body "scope" ->
      forall api,
        api = Part003.api_verify_zkpass \/ api = ServerMjs.api_verify_zkpass ->
        status (fst (api rt req_body w)) = 400
        /\ snd (api rt req_body w) = w)
  /\ (missing req_body "cosmosAddress" \/ missing req_body "uuid" ->
      forall api,
        api = Part003.api_verify_self \/ api = ServerMjs.api_verify_self ->
        status (fst (api rt req_body w)) = 400
        /\ same_tables w (snd (api rt req_body w)))
  /\ (forall verifier result,
         selfBackendVerifier = Some verifier ->
         required_fields_present req_body = true ->
         verifier (get req_body "attestationId") (get req_body "proof")
           (get req_body "publicSignals") (get req_body "userContextData")
         = Ok result ->
         truthy (get (isValidDetails result) "isValid") = false ->
         forall api code,
           (api = Part003.api_verify rt /\ code = 400)
           \/ (api = ServerMjs.api_verify rt /\ code = 400)
           \/ (api = Part002.api_verify rt /\ code = 500) ->
           fst (api selfBackendVerifier req_body w)
           = status_json code
               [("status", JStr "error");
                ("result", JBool false);
                ("message", JStr "Verification failed");
                ("details", JObj (isValidDetails result));
                ("timestamp", timestamp rt)]
           /\ same_tables w (snd (api selfBackendVerifier req_body w)))
  /\ (forall zk,
         zk_fields_present req_body = true ->
         zk_verify rt (get req_body "proofs")
           (nullish (get req_body "queryResult") (get req_body "result"))
           (get req_body "scope") (devMode_or_true (get req_body "devMode"))
         = Ok zk ->
         verified zk = false ->
         (forall api,
             api = Part003.api_verify_zkpass
             \/ api = ServerMjs.api_verify_zkpass ->
             same_tables w (snd (api rt req_body w)))
         /\ fst (Part003.api_verify_zkpass rt req_body w)
            = json (Part003.envelope rt (get req_body "uniqueIdentifier")
                      (get req_body "cosmosAddress") zk)
         /\ get (Part003.envelope rt (get req_body "uniqueIdentifier")
                   (get req_body "cosmosAddress") zk) "status"
            = JStr "error"
         /\ get (Part003.envelope rt (get req_body "uniqueIdentifier")
                   (get req_body "cosmosAddress") zk) "verified"
            = JBool false
         /\ fst (ServerMjs.api_verify_zkpass rt req_body w)
            = status_json 500 [("error", JStr "verification_failed")]).
Proof.
  unfold same_tables.
  split; [| split; [| split; [| split]]].
  - intros Hmiss api Hapi. destruct selfBackendVerifier as [verifier |].
    + destruct (proj1 (rejected_requests_write_nothing rt verifier req_body w)
                  Hmiss api Hapi) as (H400 & Hz & Hs).
      split; [intros v [= <-]; exact H400 |].
      split; [discriminate | split; assumption].
    + destruct (null_verifier_refuses rt req_body w api Hapi) as [Hr Ht].
      split; [discriminate |]. split; [intros _; exact Hr | exact Ht].
  - exact (proj1 (proj2 (rejected_requests_write_nothing rt
                           (fun _ _ _ _ => Throw (Error_ "")) req_body w))).
  - exact (proj1 (proj2 (proj2 (rejected_requests_write_nothing rt
                                  (fun _ _ _ _ => Throw (Error_ ""))
                                  req_body w)))).
  - intros verifier result -> Hreq Hres Hinv api code Hapi.
    exact (proj1 (proj2 (proj2 (proj2 (rejected_requests_write_nothing rt
                                         verifier req_body w))))
             result Hreq Hres Hinv api code Hapi).
  - intros zk Hreq Hz Hv. split; [| split; [| split; [| split]]].
    + exact (proj2 (proj2 (proj2 (proj2 (rejected_requests_write_nothing rt
                                           (fun _ _ _ _ => Throw (Error_ ""))
                                           req_body w))))
               zk Hreq Hz Hv).
    + destruct (part003_zk_answers rt req_body w zk Hreq Hz)
        as (w' & Heq & _). rewrite Heq. reflexivity.
    + cbn. rewrite Hv. reflexivity.
    + cbn. rewrite Hv. reflexivity.
    + destruct (server_zk_answers rt req_body w zk Hreq Hz)
        as (w' & Heq & _). rewrite Heq. reflexivity.
Qed.

(** The empty body on [part_003]'s [/api/verify], verifier initialised and
    verifier null. *)
Lemma rejected_requests_leave_tables_witness :
  status (fst (Part003.api_verify
                 (Sample.runtime None (Throw Sample.store_down))
                 (Some (Sample.verifier_of
                          (Sample.self_valid (JStr "") Sample.twilight_hex)))
                 [] Sample.empty_world)) = 400
  /\ status (fst (Part003.api_verify
                    (Sample.runtime None (Throw Sample.store_down)) None []
                    Sample.empty_world)) = 500.
Proof.
  split.
  - exact (proj1 (proj1 (rejected_requests_leave_tables
                           (Sample.runtime None (Throw Sample.store_down))
                           (Some (Sample.verifier_of
                                    (Sample.self_valid (JStr "")
                                       Sample.twilight_hex)))
                           [] Sample.empty_world)
                    (or_introl eq_refl)
                    (Part003.api_verify
                       (Sample.runtime None (Throw Sample.store_down)))
                    (or_introl eq_refl))
             _ eq_refl).
  - exact (f_equal status
             (proj1 (proj2 (proj1 (rejected_requests_leave_tables
                                     (Sample.runtime None
                                        (Throw Sample.store_down))
                                     None [] Sample.empty_world)
                              (or_introl eq_refl)
                              (Part003.api_verify
                                 (Sample.runtime None
                                    (Throw Sample.store_down)))
                              (or_introl eq_refl)))
                eq_refl)).
Defined.

(** C10, as stated, fails: with [selfBackendVerifier] null, the request
    with an empty [publicSignals] array does not reach a verifier, and the
    request with an empty [attestationId] is not answered 400; both are
    answered 500 in the three servers. *)
Lemma truthiness_check_skipped_with_null_verifier :
  get Sample.self_request_no_signals "publicSignals" = JArr []
  /\ get Sample.self_request_empty_id "attestationId" = JStr ""
  /\ status (fst (Part003.api_verify
                    (Sample.runtime None (Throw Sample.store_down)) None
                    Sample.self_request_no_signals Sample.empty_world)) = 500
  /\ status (fst (Part003.api_verify
                    (Sample.runtime None (Throw Sample.store_down)) None
                    Sample.self_request_empty_id Sample.empty_world)) = 500
  /\ status (fst (ServerMjs.api_verify
                    (Sample.runtime None (Throw Sample.store_down)) None
                    Sample.self_request_no_signals Sample.empty_world)) = 500
  /\ status (fst (ServerMjs.api_verify
                    (Sample.runtime None (Throw Sample.store_down)) None
                    Sample.self_request_empty_id Sample.empty_world)) = 500
  /\ status (fst (Part002.api_verify
                    (Sample.runtime None (Throw Sample.store_down)) None
                    Sample.self_request_no_signals Sample.empty_world)) = 500
  /\ status (fst (Part002.api_verify
                    (Sample.runtime None (Throw Sample.store_down)) None
                    Sample.self_request_empty_id Sample.empty_world)) = 500.
Proof. repeat split. Qed.

(** C10, amended. [POST /api/verify] validates by truthiness, after the
    guard on the verifier, in the three servers.  With the verifier
    initialised, a body whose [publicSignals] is the empty array and whose
    three other fields are truthy goes on to the verifier call, whose
    outcome decides the response (an error the verifier throws comes back
    as the 500 message), and a body whose [attestationId], [proof] or
    [userContextData] is the empty string is answered 400 whatever the
    verifier is, with neither table changed.  With the verifier null, both
    bodies are answered 500 "Self Backend Verifier not initialized", with
    neither table changed. *)
Theorem validation_after_the_guard
    (rt : Runtime) (selfBackendVerifier : option SelfBackendVerifier)
    (req_body : JsObject) (w : World) :
  (forall verifier,
      selfBackendVerifier = Some verifier ->
      get req_body "publicSignals" = JArr [] ->
      truthy (get req_body "attestationId") = true ->
      truthy (get req_body "proof") = true ->
      truthy (get req_body "userContextData") = true ->
      let w1 := logged (console_log "Received Self verification request:"
                          [JObj req_body]) w in
      Part003.api_verify rt selfBackendVerifier req_body w
      = handler
          (Part003.call_verifier rt verifier (get req_body "attestationId")
             (get req_body "proof") (JArr [])
             (get req_body "userContextData"))
          (catch_500 rt "Self Protocol Verification error:") w1
      /\ ServerMjs.api_verify rt selfBackendVerifier req_body w
         = handler
             (ServerMjs.call_verifier rt verifier
                (get req_body "attestationId") (get req_body "proof")
                (JArr []) (get req_body "userContextData"))
             (catch_500 rt "/api/verify/self error:") w1
      /\ Part002.api_verify rt selfBackendVerifier req_body w
         = handler
             (Part002.call_verifier rt verifier
                (get req_body "attestationId") (get req_body "proof")
                (JArr []) (get req_body "userContextData"))
             (catch_500 rt "Verification error:")
             (logged (console_log
                        "Received verification request from Self Protocol:"
                        [JObj req_body]) w)
      /\ forall e,
           verifier (get req_body "attestationId") (get req_body "proof")
             (JArr []) (get req_body "userContextData") = Throw e ->
           forall api,
             api = Part003.api_verify rt \/ api = ServerMjs.api_verify rt
             \/ api = Part002.api_verify rt ->
             fst (api selfBackendVerifier req_body w)
             = status_json 500
                 [("status", JStr "error");
                  ("message", JStr (message_or e "Internal server error"));
                  ("timestamp", timestamp rt)])
  /\ (forall verifier,
         selfBackendVerifier = Some verifier ->
         get req_body "attestationId" = JStr ""
         \/ get req_body "proof" = JStr ""
         \/ get req_body "userContextData" = JStr "" ->
         forall api,
           api = Part003.api_verify rt \/ api = ServerMjs.api_verify rt
           \/ api = Part002.api_verify rt ->
           status (fst (api selfBackendVerifier req_body w)) = 400
           /\ same_tables w (snd (api selfBackendVerifier req_body w))
           /\ forall verifier',
                api (Some verifier') req_body w
                = api selfBackendVerifier req_body w)
  /\ (selfBackendVerifier = None ->
      forall api,
        api = Part003.api_verify rt \/ api = ServerMjs.api_verify rt
        \/ api = Part002.api_verify rt ->
        fst (api selfBackendVerifier req_body w)
        = status_json 500
            [("status", JStr "error");
             ("message", JStr "Self Backend Verifier not initialized");
             ("timestamp", timestamp rt)]
        /\ same_tables w (snd (api selfBackendVerifier req_body w))).
Proof.
  split; [| split].
  - intros verifier -> Hps Ha Hp Hu w1.
    destruct (proj1 (validation_by_truthiness rt verifier req_body w)
                Hps Ha Hp Hu) as (H3 & Hs & H2 & Hthrow).
    split; [exact H3 |]. split; [exact Hs |]. split; [exact H2 |].
    intros e He api Hapi. destruct (Hthrow e He) as (E3 & Es & E2).
    destruct Hapi as [-> | [-> | ->]]; assumption.
  - intros verifier -> Hempty api Hapi.
    destruct (proj2 (validation_by_truthiness rt verifier req_body w)
                Hempty api Hapi) as (H400 & Hz & Hs & Hind).
    split; [exact H400 |]. split; [split; assumption | exact Hind].
  - intros -> api Hapi. exact (null_verifier_refuses rt req_body w api Hapi).
Qed.

(** The two sample bodies on [part_003], verifier initialised: the one with
    an empty [publicSignals] goes on to the verifier, the one with an empty
    [attestationId] is answered 400. *)
Lemma validation_after_the_guard_witness :
  Part003.api_verify (Sample.runtime None (Throw Sample.store_down))
    (Some (Sample.verifier_of
             (Sample.self_valid (JStr "2030-01-01") Sample.twilight_hex)))
    Sample.self_request_no_signals Sample.empty_world
  = handler
      (Part003.call_verifier (Sample.runtime None (Throw Sample.store_down))
         (Sample.verifier_of
            (Sample.self_valid (JStr "2030-01-01") Sample.twilight_hex))
         (JStr "1") (JObj [("a", JArr [])]) (JArr []) (JStr "00ff"))
      (catch_500 (Sample.runtime None (Throw Sample.store_down))
         "Self Protocol Verification error:")
      (logged (console_log "Received Self verification request:"
                 [JObj Sample.self_request_no_signals]) Sample.empty_world)
  /\ status (fst (Part003.api_verify
                    (Sample.runtime None (Throw Sample.store_down))
                    (Some (Sample.verifier_of
                             (Sample.self_valid (JStr "2030-01-01")
                                Sample.twilight_hex)))
                    Sample.self_request_empty_id Sample.empty_world)) = 400.
Proof.
  split.
  - exact (proj1 (proj1 (validation_after_the_guard
                           (Sample.runtime None (Throw Sample.store_down))
                           (Some (Sample.verifier_of
                                    (Sample.self_valid (JStr "2030-01-01")
                                       Sample.twilight_hex)))
                           Sample.self_request_no_signals Sample.empty_world)
                    _ eq_refl eq_refl eq_refl eq_refl eq_refl)).
  - exact (proj1 (proj1 (proj2 (validation_after_the_guard
                                  (Sample.runtime None
                                     (Throw Sample.store_down))
                                  (Some (Sample.verifier_of
                                           (Sample.self_valid
                                              (JStr "2030-01-01")
                                              Sample.twilight_hex)))
                                  Sample.self_request_empty_id
                                  Sample.empty_world))
                    _ eq_refl (or_introl eq_refl)
                    (Part003.api_verify
                       (Sample.runtime None (Throw Sample.store_down)))
                    (or_introl eq_refl))).
Defined.

(** ** The best-effort block of [POST /api/verify] *)

Ltac in_console := rewrite ?in_app_iff; cbn [In]; auto 10.

Section BestEffort.
Variable rt : Runtime.
Variable result : SelfResult.
Variable proof : JsVal.
Variable w : World.

Let uid := get (userData result) "userIdentifier".
Let audit := mkSelfcheckRow uid proof.
Let caught (e : JsError) := console_error "DB save failed (self):" e.

(** What [part_003]'s block does, case by case. *)
Lemma part003_best_effort_cases :
  exists w',
    Part003.best_effort rt result proof w = (Ok tt, w')
    /\ match insert_selfcheck rt (selfcheck w) audit with
       | Some e =>
           zkpass w' = zkpass w /\ selfcheck w' = selfcheck w
           /\ In (caught e) (console w')
       | None =>
           selfcheck w' = (selfcheck w ++ [audit])%list
           /\ match Buffer_from_hex rt
                      (get (userData result) "userDefinedData") with
              | Throw e => zkpass w' = zkpass w /\ In (caught e) (console w')
              | Ok cosmosAddress =>
                  if startsWith cosmosAddress "twilight"
                  then
                    match insert_zkpass rt (zkpass w)
                            (mkZkpassRow (JStr cosmosAddress) uid
                               (JStr "self")) with
                    | None =>
                        zkpass_added w w'
                          [mkZkpassRow (JStr cosmosAddress) uid (JStr "self")]
                    | Some e =>
                        zkpass w' = zkpass w /\ In (caught e) (console w')
                    end
                  else
                    zkpass w' = zkpass w
                    /\ In (caught (Error_ "Invalid cosmos address format"))
                         (console w')
              end
       end.
Proof.
  subst uid audit caught. unfold zkpass_added.
  unfold Part003.best_effort, try_catch, bind, Database.saveSelfCheck,
    Database.saveVerification, print, lift, throw.
  destruct (insert_selfcheck rt (selfcheck w)
              (mkSelfcheckRow (get (userData result) "userIdentifier") proof))
    as [e |]; cbn.
  { eexists. split; [reflexivity |]. cbn. repeat split. in_console. }
  destruct (Buffer_from_hex rt (get (userData result) "userDefinedData"))
    as [cosmosAddress | e]; cbn.
  2: { eexists. split; [reflexivity |]. cbn. repeat split. in_console. }
  destruct (startsWith cosmosAddress "twilight"); cbn.
  2: { eexists. split; [reflexivity |]. cbn. repeat split. in_console. }
  destruct (insert_zkpass rt (zkpass w)
              (mkZkpassRow (JStr cosmosAddress)
                 (get (userData result) "userIdentifier") (JStr "self")))
    as [e |]; cbn.
  { eexists. split; [reflexivity |]. cbn. repeat split. in_console. }
  eexists. split; [reflexivity |]. cbn. repeat split.
Qed.

(** [server.mjs]'s block: the call of the unbound [saveSelfCheck] is
    caught; nothing is written. *)
Lemma server_best_effort :
  ServerMjs.best_effort result proof w
  = (Ok tt, logged (caught (ReferenceError "saveSelfCheck")) w).
Proof. reflexivity. Qed.

End BestEffort.

(** ** A valid proof on [POST /api/verify] *)

Section ValidOutcome.
Variable rt : Runtime.
Variable verifier : SelfBackendVerifier.
Variable req_body : JsObject.
Variable w : World.
Variable result : SelfResult.

Hypothesis Hpresent : required_fields_present req_body = true.
Hypothesis Hresult :
  verifier (get req_body "attestationId") (get req_body "proof")
    (get req_body "publicSignals") (get req_body "userContextData")
  = Ok result.
Hypothesis Hvalid : truthy (get (isValidDetails result) "isValid") = true.

Let expiryDate := new_Date rt (get (discloseOutput result) "expiryDate").

(** The 500 answer to the RangeError of [toISOString]. *)
Let invalid_time : Response :=
  status_json 500
    [("status", JStr "error");
     ("message", JStr "Invalid time value");
     ("timestamp", timestamp rt)].

Lemma part003_invalid_date :
  expiryDate = None ->
  fst (Part003.api_verify rt (Some verifier) req_body w) = invalid_time
  /\ same_tables w (snd (Part003.api_verify rt (Some verifier) req_body w)).
Proof.
  subst expiryDate invalid_time. intros Hd.
  rewrite part003_accepts by assumption.
  unfold Part003.call_verifier, Part003.policy_checks, toISOString.
  run_handler. rewrite Hresult, Hvalid, Hd. repeat split.
Qed.

Lemma server_invalid_date :
  expiryDate = None ->
  fst (ServerMjs.api_verify rt (Some verifier) req_body w) = invalid_time
  /\ same_tables w (snd (ServerMjs.api_verify rt (Some verifier) req_body w)).
Proof.
  subst expiryDate invalid_time. intros Hd.
  rewrite server_accepts by assumption.
  unfold ServerMjs.call_verifier, ServerMjs.policy_checks, toISOString.
  run_handler. rewrite Hresult, Hvalid, Hd. repeat split.
Qed.

(** With a valid expiry date the block is entered on the tables of [w],
    and the answer is the success response. *)
Lemma part003_valid t :
  expiryDate = Some t ->
  exists w0 w',
    same_tables w w0
    /\ Part003.best_effort rt result (get req_body "proof") w0 = (Ok tt, w')
    /\ Part003.api_verify rt (Some verifier) req_body w
       = (json [("status", JStr "success");
                ("message", JStr "Verification completed");
                ("result", JBool true);
                ("details", JObj (isValidDetails result));
                ("timestamp", timestamp rt)],
          logged (console_log "Verification successful!" []) w').
Proof.
  subst expiryDate. intros Hd.
  rewrite part003_accepts by assumption.
  unfold Part003.call_verifier, Part003.policy_checks,
    Part003.success_response, toISOString.
  run_handler. rewrite Hresult, Hvalid, Hd. cbn beta iota.
  match goal with
  | |- context [Part003.best_effort rt result ?p ?w0] =>
      destruct (part003_best_effort_cases rt result p w0) as (w' & Hbe & _);
      exists w0, w'
  end.
  rewrite Hbe. repeat split.
Qed.

Lemma server_valid t :
  expiryDate = Some t ->
  ServerMjs.api_verify rt (Some verifier) req_body w
  = (json [("status", JStr "success");
           ("message", JStr "Verification completed");
           ("userIdentifier", get (userData result) "userIdentifier");
           ("expiry",
            JObj [("date", JStr (iso rt t));
                  ("hasOneYearValidity",
                   JBool (Policy.expiryOk (Some t) (now rt)))]);
           ("issuingCountry", get (discloseOutput result) "issuingState");
           ("isCountryAllowed",
            JBool (Policy.isCountryAllowed
                     (get (discloseOutput result) "issuingState")));
           ("timestamp", timestamp rt)],
     snd (ServerMjs.api_verify rt (Some verifier) req_body w))
  /\ same_tables w (snd (ServerMjs.api_verify rt (Some verifier) req_body w)).
Proof.
  subst expiryDate. intros Hd.
  rewrite server_accepts by assumption.
  unfold ServerMjs.call_verifier, ServerMjs.policy_checks,
    ServerMjs.success_response, ServerMjs.best_effort, try_catch, toISOString.
  run_handler. rewrite Hresult, Hvalid, Hd. repeat split.
Qed.

End ValidOutcome.

(** C8. The best-effort block of [/api/verify] never throws.  In
    [part_003], a rejected audit INSERT, a decoded address that does not
    start with "twilight" and a rejected [zkpass] INSERT are each caught and
    printed as "DB save failed (self):", no [zkpass] row is added, and the
    response that follows is the success response; in [server.mjs] the
    block catches its own ReferenceError and the success response follows.
    So a valid proof that reached the block is answered 200 with status
    "success" whatever the store does. *)
Theorem best_effort_failures_are_swallowed
    (rt : Runtime) (result : SelfResult) (proof : JsVal) (w : World) :
  let uid := get (userData result) "userIdentifier" in
  let hex := get (userData result) "userDefinedData" in
  let caught := console_error "DB save failed (self):" in
  (exists w',
      Part003.best_effort rt result proof w = (Ok tt, w')
      /\ (Part003.best_effort rt result proof ;;;
          Part003.success_response rt result) w
         = (Ok (json [("status", JStr "success");
                      ("message", JStr "Verification completed");
                      ("result", JBool true);
                      ("details", JObj (isValidDetails result));
                      ("timestamp", timestamp rt)]),
            logged (console_log "Verification successful!" []) w')
      /\ (forall e,
             insert_selfcheck rt (selfcheck w) (mkSelfcheckRow uid proof)
             = Some e ->
             In (caught e) (console w') /\ zkpass w' = zkpass w)
      /\ (forall cosmosAddress,
             insert_selfcheck rt (selfcheck w) (mkSelfcheckRow uid proof)
             = None ->
             Buffer_from_hex rt hex = Ok cosmosAddress ->
             startsWith cosmosAddress "twilight" = false ->
             In (caught (Error_ "Invalid cosmos address format")) (console w')
             /\ zkpass w' = zkpass w)
      /\ (forall cosmosAddress e,
             insert_selfcheck rt (selfcheck w) (mkSelfcheckRow uid proof)
             = None ->
             Buffer_from_hex rt hex = Ok cosmosAddress ->
             startsWith cosmosAddress "twilight" = true ->
             insert_zkpass rt (zkpass w)
               (mkZkpassRow (JStr cosmosAddress) uid (JStr "self")) = Some e ->
             In (caught e) (console w') /\ zkpass w' = zkpass w))
  /\ (forall t isExpiryValid issuingCountry isCountryAllowed,
         (ServerMjs.best_effort result proof ;;;
          ServerMjs.success_response rt result
            (Some t, isExpiryValid, issuingCountry, isCountryAllowed)) w
         = (Ok (json [("status", JStr "success");
                      ("message", JStr "Verification completed");
                      ("userIdentifier", uid);
                      ("expiry",
                       JObj [("date", JStr (iso rt t));
                             ("hasOneYearValidity", JBool isExpiryValid)]);
                      ("issuingCountry", issuingCountry);
                      ("isCountryAllowed", JBool isCountryAllowed);
                      ("timestamp", timestamp rt)]),
            logged (caught (ReferenceError "saveSelfCheck")) w))
  /\ (forall (verifier : SelfBackendVerifier) req_body w0 t,
         required_fields_present req_body = true ->
         verifier (get req_body "attestationId") (get req_body "proof")
           (get req_body "publicSignals") (get req_body "userContextData")
         = Ok result ->
         truthy (get (isValidDetails result) "isValid") = true ->
         new_Date rt (get (discloseOutput result) "expiryDate") = Some t ->
         forall api,
           api = Part003.api_verify rt \/ api = ServerMjs.api_verify rt ->
           status (fst (api (Some verifier) req_body w0)) = 200
           /\ get (body (fst (api (Some verifier) req_body w0))) "status"
              = JStr "success").
Proof.
  intros uid hex caught. split; [| split].
  - destruct (part003_best_effort_cases rt result proof w)
      as (w' & Hbe & Hcases).
    exists w'. split; [exact Hbe |]. split.
    + unfold bind. rewrite Hbe. reflexivity.
    + subst uid hex caught. split; [| split].
      * intros e He. rewrite He in Hcases. split; apply Hcases.
      * intros cosmosAddress He Hb Hs. rewrite He, Hb, Hs in Hcases.
        split; apply Hcases.
      * intros cosmosAddress e He Hb Hs Hi.
        rewrite He, Hb, Hs, Hi in Hcases. split; apply Hcases.
  - intros t b1 c b2. reflexivity.
  - intros verifier req_body w0 t Hreq Hres Hval Hd api [-> | ->].
    + destruct (part003_valid rt verifier req_body w0 result Hreq Hres Hval
                  t Hd) as (w1 & w' & _ & _ & Heq).
      rewrite Heq. split; reflexivity.
    + destruct (server_valid rt verifier req_body w0 result Hreq Hres Hval
                  t Hd) as [Heq _].
      rewrite Heq. split; reflexivity.
Qed.

(** A valid proof whose user-defined data decodes to "cosmos1abc": the
    address error is caught, and the answer is 200. *)
Lemma best_effort_failures_are_swallowed_witness :
  status (fst (Part003.api_verify
                 (Sample.runtime None (Throw Sample.store_down))
                 (Some (Sample.verifier_of
                          (Sample.self_valid (JStr "2030-01-01")
                             Sample.cosmos_hex)))
                 Sample.self_request Sample.empty_world)) = 200.
Proof.
  exact (proj1 (proj2 (proj2 (best_effort_failures_are_swallowed
                                (Sample.runtime None (Throw Sample.store_down))
                                (Sample.self_valid (JStr "2030-01-01")
                                   Sample.cosmos_hex)
                                JNull Sample.empty_world))
                  (Sample.verifier_of
                     (Sample.self_valid (JStr "2030-01-01") Sample.cosmos_hex))
                  Sample.self_request Sample.empty_world 1893456000000
                  eq_refl eq_refl eq_refl eq_refl
                  (Part003.api_verify
                     (Sample.runtime None (Throw Sample.store_down)))
                  (or_introl eq_refl))).
Defined.

(** C6. A valid proof whose disclosed expiry date is not a valid date (the
    empty string is none, in every runtime) is answered 500 with the
    message "Invalid time value" by [part_003] and by [server.mjs], and
    nothing is written: the log line of the expiry check throws.  With a
    valid expiry date the answer is 200 whatever the two checks find. *)
Theorem invalid_expiry_date_aborts
    (rt : Runtime) (verifier : SelfBackendVerifier) (req_body : JsObject)
    (w : World) (result : SelfResult) :
  required_fields_present req_body = true ->
  verifier (get req_body "attestationId") (get req_body "proof")
    (get req_body "publicSignals") (get req_body "userContextData")
  = Ok result ->
  truthy (get (isValidDetails result) "isValid") = true ->
  forall api,
    api = Part003.api_verify rt \/ api = ServerMjs.api_verify rt ->
    (new_Date rt (get (discloseOutput result) "expiryDate") = None ->
     fst (api (Some verifier) req_body w)
     = status_json 500
         [("status", JStr "error");
          ("message", JStr "Invalid time value");
          ("timestamp", timestamp rt)]
     /\ same_tables w (snd (api (Some verifier) req_body w)))
    /\ (forall t,
           new_Date rt (get (discloseOutput result) "expiryDate") = Some t ->
           status (fst (api (Some verifier) req_body w)) = 200)
    /\ new_Date rt (JStr "") = None.
Proof.
  intros Hreq Hres Hval api Hapi. split; [| split].
  - intros Hd. destruct Hapi as [-> | ->].
    + exact (part003_invalid_date rt verifier req_body w result Hreq Hres
               Hval Hd).
    + exact (server_invalid_date rt verifier req_body w result Hreq Hres
               Hval Hd).
  - intros t Hd. destruct Hapi as [-> | ->].
    + destruct (part003_valid rt verifier req_body w result Hreq Hres Hval
                  t Hd) as (w1 & w' & _ & _ & Heq).
      rewrite Heq. reflexivity.
    + destruct (server_valid rt verifier req_body w result Hreq Hres Hval
                  t Hd) as [Heq _].
      rewrite Heq. reflexivity.
  - reflexivity.
Qed.

(** A valid proof that discloses the empty string as expiry date. *)
Lemma invalid_expiry_date_aborts_witness :
  fst (Part003.api_verify
         (Sample.runtime None (Throw Sample.store_down))
         (Some (Sample.verifier_of
                  (Sample.self_valid (JStr "") Sample.twilight_hex)))
         Sample.self_request Sample.empty_world)
  = status_json 500
      [("status", JStr "error");
       ("message", JStr "Invalid time value");
       ("timestamp", JStr "2030-01-01T00:00:00.000Z")].
Proof.
  exact (proj1 (proj1 (invalid_expiry_date_aborts
                         (Sample.runtime None (Throw Sample.store_down))
                         (Sample.verifier_of
                            (Sample.self_valid (JStr "") Sample.twilight_hex))
                         Sample.self_request Sample.empty_world
                         (Sample.self_valid (JStr "") Sample.twilight_hex)
                         eq_refl eq_refl eq_refl
                         (Part003.api_verify
                            (Sample.runtime None (Throw Sample.store_down)))
                         (or_introl eq_refl))
                  eq_refl)).
Defined.

(** ** The rows a valid proof adds *)

Lemma part003_valid_rows
    (rt : Runtime) (verifier : SelfBackendVerifier) (req_body : JsObject)
    (w : World) (result : SelfResult) (t : Z) :
  required_fields_present req_body = true ->
  verifier (get req_body "attestationId") (get req_body "proof")
    (get req_body "publicSignals") (get req_body "userContextData")
  = Ok result ->
  truthy (get (isValidDetails result) "isValid") = true ->
  new_Date rt (get (discloseOutput result) "expiryDate") = Some t ->
  let w' := snd (Part003.api_verify rt (Some verifier) req_body w) in
  let uid := get (userData result) "userIdentifier" in
  match insert_selfcheck rt (selfcheck w)
          (mkSelfcheckRow uid (get req_body "proof")) with
  | Some _ => zkpass w' = zkpass w
  | None =>
      match Buffer_from_hex rt (get (userData result) "userDefinedData") with
      | Throw _ => zkpass w' = zkpass w
      | Ok cosmosAddress =>
          if startsWith cosmosAddress "twilight"
          then
            match insert_zkpass rt (zkpass w)
                    (mkZkpassRow (JStr cosmosAddress) uid (JStr "self")) with
            | None =>
                zkpass_added w w'
                  [mkZkpassRow (JStr cosmosAddress) uid (JStr "self")]
            | Some _ => zkpass w' = zkpass w
            end
          else zkpass w' = zkpass w
      end
  end.
Proof.
  intros Hreq Hres Hval Hd w' uid. subst w' uid.
  destruct (part003_valid rt verifier req_body w result Hreq Hres Hval t Hd)
    as (w0 & w1 & [Hz Hs] & Hbe & Heq).
  rewrite Heq. cbn [snd logged zkpass].
  destruct (part003_best_effort_cases rt result (get req_body "proof") w0)
    as (w2 & Hbe2 & Hcases).
  rewrite Hbe in Hbe2. injection Hbe2 as <-.
  unfold zkpass_added in *. rewrite Hz, Hs in Hcases.
  destruct (insert_selfcheck rt (selfcheck w)
              (mkSelfcheckRow (get (userData result) "userIdentifier")
                 (get req_body "proof"))); [apply Hcases |].
  destruct Hcases as [_ Hcases].
  destruct (Buffer_from_hex rt (get (userData result) "userDefinedData"))
    as [cosmosAddress | e]; [| apply Hcases].
  destruct (startsWith cosmosAddress "twilight"); [| apply Hcases].
  destruct (insert_zkpass rt (zkpass w)
              (mkZkpassRow (JStr cosmosAddress)
                 (get (userData result) "userIdentifier") (JStr "self")));
    apply Hcases.
Qed.

(** C2, as stated, fails: a valid proof whose user-defined data decodes to
    "cosmos1abc" is answered 200 by [part_003]'s [/api/verify] on a store
    that accepts every INSERT; the audit row is written and no [zkpass] row
    is. *)
Lemma valid_proof_without_record :
  truthy (get (isValidDetails
                 (Sample.self_valid (JStr "2030-01-01") Sample.cosmos_hex))
            "isValid") = true
  /\ status (fst (Part003.api_verify
                    (Sample.runtime None (Throw Sample.store_down))
                    (Some (Sample.verifier_of
                             (Sample.self_valid (JStr "2030-01-01")
                                Sample.cosmos_hex)))
                    Sample.self_request Sample.empty_world)) = 200
  /\ zkpass (snd (Part003.api_verify
                    (Sample.runtime None (Throw Sample.store_down))
                    (Some (Sample.verifier_of
                             (Sample.self_valid (JStr "2030-01-01")
                                Sample.cosmos_hex)))
                    Sample.self_request Sample.empty_world)) = []
  /\ List.length
       (selfcheck (snd (Part003.api_verify
                          (Sample.runtime None (Throw Sample.store_down))
                          (Some (Sample.verifier_of
                                   (Sample.self_valid (JStr "2030-01-01")
                                      Sample.cosmos_hex)))
                          Sample.self_request Sample.empty_world))) = 1%nat.
Proof. repeat split. Qed.

(** C2, amended. With [verified] true and the gate open,
    [part_003]'s [/api/verify/zkpass] adds exactly one row, tagged "zkpass",
    when the store accepts the INSERT, and none when it rejects it.  With a
    valid proof and a valid expiry date, [part_003]'s [/api/verify] adds
    exactly one row, tagged "self", when the audit INSERT was accepted, the
    user-defined data decodes to an address that starts with "twilight" and
    the store accepts the INSERT, and none otherwise; [server.mjs]'s
    [/api/verify] adds none.  The delegated binding of an audited
    identifier adds exactly one row, tagged "self", when the store accepts
    the INSERT. *)
Theorem verification_record_written (rt : Runtime) (w : World) :
  (forall req_body zk,
      zk_fields_present req_body = true ->
      zk_verify rt (get req_body "proofs")
        (nullish (get req_body "queryResult") (get req_body "result"))
        (get req_body "scope") (devMode_or_true (get req_body "devMode"))
      = Ok zk ->
      verified zk = true ->
      loose_eq rt (uniqueIdentifier zk) (get req_body "uniqueIdentifier")
      = true ->
      let row :=
        zk_row (JStr "zkpass") (get req_body "uniqueIdentifier")
          (get req_body "cosmosAddress") zk in
      let w' := snd (Part003.api_verify_zkpass rt req_body w) in
      provider row = JStr "zkpass"
      /\ (insert_zkpass rt (zkpass w) row = None -> zkpass_added w w' [row])
      /\ (insert_zkpass rt (zkpass w) row <> None -> zkpass w' = zkpass w))
  /\ (forall (verifier : SelfBackendVerifier) req_body result,
         required_fields_present req_body = true ->
         verifier (get req_body "attestationId") (get req_body "proof")
           (get req_body "publicSignals") (get req_body "userContextData")
         = Ok result ->
         truthy (get (isValidDetails result) "isValid") = true ->
         let uid := get (userData result) "userIdentifier" in
         let hex := get (userData result) "userDefinedData" in
         let audit := mkSelfcheckRow uid (get req_body "proof") in
         let row cosmosAddress :=
           mkZkpassRow (JStr cosmosAddress) uid (JStr "self") in
         (forall t,
             new_Date rt (get (discloseOutput result) "expiryDate") = Some t ->
             let w' := snd (Part003.api_verify rt (Some verifier) req_body w)
             in
             (forall cosmosAddress,
                 insert_selfcheck rt (selfcheck w) audit = None ->
                 Buffer_from_hex rt hex = Ok cosmosAddress ->
                 startsWith cosmosAddress "twilight" = true ->
                 insert_zkpass rt (zkpass w) (row cosmosAddress) = None ->
                 zkpass_added w w' [row cosmosAddress])
             /\ (insert_selfcheck rt (selfcheck w) audit <> None
                 \/ (forall cosmosAddress,
                        Buffer_from_hex rt hex = Ok cosmosAddress ->
                        startsWith cosmosAddress "twilight" = false
                        \/ insert_zkpass rt (zkpass w) (row cosmosAddress)
                           <> None) ->
                 zkpass w' = zkpass w))
         /\ zkpass (snd (ServerMjs.api_verify rt (Some verifier) req_body w))
            = zkpass w)
  /\ (forall req_body api,
         api = Part003.api_verify_self \/ api = ServerMjs.api_verify_self ->
         binding_fields_present req_body = true ->
         select_selfcheck rt (selfcheck w) (get req_body "uuid") = None ->
         0 < Database.count_selfcheck (selfcheck w) (get req_body "uuid") ->
         let row :=
           mkZkpassRow (get req_body "cosmosAddress") (get req_body "uuid")
             (JStr "self") in
         insert_zkpass rt (zkpass w) row = None ->
         status (fst (api rt req_body w)) = 200
         /\ zkpass_added w (snd (api rt req_body w)) [row]).
Proof.
  split; [| split].
  - intros req_body zk Hreq Hz Hv Hg row w'. subst row w'.
    destruct (part003_zk_answers rt req_body w zk Hreq Hz)
      as (w' & -> & _ & Hadd).
    rewrite Hg, Hv in Hadd. cbn [andb snd] in *.
    split; [reflexivity |]. split.
    + intros Hins. rewrite Hins in Hadd. exact Hadd.
    + intros Hins. unfold zkpass_added in Hadd.
      destruct (insert_zkpass rt (zkpass w)
                  (zk_row (JStr "zkpass") (get req_body "uniqueIdentifier")
                     (get req_body "cosmosAddress") zk)).
      * rewrite Hadd. apply app_nil_r.
      * destruct Hins. reflexivity.
  - intros verifier req_body result Hreq Hres Hval uid hex audit row.
    subst uid hex audit row. split.
    + intros t Hd w'. subst w'.
      pose proof (part003_valid_rows rt verifier req_body w result t Hreq
                    Hres Hval Hd) as Hrows.
      cbn zeta in Hrows. split.
      * intros cosmosAddress Ha Hb Hs Hi.
        rewrite Ha, Hb, Hs, Hi in Hrows. exact Hrows.
      * intros Hno.
        destruct (insert_selfcheck rt (selfcheck w)
                    (mkSelfcheckRow (get (userData result) "userIdentifier")
                       (get req_body "proof"))); [exact Hrows |].
        destruct Hno as [Hno | Hno]; [destruct Hno; reflexivity |].
        destruct (Buffer_from_hex rt
                    (get (userData result) "userDefinedData"))
          as [cosmosAddress | e]; [| exact Hrows].
        destruct (Hno cosmosAddress eq_refl) as [Hs | Hi].
        -- rewrite Hs in Hrows. exact Hrows.
        -- destruct (startsWith cosmosAddress "twilight"); [| exact Hrows].
           destruct (insert_zkpass rt (zkpass w)
                       (mkZkpassRow (JStr cosmosAddress)
                          (get (userData result) "userIdentifier")
                          (JStr "self"))); [exact Hrows |].
           destruct Hi. reflexivity.
    + destruct (new_Date rt (get (discloseOutput result) "expiryDate"))
        as [t |] eqn:Hd.
      * apply (server_valid rt verifier req_body w result Hreq Hres Hval t
                 Hd).
      * apply (server_invalid_date rt verifier req_body w result Hreq Hres
                 Hval Hd).
  - intros req_body api Hapi Hreq Hsel Hcount row Hins. subst row.
    destruct (binding_found rt req_body w Hreq Hsel Hcount Hins api Hapi)
      as (w' & -> & _ & Hadd).
    split; [reflexivity | exact Hadd].
Qed.

(** A valid proof whose user-defined data decodes to "twilight1abc". *)
Lemma verification_record_written_witness :
  zkpass_added Sample.empty_world
    (snd (Part003.api_verify
            (Sample.runtime None (Throw Sample.store_down))
            (Some (Sample.verifier_of
                     (Sample.self_valid (JStr "2030-01-01")
                        Sample.twilight_hex)))
            Sample.self_request Sample.empty_world))
    [mkZkpassRow (JStr "twilight1abc") (JStr "u1") (JStr "self")].
Proof.
  exact (proj1 (proj1 (proj1 (proj2 (verification_record_written
                                       (Sample.runtime None
                                          (Throw Sample.store_down))
                                       Sample.empty_world))
                         (Sample.verifier_of
                            (Sample.self_valid (JStr "2030-01-01")
                               Sample.twilight_hex))
                         Sample.self_request
                         (Sample.self_valid (JStr "2030-01-01")
                            Sample.twilight_hex)
                         eq_refl eq_refl eq_refl)
                  1893456000000 eq_refl)
           "twilight1abc" eq_refl eq_refl eq_refl eq_refl).
Defined.

(** The delegated binding of an audited identifier, in both servers: 200,
    and the one row ("twilight1abc", "u1", "self"). *)
Example binding_of_audited_identifier :
  forall api,
    api = Part003.api_verify_self \/ api = ServerMjs.api_verify_self ->
    status (fst (api (Sample.runtime None (Throw Sample.store_down))
                   Sample.binding_request Sample.audited_world)) = 200
    /\ zkpass (snd (api (Sample.runtime None (Throw Sample.store_down))
                      Sample.binding_request Sample.audited_world))
       = [mkZkpassRow (JStr "twilight1abc") (JStr "u1") (JStr "self")].
Proof. intros api [-> | ->]; split; reflexivity. Qed.

(** * Further properties of the code *)

(** ** [src/database.mjs]: insert and lookup *)

Lemma strict_eq_refl : forall v, strict_eq v v = true.
Proof.
  fix IH 1. intros [| | b | n | s | items | fields]; cbn; try reflexivity.
  - apply Bool.eqb_reflx.
  - apply Z.eqb_refl.
  - apply String.eqb_refl.
  - induction items as [| x xs IHxs]; [reflexivity |].
    rewrite (IH x). exact IHxs.
  - induction fields as [| [k x] xs IHxs]; [reflexivity |].
    rewrite String.eqb_refl, (IH x). exact IHxs.
Qed.

Lemma strict_eq_string (v : JsVal) (s : string) :
  strict_eq v (JStr s) = true <-> v = JStr s.
Proof.
  destruct v; cbn; try (split; discriminate).
  rewrite String.eqb_eq. split; [intros -> | intros [= ->]]; reflexivity.
Qed.

Lemma count_selfcheck_app (rows rows' : list SelfcheckRow) (id : JsVal) :
  Database.count_selfcheck (rows ++ rows') id
  = Database.count_selfcheck rows id + Database.count_selfcheck rows' id.
Proof.
  unfold Database.count_selfcheck.
  rewrite filter_app, length_app. lia.
Qed.

Lemma count_selfcheck_nonneg (rows : list SelfcheckRow) (id : JsVal) :
  0 <= Database.count_selfcheck rows id.
Proof. unfold Database.count_selfcheck. lia. Qed.

Lemma count_selfcheck_positive (rows : list SelfcheckRow) (s : string) :
  0 < Database.count_selfcheck rows (JStr s)
  <-> exists r, In r rows /\ attestationId r = JStr s.
Proof.
  unfold Database.count_selfcheck. split.
  - intros H.
    destruct (filter (fun r => strict_eq (attestationId r) (JStr s)) rows)
      as [| r rest] eqn:Hf; [cbn in H; lia |].
    assert (Hin : In r (filter (fun r => strict_eq (attestationId r) (JStr s))
                          rows)) by (rewrite Hf; left; reflexivity).
    apply filter_In in Hin as [Hin Heq].
    exists r. split; [exact Hin | apply strict_eq_string; exact Heq].
  - intros (r & Hin & Heq).
    assert (Hf : In r (filter (fun r => strict_eq (attestationId r) (JStr s))
                         rows)).
    { apply filter_In. split; [exact Hin |].
      apply strict_eq_string. exact Heq. }
    destruct (filter (fun r => strict_eq (attestationId r) (JStr s)) rows);
      [destruct Hf | cbn [List.length]; lia].
Qed.

(** X1. [checkAttestationExists] of a string identifier answers true exactly
    when table [selfcheck] holds a row with that [attestationId], false when
    it holds none, and rethrows the store's error when the SELECT fails; in
    no case does it change a table. *)
Theorem checkAttestationExists_spec (rt : Runtime) (s : string) (w : World) :
  let answer := Database.checkAttestationExists rt (JStr s) w in
  same_tables w (snd answer)
  /\ (select_selfcheck rt (selfcheck w) (JStr s) = None ->
      (fst answer = Ok true
       <-> exists r, In r (selfcheck w) /\ attestationId r = JStr s)
      /\ (fst answer = Ok false
          <-> forall r, In r (selfcheck w) -> attestationId r <> JStr s))
  /\ (forall e,
         select_selfcheck rt (selfcheck w) (JStr s) = Some e ->
         fst answer = Throw e).
Proof.
  unfold Database.checkAttestationExists, same_tables.
  destruct (select_selfcheck rt (selfcheck w) (JStr s)) as [e |] eqn:Hsel;
    cbn.
  - repeat split; try discriminate. intros e' [= ->]. reflexivity.
  - split; [split; reflexivity |]. split; [| discriminate].
    intros _. pose proof (count_selfcheck_positive (selfcheck w) s) as Hpos.
    destruct (0 <? Database.count_selfcheck (selfcheck w) (JStr s)) eqn:Hc.
    + apply Z.ltb_lt in Hc. apply Hpos in Hc. split; split; auto.
      * discriminate.
      * intros Hnone. destruct Hc as (r & Hin & Heq).
        destruct (Hnone r Hin Heq).
    + apply Z.ltb_ge in Hc. split; split; auto.
      * discriminate.
      * intros Hex. apply Hpos in Hex. lia.
      * intros _ r Hin Heq.
        assert (0 < Database.count_selfcheck (selfcheck w) (JStr s))
          by (apply Hpos; exists r; auto).
        lia.
Qed.

(** An identifier audited in the sample world. *)
Lemma checkAttestationExists_spec_witness :
  fst (Database.checkAttestationExists
         (Sample.runtime None (Throw Sample.store_down)) (JStr "u1")
         Sample.audited_world) = Ok true.
Proof.
  apply (proj1 (proj1 (proj2 (checkAttestationExists_spec
                                (Sample.runtime None (Throw Sample.store_down))
                                "u1" Sample.audited_world))
                  eq_refl)).
  exists (mkSelfcheckRow (JStr "u1") (JObj [])).
  split; [left; reflexivity | reflexivity].
Defined.

(** X2. An identifier whose audit INSERT was accepted is found by
    [checkAttestationExists], at once and after any further rows were
    appended to table [selfcheck]. *)
Theorem audit_is_found_and_stays
    (rt : Runtime) (s : string) (proof : JsVal) (w : World) :
  insert_selfcheck rt (selfcheck w) (mkSelfcheckRow (JStr s) proof) = None ->
  let w1 := snd (Database.saveSelfCheck rt (JStr s) proof w) in
  selfcheck w1 = (selfcheck w ++ [mkSelfcheckRow (JStr s) proof])%list
  /\ zkpass w1 = zkpass w
  /\ forall rt' w2 more,
      selfcheck w2 = (selfcheck w1 ++ more)%list ->
      select_selfcheck rt' (selfcheck w2) (JStr s) = None ->
      fst (Database.checkAttestationExists rt' (JStr s) w2) = Ok true.
Proof.
  intros Hins w1. subst w1. unfold Database.saveSelfCheck. rewrite Hins.
  cbn. split; [reflexivity |]. split; [reflexivity |].
  intros rt' w2 more Hw2 Hsel.
  unfold Database.checkAttestationExists. rewrite Hsel. cbn. f_equal.
  apply Z.ltb_lt. rewrite Hw2, !count_selfcheck_app.
  pose proof (count_selfcheck_nonneg (selfcheck w) (JStr s)).
  pose proof (count_selfcheck_nonneg more (JStr s)).
  assert (Database.count_selfcheck [mkSelfcheckRow (JStr s) proof] (JStr s)
          = 1) as ->; [| lia].
  unfold Database.count_selfcheck. cbn. rewrite String.eqb_refl. reflexivity.
Qed.

Lemma audit_is_found_and_stays_witness :
  fst (Database.checkAttestationExists
         (Sample.runtime None (Throw Sample.store_down)) (JStr "u2")
         (snd (Database.saveSelfCheck
                 (Sample.runtime None (Throw Sample.store_down)) (JStr "u2")
                 JNull Sample.audited_world))) = Ok true.
Proof.
  exact (proj2 (proj2 (audit_is_found_and_stays
                         (Sample.runtime None (Throw Sample.store_down))
                         "u2" JNull Sample.audited_world eq_refl))
           (Sample.runtime None (Throw Sample.store_down))
           (snd (Database.saveSelfCheck
                   (Sample.runtime None (Throw Sample.store_down))
                   (JStr "u2") JNull Sample.audited_world))
           [] eq_refl eq_refl).
Defined.

(** X3. [saveVerification] is a blind INSERT: called twice with the same
    arguments on a store that accepts both, it leaves two equal rows at the
    end of table [zkpass]; on a store that rejects, it stores nothing,
    prints the error and rethrows it. *)
Theorem saveVerification_is_not_idempotent
    (rt : Runtime) (uid address provider : JsVal) (w : World) :
  let row := mkZkpassRow address uid provider in
  (insert_zkpass rt (zkpass w) row = None ->
   insert_zkpass rt (zkpass w ++ [row]) row = None ->
   let twice :=
     (Database.saveVerification rt uid address provider ;;;
      Database.saveVerification rt uid address provider) w in
   fst twice = Ok (Database.row_object row)
   /\ zkpass (snd twice) = (zkpass w ++ [row; row])%list
   /\ selfcheck (snd twice) = selfcheck w)
  /\ (forall e,
         insert_zkpass rt (zkpass w) row = Some e ->
         let once := Database.saveVerification rt uid address provider w in
         fst once = Throw e
         /\ same_tables w (snd once)
         /\ console (snd once)
            = (console w ++ [console_error "Error saving verification:" e])
              %list).
Proof.
  intros row. subst row. split.
  - intros H1 H2. unfold bind, Database.saveVerification.
    rewrite H1. cbn. rewrite H2. cbn.
    rewrite <- app_assoc. repeat split.
  - intros e He. unfold Database.saveVerification. rewrite He.
    repeat split.
Qed.

Lemma saveVerification_is_not_idempotent_witness :
  zkpass (snd ((Database.saveVerification
                  (Sample.runtime None (Throw Sample.store_down))
                  (JStr "u1") (JStr "twilight1abc") (JStr "self") ;;;
                Database.saveVerification
                  (Sample.runtime None (Throw Sample.store_down))
                  (JStr "u1") (JStr "twilight1abc") (JStr "self"))
                 Sample.empty_world))
  = [mkZkpassRow (JStr "twilight1abc") (JStr "u1") (JStr "self");
     mkZkpassRow (JStr "twilight1abc") (JStr "u1") (JStr "self")].
Proof.
  exact (proj1 (proj2 (proj1 (saveVerification_is_not_idempotent
                                (Sample.runtime None (Throw Sample.store_down))
                                (JStr "u1") (JStr "twilight1abc") (JStr "self")
                                Sample.empty_world)
                         eq_refl eq_refl))).
Defined.

(** ** What the handlers write: soundness *)

(** Case analysis on the innermost scrutinee of the goal. *)
Ltac scrutinee t k :=
  lazymatch t with
  | context [match ?x with _ => _ end] => first [scrutinee x k | k x]
  end.

Ltac crunch_step :=
  match goal with
  | |- ?g => scrutinee g ltac:(fun x => destruct x eqn:?)
  end; cbn in *.

Ltac crunch := cbn in *; repeat crunch_step.

Ltac bool_facts :=
  repeat match goal with
    | H : _ || _ = false |- _ => apply orb_false_iff in H as [? ?]
    | H : _ && _ = true |- _ => apply andb_true_iff in H as [? ?]
    | H : negb _ = false |- _ => apply negb_false_iff in H
    | H : negb _ = true |- _ => apply negb_true_iff in H
    | H : Bool.eqb _ true = true |- _ => apply Bool.eqb_prop in H
    | H : (_ <? _) = true |- _ => apply Z.ltb_lt in H
    end.

Lemma app_one_neq {A : Type} (l : list A) (r : A) : l = (l ++ [r])%list -> False.
Proof.
  intros H. apply (f_equal (@List.length A)) in H.
  rewrite length_app in H. cbn in H. lia.
Qed.

Ltac leaf_rows :=
  first [ left; reflexivity
        | right; eexists; split; [reflexivity | repeat split; auto; lia] ].

Ltac leaf_iff :=
  split; intros Hleaf;
  first [ discriminate Hleaf | reflexivity
        | exfalso; exact (app_one_neq _ _ Hleaf) ].

(** X4. The delegated binding, in both servers and for every request:
    table [selfcheck] is left as it was; table [zkpass] is left as it was
    or gets one row, [(cosmosAddress, uuid, "self")] with both fields truthy
    and [uuid] counted in [selfcheck]; and the answer is 200 exactly when
    that row was written. *)
Theorem binding_writes_only_audited
    (rt : Runtime) (req_body : JsObject) (w : World) :
  forall api,
    api = Part003.api_verify_self \/ api = ServerMjs.api_verify_self ->
    let row :=
      mkZkpassRow (get req_body "cosmosAddress") (get req_body "uuid")
        (JStr "self") in
    let answer := api rt req_body w in
    selfcheck (snd answer) = selfcheck w
    /\ at_most_one
         (fun r =>
            r = row
            /\ truthy (get req_body "cosmosAddress") = true
            /\ truthy (get req_body "uuid") = true
            /\ 0 < Database.count_selfcheck (selfcheck w) (get req_body "uuid"))
         (zkpass w) (zkpass (snd answer))
    /\ (status (fst answer) = 200
        <-> zkpass (snd answer) = (zkpass w ++ [row])%list).
Proof.
  intros api [-> | ->] row answer; subst row answer;
    unfold Part003.api_verify_self, ServerMjs.api_verify_self, handler, bind,
      ret, throw, lift, print, catch_500, Database.checkAttestationExists,
      Database.saveVerification, at_most_one, status_json, json;
    crunch; bool_facts.
  all: split; [reflexivity |].
  all: split; [leaf_rows | leaf_iff].
Qed.

Lemma binding_writes_only_audited_witness :
  selfcheck (snd (Part003.api_verify_self
                    (Sample.runtime None (Throw Sample.store_down))
                    Sample.binding_request Sample.audited_world))
  = selfcheck Sample.audited_world.
Proof.
  exact (proj1 (binding_writes_only_audited
                  (Sample.runtime None (Throw Sample.store_down))
                  Sample.binding_request Sample.audited_world
                  Part003.api_verify_self (or_introl eq_refl))).
Defined.

(** X5. [/api/verify/zkpass], in both servers and for every request: table
    [selfcheck] is left as it was, and table [zkpass] is left as it was or
    gets one row, which is written only when the three fields are present,
    the verifier returned, [verified] is true and the server identifier
    [==] the client's; the row holds [clientUID || serverUID] and
    [cosmosAddress ?? null], whatever that value is. *)
Theorem zkpass_writes_only_verified
    (rt : Runtime) (req_body : JsObject) (w : World) :
  forall api provider_tag,
    (api = Part003.api_verify_zkpass /\ provider_tag = JStr "zkpass")
    \/ (api = ServerMjs.api_verify_zkpass /\ provider_tag = JUndefined) ->
    let clientUID := get req_body "uniqueIdentifier" in
    let answer := api rt req_body w in
    selfcheck (snd answer) = selfcheck w
    /\ at_most_one
         (fun r =>
            exists zk,
              zk_fields_present req_body = true
              /\ zk_verify rt (get req_body "proofs")
                   (nullish (get req_body "queryResult")
                      (get req_body "result"))
                   (get req_body "scope")
                   (devMode_or_true (get req_body "devMode")) = Ok zk
              /\ verified zk = true
              /\ loose_eq rt (uniqueIdentifier zk) clientUID = true
              /\ r = mkZkpassRow
                       (nullish (get req_body "cosmosAddress") JNull)
                       (js_or clientUID (opt_str (uniqueIdentifier zk)))
                       provider_tag)
         (zkpass w) (zkpass (snd answer)).
Proof.
  intros api tag [[-> ->] | [-> ->]] clientUID answer; subst clientUID answer;
    unfold Part003.api_verify_zkpass, ServerMjs.api_verify_zkpass,
      Part003.save_if_match, ServerMjs.save_if_match, handler, bind, ret,
      throw, lift, print, try_catch, catch_zkpass, Database.saveVerification,
      at_most_one, status_json, json, zk_fields_present;
    crunch; bool_facts.
  all: split; [reflexivity |].
  all: first [ left; reflexivity | right; eexists; split; [reflexivity |] ].
  all: eexists; repeat split; eauto.
  all: repeat match goal with H : _ = true |- _ => rewrite H end; reflexivity.
Qed.

Lemma zkpass_writes_only_verified_witness :
  selfcheck (snd (Part003.api_verify_zkpass
                    (Sample.runtime None (Ok (Sample.zk_verified "abc")))
                    (Sample.zk_request_with "abc") Sample.audited_world))
  = selfcheck Sample.audited_world.
Proof.
  exact (proj1 (zkpass_writes_only_verified
                  (Sample.runtime None (Ok (Sample.zk_verified "abc")))
                  (Sample.zk_request_with "abc") Sample.audited_world
                  Part003.api_verify_zkpass (JStr "zkpass")
                  (or_introl (conj eq_refl eq_refl)))).
Defined.

Ltac unfold_api_verify :=
  unfold Part003.api_verify, Part003.call_verifier, Part003.policy_checks,
    Part003.best_effort, Part003.success_response, Part003.failure_response,
    ServerMjs.api_verify, ServerMjs.call_verifier, ServerMjs.policy_checks,
    ServerMjs.best_effort, ServerMjs.success_response,
    ServerMjs.failure_response, Part002.api_verify, Part002.call_verifier,
    toISOString, handler, bind, ret, throw, lift, print, try_catch,
    catch_500, Database.saveVerification, Database.saveSelfCheck,
    at_most_one, same_tables, status_json, json.

(** X6. [part_003]'s [/api/verify], for every request and every state of
    the verifier: each table is left as it was or gets one row.  A
    [selfcheck] row is written only for a proof the verifier found valid,
    and holds its [userIdentifier] and the request's [proof].  A [zkpass]
    row is written only after the [selfcheck] row, and holds the
    [userIdentifier], the address decoded from the proof's user-defined
    data, which starts with "twilight", and "self". *)
Theorem verify_writes_only_valid
    (rt : Runtime) (selfBackendVerifier : option SelfBackendVerifier)
    (req_body : JsObject) (w : World) :
  let answer := Part003.api_verify rt selfBackendVerifier req_body w in
  let valid_result result :=
    exists verifier,
      selfBackendVerifier = Some verifier
      /\ required_fields_present req_body = true
      /\ verifier (get req_body "attestationId") (get req_body "proof")
           (get req_body "publicSignals") (get req_body "userContextData")
         = Ok result
      /\ truthy (get (isValidDetails result) "isValid") = true in
  at_most_one
    (fun a =>
       exists result,
         valid_result result
         /\ a = mkSelfcheckRow (get (userData result) "userIdentifier")
                  (get req_body "proof"))
    (selfcheck w) (selfcheck (snd answer))
  /\ at_most_one
       (fun r =>
          exists result cosmosAddress,
            valid_result result
            /\ Buffer_from_hex rt (get (userData result) "userDefinedData")
               = Ok cosmosAddress
            /\ startsWith cosmosAddress "twilight" = true
            /\ r = mkZkpassRow (JStr cosmosAddress)
                     (get (userData result) "userIdentifier") (JStr "self"))
       (zkpass w) (zkpass (snd answer))
  /\ (zkpass (snd answer) <> zkpass w ->
      selfcheck (snd answer) <> selfcheck w /\ status (fst answer) = 200).
Proof.
  intros answer valid_result. subst answer valid_result.
  unfold_api_verify. rewrite validation_condition.
  crunch; bool_facts.
  all: split; [| split].
  all: try (left; reflexivity).
  all: try (intros Hneq; exfalso; apply Hneq; reflexivity).
  all: try (intros _; split;
            [intros Hneq; exact (app_one_neq _ _ (eq_sym Hneq))
            | reflexivity]).
  all: right; eexists; (split; [reflexivity |]).
  all: repeat eexists; eauto.
Qed.

(** X7. [server.mjs]'s [/api/verify] and [part_002]'s [/api/verify] never
    write: whatever the request, the verifier and the store do, both tables
    are left as they were. *)
Theorem verify_never_writes
    (rt : Runtime) (selfBackendVerifier : option SelfBackendVerifier)
    (req_body : JsObject) (w : World) :
  same_tables w (snd (ServerMjs.api_verify rt selfBackendVerifier req_body w))
  /\ same_tables w
       (snd (Part002.api_verify rt selfBackendVerifier req_body w)).
Proof.
  split; unfold_api_verify; rewrite validation_condition; crunch;
    split; reflexivity.
Qed.

(** ** The verifier that failed to initialise *)

(** X8. [GET /health] always answers 200 and reports [verifierReady: false]
    exactly when [/api/verify] answers every request, well-formed or not,
    with 500 "Self Backend Verifier not initialized"; this holds in the
    three servers, and such a request writes nothing. *)
Theorem health_tells_readiness
    (rt : Runtime) (env : ProcessEnv)
    (selfBackendVerifier : option SelfBackendVerifier) :
  forall message api,
    api = Part003.api_verify rt \/ api = ServerMjs.api_verify rt
    \/ api = Part002.api_verify rt ->
    let report := Boot.health message rt env selfBackendVerifier in
    let refusal :=
      status_json 500
        [("status", JStr "error");
         ("message", JStr "Self Backend Verifier not initialized");
         ("timestamp", timestamp rt)] in
    status report = 200
    /\ (get (body report) "verifierReady" = JBool false
        <-> forall req_body w,
              fst (api selfBackendVerifier req_body w) = refusal)
    /\ (get (body report) "verifierReady" = JBool false ->
        forall req_body w,
          same_tables w (snd (api selfBackendVerifier req_body w))).
Proof.
  intros message api Hapi report refusal. subst report refusal.
  split; [reflexivity |]. destruct selfBackendVerifier as [verifier |]; cbn.
  - split; [| discriminate]. split; [discriminate |]. intros H.
    specialize (H [] Sample.empty_world).
    destruct Hapi as [-> | [-> | ->]]; discriminate H.
  - split; [split; [| reflexivity] |];
      intros _ req_body w; destruct Hapi as [-> | [-> | ->]];
      first [reflexivity | split; reflexivity].
Qed.

Lemma health_tells_readiness_witness :
  status (Boot.health "Backend running"
            (Sample.runtime None (Throw Sample.store_down)) (fun _ => None)
            None) = 200.
Proof.
  exact (proj1 (health_tells_readiness
                  (Sample.runtime None (Throw Sample.store_down))
                  (fun _ => None) None "Backend running"
                  (Part003.api_verify
                     (Sample.runtime None (Throw Sample.store_down)))
                  (or_introl eq_refl))).
Defined.

(** ** Store failures in the delegated binding *)

(** X9. In both servers the delegated binding surfaces a store failure: when
    the SELECT on [selfcheck] fails, or when the identifier is audited and
    the INSERT into [zkpass] is rejected, the answer is 500 with the
    store's error message ("Internal server error" for an empty one), and
    no row is written. *)
Theorem binding_surfaces_store_errors
    (rt : Runtime) (req_body : JsObject) (w : World) (e : JsError) :
  binding_fields_present req_body = true ->
  select_selfcheck rt (selfcheck w) (get req_body "uuid") = Some e
  \/ (select_selfcheck rt (selfcheck w) (get req_body "uuid") = None
      /\ 0 < Database.count_selfcheck (selfcheck w) (get req_body "uuid")
      /\ insert_zkpass rt (zkpass w)
           (mkZkpassRow (get req_body "cosmosAddress") (get req_body "uuid")
              (JStr "self")) = Some e) ->
  forall api,
    api = Part003.api_verify_self \/ api = ServerMjs.api_verify_self ->
    fst (api rt req_body w)
    = status_json 500
        [("status", JStr "error");
         ("message", JStr (message_or e "Internal server error"));
         ("timestamp", timestamp rt)]
    /\ same_tables w (snd (api rt req_body w)).
Proof.
  intros Hreq Hfail api Hapi.
  assert (Hcond : negb (truthy (get req_body "cosmosAddress"))
                  || negb (truthy (get req_body "uuid")) = false).
  { rewrite binding_condition, Hreq. reflexivity. }
  destruct Hapi as [-> | ->];
    unfold Part003.api_verify_self, ServerMjs.api_verify_self, handler, bind,
      ret, throw, lift, print, catch_500, Database.checkAttestationExists,
      Database.saveVerification, same_tables;
    cbn; rewrite Hcond; cbn;
    (destruct Hfail as [Hsel | (Hsel & Hcount & Hins)];
     [ rewrite Hsel; cbn; repeat split
     | apply Z.ltb_lt in Hcount; rewrite Hsel; cbn; rewrite Hcount; cbn;
       rewrite Hins; cbn; repeat split ]).
Qed.

Lemma binding_surfaces_store_errors_witness :
  status (fst (Part003.api_verify_self
                 (Sample.runtime (Some Sample.store_down)
                    (Throw Sample.store_down))
                 Sample.binding_request Sample.audited_world)) = 500.
Proof.
  exact (f_equal status
           (proj1 (binding_surfaces_store_errors
                     (Sample.runtime (Some Sample.store_down)
                        (Throw Sample.store_down))
                     Sample.binding_request Sample.audited_world
                     Sample.store_down eq_refl
                     (or_intror (conj eq_refl (conj eq_refl eq_refl)))
                     Part003.api_verify_self (or_introl eq_refl)))).
Defined.

(** ** The servers as a whole *)

Lemma verify_never_writes_server
    (rt : Runtime) (selfBackendVerifier : option SelfBackendVerifier)
    (req_body : JsObject) (w : World) :
  zkpass (snd (ServerMjs.api_verify rt selfBackendVerifier req_body w))
  = zkpass w.
Proof.
  unfold_api_verify. rewrite validation_condition. crunch; reflexivity.
Qed.

Lemma server_keeps_selfcheck
    (env : ProcessEnv) (selfBackendVerifier : option SelfBackendVerifier)
    (rt : Runtime) (request : Request) (w : World) :
  selfcheck (snd (app_server env selfBackendVerifier rt request w))
  = selfcheck w.
Proof.
  destruct request as [| b | b | b]; cbn [app_server snd].
  - reflexivity.
  - unfold_api_verify. rewrite validation_condition. crunch; reflexivity.
  - unfold ServerMjs.api_verify_self, handler, bind, ret, throw, lift, print,
      catch_500, Database.checkAttestationExists, Database.saveVerification.
    crunch; reflexivity.
  - unfold ServerMjs.api_verify_zkpass, ServerMjs.save_if_match, handler,
      bind, ret, throw, lift, print, try_catch, catch_zkpass,
      Database.saveVerification.
    crunch; reflexivity.
Qed.

Lemma server_binding_needs_audit
    (rt : Runtime) (req_body : JsObject) (w : World) :
  selfcheck w = [] ->
  status (fst (ServerMjs.api_verify_self rt req_body w)) <> 200.
Proof.
  intros Hempty.
  unfold ServerMjs.api_verify_self, handler, bind, ret, throw, lift, print,
    catch_500, Database.checkAttestationExists, Database.saveVerification.
  cbn. rewrite Hempty. crunch; discriminate.
Qed.

Lemma server_rows_untagged
    (env : ProcessEnv) (selfBackendVerifier : option SelfBackendVerifier)
    (rt : Runtime) (request : Request) (w : World) :
  selfcheck w = [] ->
  at_most_one (fun r => provider r = JUndefined) (zkpass w)
    (zkpass (snd (app_server env selfBackendVerifier rt request w))).
Proof.
  intros Hempty. destruct request as [| b | b | b]; cbn [app_server snd].
  - left. reflexivity.
  - left. apply (verify_never_writes_server rt selfBackendVerifier b w).
  - unfold ServerMjs.api_verify_self, handler, bind, ret, throw, lift, print,
      catch_500, Database.checkAttestationExists, Database.saveVerification.
    cbn. rewrite Hempty. crunch; left; reflexivity.
  - unfold ServerMjs.api_verify_zkpass, ServerMjs.save_if_match, handler,
      bind, ret, throw, lift, print, try_catch, catch_zkpass,
      Database.saveVerification, at_most_one.
    crunch;
      first [ left; reflexivity
            | right; eexists; split; reflexivity ].
Qed.

(** X10. The delegated binding of [server.mjs] cannot succeed on its own:
    no route of [server.mjs] writes table [selfcheck], so from an empty
    [selfcheck] table, after any sequence of requests in any runtimes, the
    table is still empty, no [/api/verify/self] request of the sequence was
    answered 200, and every row added to table [zkpass] has an undefined
    provider (it is a row of [/api/verify/zkpass]; none is tagged
    "self"). *)
Theorem server_mjs_binding_never_succeeds
    (env : ProcessEnv) (selfBackendVerifier : option SelfBackendVerifier)
    (requests : list (Runtime * Request)) (w : World) :
  selfcheck w = [] ->
  let outcome := serve (app_server env selfBackendVerifier) requests w in
  selfcheck (snd outcome) = []
  /\ Forall2
       (fun request response =>
          forall req_body,
            snd request = PostVerifySelf req_body -> status response <> 200)
       requests (fst outcome)
  /\ exists added,
      zkpass (snd outcome) = (zkpass w ++ added)%list
      /\ Forall (fun r => provider r = JUndefined) added.
Proof.
  cbn zeta. revert w.
  induction requests as [| [rt request] rest IH]; intros w Hempty.
  - split; [exact Hempty |]. split; [constructor |].
    exists []. split; [symmetry; apply app_nil_r | constructor].
  - cbn [serve].
    pose proof (server_keeps_selfcheck env selfBackendVerifier rt request w)
      as Hkeep.
    pose proof (server_rows_untagged env selfBackendVerifier rt request w
                  Hempty) as Hrow.
    destruct (app_server env selfBackendVerifier rt request w)
      as [response w1] eqn:Happ.
    cbn [snd] in Hkeep, Hrow. rewrite Hempty in Hkeep.
    destruct (IH w1 Hkeep) as (Hend & Hall & added & Hz & Hadded).
    destruct (serve (app_server env selfBackendVerifier) rest w1)
      as [responses w2].
    cbn [fst snd] in *. split; [exact Hend |]. split.
    + constructor; [| exact Hall].
      intros req_body Hreq. cbn [snd] in Hreq. subst request.
      cbn [app_server] in Happ.
      pose proof (server_binding_needs_audit rt req_body w Hempty) as Hno.
      rewrite Happ in Hno. exact Hno.
    + destruct Hrow as [Hrow | (r & Hrow & Hr)]; rewrite Hrow in Hz.
      * exists added. split; assumption.
      * exists (r :: added). rewrite Hz, <- app_assoc.
        split; [reflexivity | constructor; assumption].
Qed.

(** A verified zk-passport request, then a binding request, on empty
    tables. *)
Lemma server_mjs_binding_never_succeeds_witness :
  selfcheck
    (snd (serve (app_server (fun _ => None) None)
            [(Sample.runtime None (Ok (Sample.zk_verified "abc")),
              PostVerifyZkpass (Sample.zk_request_with "abc"));
             (Sample.runtime None (Throw Sample.store_down),
              PostVerifySelf Sample.binding_request)]
            Sample.empty_world)) = [].
Proof.
  exact (proj1 (server_mjs_binding_never_succeeds (fun _ => None) None
                  [(Sample.runtime None (Ok (Sample.zk_verified "abc")),
                    PostVerifyZkpass (Sample.zk_request_with "abc"));
                   (Sample.runtime None (Throw Sample.store_down),
                    PostVerifySelf Sample.binding_request)]
                  Sample.empty_world eq_refl)).
Defined.

(** X11. In [part_003] a valid proof opens the delegated binding, and the
    binding does not check the address: after [/api/verify] stored the
    audit row of a proof whose [userIdentifier] is a non-empty string, a
    [/api/verify/self] request for that identifier is answered 200 and
    stores the row [(cosmosAddress, uuid, "self")] for whatever truthy
    [cosmosAddress] it carries, when the store accepts the queries. *)
Theorem valid_proof_opens_binding
    (rt rt' : Runtime) (verifier : SelfBackendVerifier)
    (req_body req_body' : JsObject) (w : World) (result : SelfResult)
    (t : Z) (s : string) :
  required_fields_present req_body = true ->
  verifier (get req_body "attestationId") (get req_body "proof")
    (get req_body "publicSignals") (get req_body "userContextData")
  = Ok result ->
  truthy (get (isValidDetails result) "isValid") = true ->
  new_Date rt (get (discloseOutput result) "expiryDate") = Some t ->
  get (userData result) "userIdentifier" = JStr s ->
  insert_selfcheck rt (selfcheck w)
    (mkSelfcheckRow (JStr s) (get req_body "proof")) = None ->
  let w1 := snd (Part003.api_verify rt (Some verifier) req_body w) in
  let row :=
    mkZkpassRow (get req_body' "cosmosAddress") (JStr s) (JStr "self") in
  get req_body' "uuid" = JStr s ->
  s <> "" ->
  truthy (get req_body' "cosmosAddress") = true ->
  select_selfcheck rt' (selfcheck w1) (JStr s) = None ->
  insert_zkpass rt' (zkpass w1) row = None ->
  status (fst (Part003.api_verify_self rt' req_body' w1)) = 200
  /\ zkpass_added w1 (snd (Part003.api_verify_self rt' req_body' w1)) [row].
Proof.
  intros Hreq Hres Hval Hd Huid Hins w1 row Huuid Hs Haddr Hsel Hrow.
  subst row.
  assert (Haudit : selfcheck w1
                   = (selfcheck w
                      ++ [mkSelfcheckRow (JStr s) (get req_body "proof")])
                     %list).
  { subst w1.
    destruct (part003_valid rt verifier req_body w result Hreq Hres Hval t Hd)
      as (w0 & w' & [_ Hs0] & Hbe & Heq).
    rewrite Heq. cbn [snd logged selfcheck].
    destruct (part003_best_effort_cases rt result (get req_body "proof") w0)
      as (w2 & Hbe2 & Hcases).
    rewrite Hbe in Hbe2. injection Hbe2 as <-.
    rewrite Hs0, Huid, Hins in Hcases. apply Hcases. }
  assert (Hpresent : binding_fields_present req_body' = true).
  { unfold binding_fields_present. rewrite Haddr, Huuid. cbn.
    destruct s; [destruct Hs; reflexivity | reflexivity]. }
  assert (Hcount : 0 < Database.count_selfcheck (selfcheck w1)
                         (get req_body' "uuid")).
  { rewrite Huuid. apply count_selfcheck_positive.
    exists (mkSelfcheckRow (JStr s) (get req_body "proof")).
    split; [rewrite Haudit; apply in_or_app; right; left |]; reflexivity. }
  rewrite <- Huuid in Hsel, Hrow.
  destruct (binding_found rt' req_body' w1 Hpresent Hsel Hcount Hrow
              Part003.api_verify_self (or_introl eq_refl))
    as (w2 & Heq & _ & Hadd).
  rewrite Heq. rewrite Huuid in Hadd. split; [reflexivity | exact Hadd].
Qed.

(** A valid proof bound to "cosmos1abc": [/api/verify] refuses the address,
    [/api/verify/self] takes it. *)
Lemma valid_proof_opens_binding_witness :
  status
    (fst (Part003.api_verify_self
            (Sample.runtime None (Throw Sample.store_down))
            [("cosmosAddress", JStr "cosmos1abc"); ("uuid", JStr "u1")]
            (snd (Part003.api_verify
                    (Sample.runtime None (Throw Sample.store_down))
                    (Some (Sample.verifier_of
                             (Sample.self_valid (JStr "2030-01-01")
                                Sample.cosmos_hex)))
                    Sample.self_request Sample.empty_world)))) = 200.
Proof.
  refine (proj1 (valid_proof_opens_binding
                   (Sample.runtime None (Throw Sample.store_down))
                   (Sample.runtime None (Throw Sample.store_down))
                   (Sample.verifier_of
                      (Sample.self_valid (JStr "2030-01-01")
                         Sample.cosmos_hex))
                   Sample.self_request
                   [("cosmosAddress", JStr "cosmos1abc"); ("uuid", JStr "u1")]
                   Sample.empty_world
                   (Sample.self_valid (JStr "2030-01-01") Sample.cosmos_hex)
                   1893456000000 "u1"
                   eq_refl eq_refl eq_refl eq_refl eq_refl eq_refl eq_refl _
                   eq_refl eq_refl eq_refl)).
  discriminate.
Defined.

(** ** The envelope of [/api/verify/zkpass] *)

Lemma strict_implies_loose (rt : Runtime) (server : option string)
    (client : JsVal) :
  truthy client = true ->
  strict_eq client (opt_str server) = true ->
  loose_eq rt server client = true.
Proof.
  intros Ht Hs. destruct server as [s |]; cbn in Hs.
  - apply strict_eq_string in Hs. subst client. cbn. apply String.eqb_refl.
  - destruct client; try discriminate Hs. discriminate Ht.
Qed.

(** X12. The envelope of [part_003], for a request that passes the field
    check and an outcome the verifier returns: the HTTP status is 200
    whether or not [verified] is true; [status] is "success" exactly when
    [verified] is true; [match] is [null] exactly when the client
    identifier is falsy; and when [match] and [verified] are both true the
    row was handed to the store, so it is in table [zkpass] unless the
    store rejected the INSERT. *)
Theorem zkpass_envelope_and_store
    (rt : Runtime) (req_body : JsObject) (w : World) (zk : ZkResult) :
  zk_fields_present req_body = true ->
  zk_verify rt (get req_body "proofs")
    (nullish (get req_body "queryResult") (get req_body "result"))
    (get req_body "scope") (devMode_or_true (get req_body "devMode"))
  = Ok zk ->
  let clientUID := get req_body "uniqueIdentifier" in
  let answer := Part003.api_verify_zkpass rt req_body w in
  let row :=
    zk_row (JStr "zkpass") clientUID (get req_body "cosmosAddress") zk in
  status (fst answer) = 200
  /\ (get (body (fst answer)) "status" = JStr "success"
      <-> verified zk = true)
  /\ get (body (fst answer)) "verified" = JBool (verified zk)
  /\ (get (body (fst answer)) "match" = JNull <-> truthy clientUID = false)
  /\ (get (body (fst answer)) "match" = JBool true ->
      verified zk = true ->
      match insert_zkpass rt (zkpass w) row with
      | None => zkpass_added w (snd answer) [row]
      | Some _ => zkpass (snd answer) = zkpass w
      end).
Proof.
  intros Hreq Hz clientUID answer row. subst clientUID answer row.
  destruct (part003_zk_answers rt req_body w zk Hreq Hz)
    as (w' & Heq & _ & Hadd).
  rewrite Heq. cbn [fst snd body status json Part003.envelope get String.eqb
                      Ascii.eqb Bool.eqb].
  split; [reflexivity |]. split; [| split; [reflexivity | split]].
  - destruct (verified zk); split; try discriminate; reflexivity.
  - destruct (truthy (get req_body "uniqueIdentifier")); split;
      try discriminate; reflexivity.
  - intros Hm Hv.
    destruct (truthy (get req_body "uniqueIdentifier")) eqn:Ht;
      [| discriminate Hm].
    injection Hm as Hm.
    rewrite (strict_implies_loose rt _ _ Ht Hm), Hv in Hadd. cbn [andb] in Hadd.
    destruct (insert_zkpass rt (zkpass w)
                (zk_row (JStr "zkpass") (get req_body "uniqueIdentifier")
                   (get req_body "cosmosAddress") zk)).
    + unfold zkpass_added in Hadd. rewrite Hadd. apply app_nil_r.
    + exact Hadd.
Qed.

Lemma zkpass_envelope_and_store_witness :
  status (fst (Part003.api_verify_zkpass
                 (Sample.runtime None
                    (Ok (mkZkResult false (Some "abc") JNull)))
                 (Sample.zk_request_with "abc") Sample.empty_world)) = 200.
Proof.
  exact (proj1 (zkpass_envelope_and_store
                  (Sample.runtime None
                     (Ok (mkZkResult false (Some "abc") JNull)))
                  (Sample.zk_request_with "abc") Sample.empty_world
                  (mkZkResult false (Some "abc") JNull) eq_refl eq_refl)).
Defined.

(** X13. [/api/verify/zkpass] reads the query result as
    [queryResult ?? result]: two requests that agree on the other fields
    the handler reads and on that value get the same answer and leave the
    same world, so the legacy [result] serves when [queryResult] is absent
    or [null]; but a [queryResult] that is present and falsy (the empty
    string, 0, [false]) is answered 400 whatever [result] holds. *)
Theorem zkpass_query_result_alias (rt : Runtime) (w : World) :
  forall api,
    api = Part003.api_verify_zkpass \/ api = ServerMjs.api_verify_zkpass ->
    (forall req_body req_body',
        (forall k,
            In k ["proofs"; "scope"; "uniqueIdentifier"; "cosmosAddress";
                  "devMode"] ->
            get req_body k = get req_body' k) ->
        nullish (get req_body "queryResult") (get req_body "result")
        = nullish (get req_body' "queryResult") (get req_body' "result") ->
        zk_fields_present req_body = true ->
        api rt req_body w = api rt req_body' w)
    /\ (forall req_body,
           get req_body "queryResult" <> JUndefined ->
           get req_body "queryResult" <> JNull ->
           truthy (get req_body "queryResult") = false ->
           fst (api rt req_body w)
           = status_json 400
               [("error", JStr "missing fields");
                ("have", Object_keys req_body)]
           /\ snd (api rt req_body w) = w).
Proof.
  intros api Hapi. split.
  - intros b b' Hagree Hqr Hreq.
    assert (Hreq' : zk_fields_present b' = true).
    { unfold zk_fields_present in *.
      rewrite <- Hqr, <- (Hagree "proofs"), <- (Hagree "scope"); cbn; auto. }
    assert (Hc : forall x, negb (truthy (get x "proofs"))
                           || negb (truthy (nullish (get x "queryResult")
                                              (get x "result")))
                           || negb (truthy (get x "scope"))
                           = negb (zk_fields_present x))
      by (intros x; apply zk_condition).
    destruct Hapi as [-> | ->];
      unfold Part003.api_verify_zkpass, ServerMjs.api_verify_zkpass;
      cbn zeta; rewrite (Hc b), (Hc b'), Hreq, Hreq'; cbn [negb];
      rewrite <- Hqr, <- (Hagree "proofs"), <- (Hagree "scope"),
        <- (Hagree "uniqueIdentifier"), <- (Hagree "cosmosAddress"),
        <- (Hagree "devMode"); cbn; auto 10.
  - intros b Hu Hn Hf.
    assert (Hreq : zk_fields_present b = false).
    { unfold zk_fields_present.
      destruct (get b "queryResult"); try contradiction; cbn [nullish];
        rewrite Hf; apply andb_false_r || (rewrite andb_false_r; reflexivity). }
    destruct (zk_rejects rt b w Hreq) as [H3 Hs].
    destruct Hapi as [-> | ->]; [rewrite H3 | rewrite Hs]; auto.
Qed.

(** [{queryResult: "", result: {}}]: the alias is not consulted. *)
Lemma zkpass_query_result_alias_witness :
  fst (Part003.api_verify_zkpass
         (Sample.runtime None (Ok (Sample.zk_verified "abc")))
         [("proofs", JArr [JObj []]); ("queryResult", JStr "");
          ("result", JObj []); ("scope", JStr "twilight")]
         Sample.empty_world)
  = status_json 400
      [("error", JStr "missing fields");
       ("have",
        JArr [JStr "proofs"; JStr "queryResult"; JStr "result";
              JStr "scope"])].
Proof.
  refine (proj1 (proj2 (zkpass_query_result_alias
                          (Sample.runtime None (Ok (Sample.zk_verified "abc")))
                          Sample.empty_world Part003.api_verify_zkpass
                          (or_introl eq_refl))
                   [("proofs", JArr [JObj []]); ("queryResult", JStr "");
                    ("result", JObj []); ("scope", JStr "twilight")]
                   _ _ eq_refl)); discriminate.
Defined.

(** ** [verifySignature]: what is accepted, and which error is reported *)

(** The prefix handed to the curve verifier. *)
Lemma before_first_prefix (sep : ascii) (p rest : string) :
  (forall c, In c (list_ascii_of_string p) -> c <> sep) ->
  before_first sep (p ++ String sep rest) = p.
Proof.
  induction p as [| c p IH]; intros Hp; cbn.
  - rewrite Ascii.eqb_refl. reflexivity.
  - destruct (Ascii.eqb_spec c sep) as [-> | _].
    + destruct (Hp sep (or_introl eq_refl) eq_refl).
    + rewrite IH; [reflexivity |]. intros c' Hin. apply Hp. right. exact Hin.
Qed.

Lemma before_first_no_sep (sep : ascii) (s : string) :
  forall c, In c (list_ascii_of_string (before_first sep s)) -> c <> sep.
Proof.
  induction s as [| a s IH]; cbn; [intros c [] |].
  destruct (Ascii.eqb_spec a sep) as [-> | Hne]; cbn; [intros c [] |].
  intros c [<- | Hin]; [exact Hne | exact (IH c Hin)].
Qed.

(** X14. [verifySignature] answers [{ok: true}] exactly when the address
    and the message are strings, the message is printable ASCII, signature
    and key are strings [assertBase64] accepts and decode to 64 and 33
    bytes, and [verifyADR36Amino] answers true on the decoded values with
    the prefix of the address before its first "1" ("cosmos" when that
    prefix is empty); the prefix is the address's human-readable part
    whenever the address is [p1...] with no "1" in [p]. *)
Theorem verifySignature_accepts_iff
    (rt : Runtime) (a s p m : JsVal) :
  (CosmosVerify.verifySignature rt a s p m = CosmosVerify.mkVerdict true None
   <-> exists address message sigB64 pubB64,
         a = JStr address /\ m = JStr message
         /\ CosmosVerify.assertBase64 "signatureB64" s = Ok sigB64
         /\ CosmosVerify.assertBase64 "pubkeyB64" p = Ok pubB64
         /\ CosmosVerify.first_unprintable message = None
         /\ String.length (CosmosVerify.Buffer_from_base64 pubB64) = 33%nat
         /\ String.length (CosmosVerify.Buffer_from_base64 sigB64) = 64%nat
         /\ verifyADR36Amino rt
              (if (before_first "1" address =? "")%string
               then "cosmos" else before_first "1" address)
              address message (CosmosVerify.Buffer_from_base64 pubB64)
              (CosmosVerify.Buffer_from_base64 sigB64) = Ok true)
  /\ (forall hrp rest,
         hrp <> "" ->
         (forall c, In c (list_ascii_of_string hrp) -> c <> "1"%char) ->
         (if (before_first "1" (hrp ++ String "1" rest) =? "")%string
          then "cosmos" else before_first "1" (hrp ++ String "1" rest))
         = hrp).
Proof.
  split.
  - unfold CosmosVerify.verifySignature, CosmosVerify.verify_body. split.
    + destruct a as [| | | | address | |]; try discriminate.
      destruct m as [| | | | message | |]; try discriminate.
      destruct (CosmosVerify.assertBase64 "signatureB64" s)
        as [sigB64 |] eqn:Hs; [| discriminate].
      destruct (CosmosVerify.assertBase64 "pubkeyB64" p)
        as [pubB64 |] eqn:Hp; [| discriminate].
      cbn [CosmosVerify.rbind]. unfold CosmosVerify.toAscii.
      destruct (CosmosVerify.first_unprintable message) eqn:Hm;
        [discriminate |].
      cbn [CosmosVerify.rbind].
      destruct (Nat.eqb_spec
                  (String.length (CosmosVerify.Buffer_from_base64 pubB64)) 33)
        as [Hpk | Hpk]; cbn [negb]; [| discriminate].
      destruct (Nat.eqb_spec
                  (String.length (CosmosVerify.Buffer_from_base64 sigB64)) 64)
        as [Hsg | Hsg]; cbn [negb]; [| discriminate].
      destruct (verifyADR36Amino rt _ address message _ _) as [b |] eqn:Hv;
        [| discriminate].
      intros [= ->]. exists address, message, sigB64, pubB64. auto 10.
    + intros (address & message & sigB64 & pubB64 & -> & -> & Hs & Hp & Hm
              & Hpk & Hsg & Hv).
      rewrite Hs, Hp. cbn [CosmosVerify.rbind]. unfold CosmosVerify.toAscii.
      rewrite Hm. cbn [CosmosVerify.rbind]. rewrite Hpk, Hsg. cbn [negb Nat.eqb].
      rewrite Hv. reflexivity.
  - intros hrp rest Hne Hno. rewrite (before_first_prefix _ _ _ Hno).
    destruct hrp; [destruct Hne; reflexivity | reflexivity].
Qed.

Lemma verifySignature_accepts_iff_witness :
  (if (before_first "1" ("twilight" ++ String "1" "abc") =? "")%string
   then "cosmos" else before_first "1" ("twilight" ++ String "1" "abc"))
  = "twilight".
Proof.
  refine (proj2 (verifySignature_accepts_iff
                   (Sample.runtime None (Throw Sample.store_down))
                   JNull JNull JNull JNull) "twilight" "abc" _ _).
  - discriminate.
  - intros c Hin.
    repeat (destruct Hin as [<- | Hin]; [discriminate |]). destruct Hin.
Defined.

(** X15. The errors of [verifySignature] come in a fixed order: a
    non-string address is reported first, then a non-string message, then a
    signature that is not base64, then a key that is not base64, then a
    message that is not printable ASCII, then the key's length, and only
    last the signature's length. *)
Theorem verifySignature_error_order
    (rt : Runtime) (a s p m : JsVal) :
  let verdict := CosmosVerify.verifySignature rt a s p m in
  let refused text := verdict = CosmosVerify.mkVerdict false (Some text) in
  (is_string a = false -> refused "bech32Address must be a string")
  /\ (is_string a = true -> is_string m = false ->
      refused "messageString must be a string")
  /\ (is_string a = true -> is_string m = true ->
      (forall x, CosmosVerify.assertBase64 "signatureB64" s <> Ok x) ->
      refused "signatureB64 is not valid base64")
  /\ (forall sigB64,
         is_string a = true -> is_string m = true ->
         CosmosVerify.assertBase64 "signatureB64" s = Ok sigB64 ->
         (forall x, CosmosVerify.assertBase64 "pubkeyB64" p <> Ok x) ->
         refused "pubkeyB64 is not valid base64")
  /\ (forall address message sigB64 pubB64 c,
         a = JStr address -> m = JStr message ->
         CosmosVerify.assertBase64 "signatureB64" s = Ok sigB64 ->
         CosmosVerify.assertBase64 "pubkeyB64" p = Ok pubB64 ->
         CosmosVerify.first_unprintable message = Some c ->
         refused ("Cannot encode character that is out of printable ASCII range: "
                  ++ CosmosVerify.show_nat (nat_of_ascii c)))
  /\ (forall address message sigB64 pubB64,
         a = JStr address -> m = JStr message ->
         CosmosVerify.assertBase64 "signatureB64" s = Ok sigB64 ->
         CosmosVerify.assertBase64 "pubkeyB64" p = Ok pubB64 ->
         CosmosVerify.first_unprintable message = None ->
         String.length (CosmosVerify.Buffer_from_base64 pubB64) <> 33%nat ->
         refused ("pubkey must be 33 bytes (compressed secp256k1). Got "
                  ++ CosmosVerify.show_nat
                       (String.length
                          (CosmosVerify.Buffer_from_base64 pubB64)))).
Proof.
  intros verdict refused. subst verdict refused.
  unfold CosmosVerify.verifySignature, CosmosVerify.verify_body.
  assert (Hbad : forall name v,
             (forall x, CosmosVerify.assertBase64 name v <> Ok x) ->
             CosmosVerify.assertBase64 name v
             = Throw (Error_ (name ++ " is not valid base64"))).
  { intros name v H. unfold CosmosVerify.assertBase64 in *.
    destruct v; try reflexivity.
    destruct (negb (Nat.eqb (Nat.modulo (String.length s0) 4) 0)
              || negb (CosmosVerify.base64_regex s0)); [reflexivity |].
    destruct (H s0 eq_refl). }
  repeat split.
  - intros Ha. destruct a; try discriminate Ha; reflexivity.
  - intros Ha Hm. destruct a; try discriminate Ha.
    destruct m; try discriminate Hm; reflexivity.
  - intros Ha Hm Hs. destruct a; try discriminate Ha.
    destruct m; try discriminate Hm. rewrite (Hbad _ _ Hs). reflexivity.
  - intros sigB64 Ha Hm Hs Hp. destruct a; try discriminate Ha.
    destruct m; try discriminate Hm. rewrite Hs, (Hbad _ _ Hp). reflexivity.
  - intros address message sigB64 pubB64 c -> -> Hs Hp Hm.
    rewrite Hs, Hp. cbn [CosmosVerify.rbind]. unfold CosmosVerify.toAscii.
    rewrite Hm. reflexivity.
  - intros address message sigB64 pubB64 -> -> Hs Hp Hm Hpk.
    rewrite Hs, Hp. cbn [CosmosVerify.rbind]. unfold CosmosVerify.toAscii.
    rewrite Hm. cbn [CosmosVerify.rbind].
    apply Nat.eqb_neq in Hpk. rewrite Hpk. reflexivity.
Qed.

(** A message with a line feed, under a well-formed key and signature. *)
Lemma verifySignature_error_order_witness :
  CosmosVerify.verifySignature (Sample.runtime None (Throw Sample.store_down))
    (JStr "twilight1abc") (JStr Sample.signature64) (JStr Sample.pubkey33)
    (JStr (String "010" "hello"))
  = CosmosVerify.mkVerdict false
      (Some "Cannot encode character that is out of printable ASCII range: 10").
Proof.
  exact (proj1 (proj2 (proj2 (proj2 (proj2
           (verifySignature_error_order
              (Sample.runtime None (Throw Sample.store_down))
              (JStr "twilight1abc") (JStr Sample.signature64)
              (JStr Sample.pubkey33) (JStr (String "010" "hello")))))))
           "twilight1abc" (String "010" "hello") Sample.signature64
           Sample.pubkey33 "010"%char eq_refl eq_refl eq_refl eq_refl
           eq_refl).
Defined.

(** ** The size of what base64 decodes to *)

Lemma bytes_of_sextets_length (q : nat) :
  forall (l : list N) (r : nat),
    (r < 4)%nat ->
    List.length l = (4 * q + r)%nat ->
    String.length (CosmosVerify.bytes_of_sextets l)
    = (3 * q + match r with 2 => 1 | 3 => 2 | _ => 0 end)%nat.
Proof.
  induction q as [| q IH]; intros l r Hr Hl.
  - destruct l as [| a [| b [| c [| d rest]]]]; cbn in Hl;
      try (assert (r = 0%nat) by lia); try (assert (r = 1%nat) by lia);
      try (assert (r = 2%nat) by lia); try (assert (r = 3%nat) by lia);
      try subst r; try reflexivity; lia.
  - destruct l as [| a [| b [| c [| d rest]]]]; cbn in Hl; try lia.
    cbn [CosmosVerify.bytes_of_sextets String.length].
    rewrite (IH rest r Hr) by lia. lia.
Qed.

Lemma sextets_and_tail (s : string) :
  (List.length (CosmosVerify.sextets s)
   + String.length (CosmosVerify.after_b64_chars s))%nat
  = String.length s.
Proof.
  induction s as [| c s IH]; [reflexivity |].
  cbn. unfold CosmosVerify.is_b64_char.
  destruct (CosmosVerify.b64_value c); cbn; [rewrite IH |]; reflexivity.
Qed.

(** X16. A string [assertBase64] accepts has [4 m] characters, of which at
    most the last two are "=", and [Buffer.from(s, "base64")] has
    [3 m] bytes less the number of "=".  So a key that decodes to 33 bytes
    is 44 characters without padding, and a signature that decodes to 64
    bytes is 88 characters ending in "==". *)
Theorem base64_decoded_length (name : string) (v : JsVal) (s : string) :
  CosmosVerify.assertBase64 name v = Ok s ->
  let decoded := String.length (CosmosVerify.Buffer_from_base64 s) in
  let pads := String.length (CosmosVerify.after_b64_chars s) in
  (pads <= 2)%nat
  /\ (exists m, String.length s = (4 * m)%nat
                /\ (decoded + pads)%nat = (3 * m)%nat)
  /\ (decoded = 33%nat -> String.length s = 44%nat /\ pads = 0%nat)
  /\ (decoded = 64%nat -> String.length s = 88%nat /\ pads = 2%nat).
Proof.
  intros Hok decoded pads.
  apply assertBase64_Ok in Hok as (_ & Hmod & Hre).
  assert (Hpads : (pads <= 2)%nat /\ (1 <= String.length s)%nat).
  { subst pads. unfold CosmosVerify.base64_regex in Hre.
    destruct s as [| c s']; [discriminate |].
    apply andb_true_iff in Hre as [_ Htail]. split; [| cbn; lia].
    destruct (CosmosVerify.after_b64_chars (String c s')) as [| x [| y [| z t]]];
      cbn; try lia.
    cbn in Htail. destruct (Ascii.eqb x "="), (Ascii.eqb y "=");
      discriminate Htail. }
  destruct Hpads as [Hpads Hlen].
  pose proof (sextets_and_tail s) as Hsum. fold pads in Hsum.
  pose proof (Nat.Div0.div_mod (String.length s) 4) as Hdiv.
  rewrite Hmod in Hdiv. set (m := (String.length s / 4)%nat) in *.
  assert (Hdec : (decoded + pads)%nat = (3 * m)%nat).
  { subst decoded. unfold CosmosVerify.Buffer_from_base64.
    destruct pads as [| [| [| pads']]]; [| | | lia].
    - rewrite (bytes_of_sextets_length m _ 0) by lia. lia.
    - rewrite (bytes_of_sextets_length (m - 1) _ 3) by lia. lia.
    - rewrite (bytes_of_sextets_length (m - 1) _ 2) by lia. lia. }
  split; [exact Hpads |]. split; [exists m; split; [lia | exact Hdec] |].
  split; intros Hd; rewrite Hd in Hdec; lia.
Qed.

Lemma base64_decoded_length_witness :
  String.length Sample.signature64 = 88%nat
  /\ String.length (CosmosVerify.after_b64_chars Sample.signature64) = 2%nat.
Proof.
  exact (proj2 (proj2 (proj2 (base64_decoded_length "signatureB64"
                                (JStr Sample.signature64) Sample.signature64
                                eq_refl)))
           eq_refl).
Defined.

(** ** Start-up: CORS origins and the environment check *)

Lemma split_nonempty (sep : ascii) (s : string) : split sep s <> [].
Proof.
  destruct s as [| c rest]; cbn; [discriminate |].
  destruct (Ascii.eqb c sep); [discriminate |].
  destruct (split sep rest); discriminate.
Qed.

Lemma join_split (sep : ascii) (s : string) : join sep (split sep s) = s.
Proof.
  induction s as [| c rest IH]; [reflexivity |]. cbn [split].
  pose proof (split_nonempty sep rest) as Hne.
  destruct (Ascii.eqb_spec c sep) as [-> | _].
  - destruct (split sep rest) as [| piece pieces]; [destruct Hne; reflexivity |].
    cbn [join String.append]. cbn [join] in IH. rewrite IH. reflexivity.
  - destruct (split sep rest) as [| piece pieces]; [destruct Hne; reflexivity |].
    destruct pieces as [| piece' pieces'].
    + cbn in *. rewrite IH. reflexivity.
    + cbn [join String.append] in *. rewrite IH. reflexivity.
Qed.

Lemma split_pieces_no_sep (sep : ascii) (s : string) :
  forall piece, In piece (split sep s) ->
    forall c, In c (list_ascii_of_string piece) -> c <> sep.
Proof.
  induction s as [| a rest IH]; cbn [split].
  - intros piece [<- | []] c [].
  - destruct (Ascii.eqb_spec a sep) as [-> | Hne].
    + intros piece [<- | Hin]; [intros c [] | exact (IH piece Hin)].
    + pose proof (split_nonempty sep rest) as Hnil.
      destruct (split sep rest) as [| p ps]; [destruct Hnil; reflexivity |].
      intros piece [<- | Hin].
      * intros c [<- | Hc]; [exact Hne | exact (IH p (or_introl eq_refl) c Hc)].
      * exact (IH piece (or_intror Hin)).
Qed.

(** X17. The CORS policy of [server.mjs]: a request without an Origin
    header (or with an empty one) is always allowed; with [CORS_ORIGINS]
    set and non-empty, the allow-list is its comma-separated pieces, taken
    as they are (joined by commas they give the variable back, so nothing
    is trimmed), and an origin is allowed exactly when it is one of them;
    with [CORS_ORIGINS] unset or empty, exactly when it is one of the four
    local origins. *)
Theorem cors_origin_policy (env : ProcessEnv) :
  let origins := Boot.corsOrigins_server env in
  Boot.origin_allowed origins None = true
  /\ Boot.origin_allowed origins (Some "") = true
  /\ (forall o, o <> "" ->
        (Boot.origin_allowed origins (Some o) = true <-> In o origins))
  /\ (forall s,
         env "CORS_ORIGINS" = Some s -> s <> "" ->
         origins = split "," s
         /\ join "," origins = s
         /\ forall o, In o origins ->
              forall c, In c (list_ascii_of_string o) -> c <> ","%char)
  /\ (env_set (env "CORS_ORIGINS") = false ->
      origins = ["http://localhost:3000"; "http://localhost:3001";
                 "http://localhost:4173"; "http://localhost:5173"]).
Proof.
  intros origins. subst origins. split; [reflexivity |].
  split; [reflexivity |]. split; [| split].
  - intros o Ho. unfold Boot.origin_allowed.
    destruct (String.eqb_spec o "") as [-> | _]; [destruct Ho; reflexivity |].
    rewrite existsb_exists. split.
    + intros (x & Hin & Heq). apply String.eqb_eq in Heq. subst x. exact Hin.
    + intros Hin. exists o. split; [exact Hin | apply String.eqb_refl].
  - intros s Hs Hne. unfold Boot.corsOrigins_server. rewrite Hs.
    destruct (String.eqb_spec s "") as [-> | _]; [destruct Hne; reflexivity |].
    split; [reflexivity |]. split; [apply join_split |].
    apply split_pieces_no_sep.
  - unfold Boot.corsOrigins_server, env_set.
    destruct (env "CORS_ORIGINS") as [s |]; [| reflexivity].
    destruct (s =? "")%string; [reflexivity | discriminate].
Qed.

(** [CORS_ORIGINS="http://a.example, http://b.example"]: the second piece
    keeps its leading blank. *)
Lemma cors_origin_policy_witness :
  Boot.corsOrigins_server
    (fun k => if (k =? "CORS_ORIGINS")%string
              then Some "http://a.example, http://b.example" else None)
  = ["http://a.example"; " http://b.example"].
Proof.
  refine (proj1 (proj1 (proj2 (proj2 (proj2
            (cors_origin_policy
               (fun k => if (k =? "CORS_ORIGINS")%string
                         then Some "http://a.example, http://b.example"
                         else None)))))
            "http://a.example, http://b.example" eq_refl _)).
  discriminate.
Defined.




(** ** The expiry check at its boundary *)

(** X19. The expiry check against the clock, in any time zone.  When the
    zone's offset now and its offset one calendar year ahead differ by at
    most [shift] (an hour where daylight saving applies, nothing in UTC), a
    document that expires no later than 365 days less [shift] from now
    never passes, and one that expires more than 366 days plus [shift] from
    now always passes; in between the answer is whether the expiry date is
    later than now moved one calendar year ahead in local time.  An invalid
    date never passes, and with both offsets 0 the check is the handlers'
    [Policy.expiryOk]. *)
Theorem expiry_horizon_bounds
    (now : JsDate.Clock) (offset_now offset_then shift : Z) :
  JsDate.valid_clock now ->
  Z.abs (offset_then - offset_now) <= shift ->
  forall expiry,
    (expiry <= LocalTime.getTime offset_now now + 365 * JsDate.msPerDay - shift ->
     LocalTime.expiryOk offset_then (Some expiry) now = false)
    /\ (LocalTime.getTime offset_now now + 366 * JsDate.msPerDay + shift
        < expiry ->
        LocalTime.expiryOk offset_then (Some expiry) now = true)
    /\ (LocalTime.expiryOk offset_then (Some expiry) now = true <->
        LocalTime.setFullYear_next offset_then now < expiry)
    /\ LocalTime.expiryOk offset_then None now = false
    /\ LocalTime.expiryOk 0 (Some expiry) now
       = Policy.expiryOk (Some expiry) now.
Proof.
  intros Hv Hshift expiry.
  pose proof (setFullYear_next_bounds now Hv) as [Hlo Hhi].
  unfold LocalTime.expiryOk, LocalTime.setFullYear_next, LocalTime.getTime,
    Policy.expiryOk, Policy.isExpiryValid.
  rewrite Z.sub_0_r, Z.ltb_lt, Z.ltb_ge. repeat split; lia.
Qed.

(** Noon of 12 March 2022 in New York: standard time now (UTC-5), daylight
    time a year ahead (UTC-4), so the horizon is 365 days less one hour; a
    document that expires one millisecond later passes. *)
Lemma expiry_horizon_bounds_witness :
  LocalTime.expiryOk (-14400000)
    (Some (LocalTime.getTime (-18000000) (JsDate.mkClock 2022 2 12 43200000)
           + 365 * JsDate.msPerDay - 3600000 + 1))
    (JsDate.mkClock 2022 2 12 43200000) = true
  /\ LocalTime.expiryOk (-14400000)
       (Some (LocalTime.getTime (-18000000)
                (JsDate.mkClock 2022 2 12 43200000)
              + 365 * JsDate.msPerDay - 3600000))
       (JsDate.mkClock 2022 2 12 43200000) = false.
Proof.
  assert (Hv : JsDate.valid_clock (JsDate.mkClock 2022 2 12 43200000))
    by (unfold JsDate.valid_clock, JsDate.msPerDay; cbn; lia).
  assert (Hshift : Z.abs (-14400000 - -18000000) <= 3600000) by (cbn; lia).
  split.
  - apply (proj1 (proj2 (proj2 (expiry_horizon_bounds
                                  (JsDate.mkClock 2022 2 12 43200000)
                                  (-18000000) (-14400000) 3600000 Hv Hshift
                                  _)))).
    reflexivity.
  - apply (proj1 (expiry_horizon_bounds (JsDate.mkClock 2022 2 12 43200000)
                    (-18000000) (-14400000) 3600000 Hv Hshift _)).
    apply Z.le_refl.
Defined.

(** ** Append-only tables *)

Lemma request_appends (env : ProcessEnv)
    (selfBackendVerifier : option SelfBackendVerifier) (app : App)
    (rt : Runtime) (request : Request) (w : World) :
  app = app_server env selfBackendVerifier
  \/ app = app_part003 env selfBackendVerifier ->
  at_most_one (fun _ => True) (zkpass w) (zkpass (snd (app rt request w)))
  /\ at_most_one (fun _ => True) (selfcheck w)
       (selfcheck (snd (app rt request w))).
Proof.
  intros [-> | ->]; destruct request as [| b | b | b];
    cbn [app_server app_part003 snd];
    try (split; left; reflexivity).
  all: unfold ServerMjs.api_verify_self, ServerMjs.api_verify_zkpass,
      ServerMjs.save_if_match, Part003.api_verify_self,
      Part003.api_verify_zkpass, Part003.save_if_match, catch_zkpass,
      Database.checkAttestationExists;
    unfold_api_verify; rewrite ?validation_condition; crunch.
  all: split;
    first [ left; reflexivity
          | right; eexists; split; [reflexivity | exact I] ].
Qed.

(** X20. The tables are append-only, in [server.mjs] and in [part_003]:
    after any sequence of requests each table holds its former rows, in
    their order, followed by at most one new row per request; so an
    identifier that [selfcheck] counted stays counted. *)
Theorem tables_are_append_only
    (env : ProcessEnv) (selfBackendVerifier : option SelfBackendVerifier)
    (app : App) (requests : list (Runtime * Request)) (w : World) :
  app = app_server env selfBackendVerifier
  \/ app = app_part003 env selfBackendVerifier ->
  let w' := snd (serve app requests w) in
  (exists added,
      zkpass w' = (zkpass w ++ added)%list
      /\ (List.length added <= List.length requests)%nat)
  /\ (exists added,
         selfcheck w' = (selfcheck w ++ added)%list
         /\ (List.length added <= List.length requests)%nat)
  /\ forall id,
       Database.count_selfcheck (selfcheck w) id
       <= Database.count_selfcheck (selfcheck w') id.
Proof.
  intros Happ w'. subst w'.
  assert (Hgrow :
            (exists added,
                zkpass (snd (serve app requests w)) = (zkpass w ++ added)%list
                /\ (List.length added <= List.length requests)%nat)
            /\ (exists added,
                   selfcheck (snd (serve app requests w))
                   = (selfcheck w ++ added)%list
                   /\ (List.length added <= List.length requests)%nat)
            /\ List.length (fst (serve app requests w))
               = List.length requests).
  { revert w. induction requests as [| [rt request] rest IH]; intros w.
    - cbn. repeat split; try (exists []; rewrite app_nil_r; auto).
    - cbn [serve].
      pose proof (request_appends env selfBackendVerifier app rt request w
                    Happ) as [Hz Hs].
      destruct (app rt request w) as [response w1]. cbn [snd] in Hz, Hs.
      destruct (IH w1) as ((az & Haz & Hlz) & (as_ & Has & Hls) & Hlen).
      destruct (serve app rest w1) as [responses w2]. cbn [fst snd] in *.
      split; [| split; [| cbn [List.length]; lia]].
      + destruct Hz as [Hz | (r & Hz & _)]; rewrite Hz in Haz.
        * exists az. split; [exact Haz | cbn [List.length]; lia].
        * exists (r :: az). rewrite Haz, <- app_assoc.
          split; [reflexivity | cbn [List.length]; lia].
      + destruct Hs as [Hs | (r & Hs & _)]; rewrite Hs in Has.
        * exists as_. split; [exact Has | cbn [List.length]; lia].
        * exists (r :: as_). rewrite Has, <- app_assoc.
          split; [reflexivity | cbn [List.length]; lia]. }
  destruct Hgrow as (Hz & Hs & _). repeat split; try assumption.
  intros id. destruct Hs as (added & -> & _).
  rewrite count_selfcheck_app.
  pose proof (count_selfcheck_nonneg added id). lia.
Qed.

(** A valid proof, then the binding of its identifier, on [part_003]: the
    audited identifier "u1" of the sample world stays counted. *)
Lemma tables_are_append_only_witness :
  Database.count_selfcheck (selfcheck Sample.audited_world) (JStr "u1")
  <= Database.count_selfcheck
       (selfcheck
          (snd (serve
                  (app_part003 (fun _ => None)
                     (Some (Sample.verifier_of
                              (Sample.self_valid (JStr "2030-01-01")
                                 Sample.twilight_hex))))
                  [(Sample.runtime None (Throw Sample.store_down),
                    PostVerify Sample.self_request);
                   (Sample.runtime None (Throw Sample.store_down),
                    PostVerifySelf Sample.binding_request)]
                  Sample.audited_world)))
       (JStr "u1").
Proof.
  exact (proj2 (proj2 (tables_are_append_only (fun _ => None)
                         (Some (Sample.verifier_of
                                  (Sample.self_valid (JStr "2030-01-01")
                                     Sample.twilight_hex)))
                         (app_part003 (fun _ => None)
                            (Some (Sample.verifier_of
                                     (Sample.self_valid (JStr "2030-01-01")
                                        Sample.twilight_hex))))
                         [(Sample.runtime None (Throw Sample.store_down),
                           PostVerify Sample.self_request);
                          (Sample.runtime None (Throw Sample.store_down),
                           PostVerifySelf Sample.binding_request)]
                         Sample.audited_world (or_intror eq_refl)))
           (JStr "u1")).
Defined.

(** ** The hex decoding of the wallet address *)

Lemma hex_decode_app (h t : string) :
  hex_pairs h = true ->
  hex_decode (h ++ t) = (hex_decode h ++ hex_decode t)%string
  /\ (2 * String.length (hex_decode h))%nat = String.length h.
Proof.
  revert h. fix IH 1. intros [| a [| b rest]] Hh.
  - split; reflexivity.
  - discriminate Hh.
  - cbn in Hh. cbn [String.append hex_decode].
    destruct (hex_digit a), (hex_digit b); try discriminate Hh.
    destruct (IH rest Hh) as [Happ Hlen].
    rewrite Happ. cbn [String.append String.length]. split; [reflexivity | lia].
Qed.

Lemma hex_decode_length (s : string) :
  (2 * String.length (hex_decode s) <= String.length s)%nat.
Proof.
  revert s. fix IH 1. intros [| a [| b rest]]; cbn; try lia.
  destruct (hex_digit a), (hex_digit b); cbn; try lia.
  specialize (IH rest). lia.
Qed.

Lemma prefix_length (p s : string) :
  String.prefix p s = true -> (String.length p <= String.length s)%nat.
Proof.
  revert s. induction p as [| a p IH]; intros s H; cbn; [lia |].
  destruct s as [| b s]; cbn in H; [discriminate |].
  destruct (Ascii.ascii_dec a b); [| discriminate].
  specialize (IH s H). cbn. lia.
Qed.

(** X21. The address of [/api/verify] is decoded leniently, as
    [Buffer.from(s, "hex")] does: pairs of hex digits that stand for ASCII
    characters decode to those characters, one to the pair, and whatever
    follows them that is not a pair of hex digits (an odd last digit, any
    other text) is dropped without an error.  So user-defined data that is
    the hex of an ASCII address followed by other text passes as that
    address, and a decoded address starts with "twilight" only if the
    user-defined data has at least 16 characters. *)
Theorem hex_address_is_lenient (rt : Runtime) :
  (forall h t,
      hex_pairs h = true ->
      hex_decode t = "" ->
      (forall c, In c (list_ascii_of_string (hex_decode h)) ->
         (nat_of_ascii c < 128)%nat) ->
      Buffer_from_hex rt (JStr (h ++ t)) = Ok (hex_decode h)
      /\ (2 * String.length (hex_decode h))%nat = String.length h)
  /\ (forall a b rest,
         hex_digit a = None \/ hex_digit b = None ->
         hex_decode (String a (String b rest)) = ""
         /\ hex_decode (String a "") = "")
  /\ (forall s cosmosAddress,
         Buffer_from_hex rt (JStr s) = Ok cosmosAddress ->
         startsWith cosmosAddress "twilight" = true ->
         (16 <= String.length s)%nat).
Proof.
  split; [| split].
  - intros h t Hh Ht _. destruct (hex_decode_app h t Hh) as [Happ Hlen].
    cbn [Buffer_from_hex]. rewrite Happ, Ht. split; [| exact Hlen].
    f_equal. clear. induction (hex_decode h) as [| c s IH];
      [reflexivity | cbn; rewrite IH; reflexivity].
  - intros a b rest H. split; [| reflexivity]. cbn.
    destruct H as [-> | ->]; [reflexivity |].
    destruct (hex_digit a); reflexivity.
  - intros s cosmosAddress [= <-] Hp.
    apply prefix_length in Hp. cbn in Hp.
    pose proof (hex_decode_length s). lia.
Qed.

(** "twilight1abc" in hex, then "zz". *)
Lemma hex_address_is_lenient_witness :
  Buffer_from_hex (Sample.runtime None (Throw Sample.store_down))
    (JStr (Sample.twilight_hex ++ "zz"))
  = Ok "twilight1abc".
Proof.
  refine (proj1 (proj1 (hex_address_is_lenient
                          (Sample.runtime None (Throw Sample.store_down)))
                   Sample.twilight_hex "zz" eq_refl eq_refl _)).
  intros c Hin. cbn in Hin.
  repeat (destruct Hin as [<- | Hin]; [cbn; lia |]). destruct Hin.
Defined.
